(** * Structural parser, complexity scorer and classifiers of the
      deep-dive / python-refactor tooling

    A shallow embedding of four scripts of the repository,

      - [measure_complexity.py] (cyclomatic complexity, nesting depth),
      - [ast_parser.py]         (import extraction and classification),
      - [classifier.py]         (file risk classification),
      - [comment_rewriter.py]   (comment taxonomy and file rewriting),

    together with the part of Python they rely on:

      - [Py]: the [str] methods called; text is a [string] of code
        points below 256 (Latin-1), on which the character predicates
        agree with Python's;
      - [Re]: the patterns of the scripts, parsed from their source
        text and matched by backtracking in the order of [re];
      - [Ast]: syntax trees, [ast.walk] and [NodeVisitor.generic_visit].

    The tokenizer, the parser and [pathlib] stay outside: where a
    function calls them they are variables of a section.  Integers are
    [Z]; a visitor's attributes and the file system are threaded as
    state; exceptions are results.

    The definitions come first, module by module as the scripts are;
    their properties follow, from [AstFacts] on. *)

From Stdlib Require Import ZArith NArith String Ascii Lia.
From Stdlib Require Import Numbers.DecimalString.
From stdpp Require Import base option list strings gmap sorting.

Local Open Scope list_scope.
Local Open Scope string_scope.

(* ================================================================== *)
(** * Python's [str]: the methods the scripts call                     *)
(* ================================================================== *)

Module Py.

Definition ord (c : ascii) : N := N_of_ascii c.

Definition between (lo hi n : N) : bool := (lo <=? n)%N && (n <=? hi)%N.

(** [str.isspace] on one character; also the class [\s] of [re]. *)
Definition isspace (c : ascii) : bool :=
  let n := ord c in
  between 9 13 n || between 28 32 n || (n =? 133)%N || (n =? 160)%N.

(** [str.isdecimal]; the class [\d]. *)
Definition isdecimal (c : ascii) : bool := between 48 57 (ord c).

(** Alphanumeric code points and the underscore: the class [\w]. *)
Definition isword (c : ascii) : bool :=
  let n := ord c in
  between 48 57 n || between 65 90 n || between 97 122 n || (n =? 95)%N
  || (n =? 170)%N || between 178 179 n || (n =? 181)%N
  || between 185 186 n || between 188 190 n
  || between 192 214 n || between 216 246 n || between 248 255 n.

(** [str.lower] on one character. *)
Definition lower_char (c : ascii) : ascii :=
  let n := ord c in
  if between 65 90 n || between 192 214 n || between 216 222 n
  then ascii_of_N (n + 32) else c.

Fixpoint lower (s : string) : string :=
  match s with
  | EmptyString => EmptyString
  | String c s' => String (lower_char c) (lower s')
  end.

Definition LF : ascii := "010"%char.
Definition CR : ascii := "013"%char.

(** The one-character string holding a line feed. *)
Definition nl : string := String LF EmptyString.

(** [len(s)] *)
Definition len (s : string) : Z := Z.of_nat (String.length s).

(** Truth value of a string: [bool(s)]. *)
Definition truthy (s : string) : bool :=
  match s with EmptyString => false | _ => true end.

(** [s.lstrip()], [s.rstrip()], [s.strip()] with no argument. *)
Fixpoint lstrip (s : string) : string :=
  match s with
  | String c s' => if isspace c then lstrip s' else s
  | EmptyString => EmptyString
  end.

Fixpoint rstrip (s : string) : string :=
  match s with
  | EmptyString => EmptyString
  | String c s' =>
      match rstrip s' with
      | EmptyString => if isspace c then EmptyString else String c EmptyString
      | t => String c t
      end
  end.

Definition strip (s : string) : string := rstrip (lstrip s).

(** [s.lstrip(chars)] for a one-character [chars]. *)
Fixpoint lstrip_char (x : ascii) (s : string) : string :=
  match s with
  | String c s' => if Ascii.eqb c x then lstrip_char x s' else s
  | EmptyString => EmptyString
  end.

(** [s[-1]], when there is one. *)
Fixpoint last_char (s : string) : option ascii :=
  match s with
  | EmptyString => None
  | String c EmptyString => Some c
  | String _ s' => last_char s'
  end.

(** [s.startswith(p)] *)
Fixpoint startswith (s p : string) : bool :=
  match p, s with
  | EmptyString, _ => true
  | String a p', String b s' => Ascii.eqb a b && startswith s' p'
  | String _ _, EmptyString => false
  end.

(** [p in s] for strings. *)
Fixpoint contains (s p : string) : bool :=
  startswith s p ||
  match s with
  | EmptyString => false
  | String _ s' => contains s' p
  end.

(** [s[n:]] and [s[:n]] for [n >= 0]. *)
Fixpoint drop (n : nat) (s : string) : string :=
  match n, s with
  | S n', String _ s' => drop n' s'
  | _, _ => s
  end.

Fixpoint take (n : nat) (s : string) : string :=
  match n, s with
  | S n', String c s' => String c (take n' s')
  | _, _ => EmptyString
  end.

(** [s.count(p)]: occurrences of a non-empty [p], not overlapping,
    scanning from the left. *)
Fixpoint count_from (fuel : nat) (s p : string) : Z :=
  match fuel with
  | O => 0
  | S fuel' =>
      if startswith s p
      then 1 + count_from fuel' (drop (String.length p) s) p
      else match s with
           | EmptyString => 0
           | String _ s' => count_from fuel' s' p
           end
  end.

Definition count (s p : string) : Z :=
  match p with
  | EmptyString => len s + 1
  | _ => count_from (String.length s) s p
  end.

(** [s.split(sep)] for a one-character separator. *)
Fixpoint split (sep : ascii) (s : string) : list string :=
  match s with
  | EmptyString => [EmptyString]
  | String c s' =>
      if Ascii.eqb c sep then EmptyString :: split sep s'
      else match split sep s' with
           | w :: ws => String c w :: ws
           | [] => [String c EmptyString]
           end
  end.

(** Line boundaries of [str.splitlines]. *)
Definition islinebreak (c : ascii) : bool :=
  let n := ord c in
  between 10 13 n || between 28 30 n || (n =? 133)%N.

(** [s.splitlines()]: no line for the text after the last boundary
    when that text is empty; CR LF is one boundary. *)
Fixpoint splitlines (s : string) : list string :=
  match s with
  | EmptyString => []
  | String c s' =>
      if islinebreak c then
        match s' with
        | String c' s'' =>
            if Ascii.eqb c CR && Ascii.eqb c' LF
            then match splitlines s' with
                 | _ :: ls => EmptyString :: ls
                 | [] => [EmptyString]
                 end
            else EmptyString :: splitlines s'
        | EmptyString => [EmptyString]
        end
      else match splitlines s' with
           | l :: ls => String c l :: ls
           | [] => [String c EmptyString]
           end
  end.

(** [sep.join(parts)] *)
Definition join (sep : string) (parts : list string) : string :=
  String.concat sep parts.

(** [str(n)] for an integer. *)
Definition str_of_Z (z : Z) : string := NilZero.string_of_int (Z.to_int z).

(** [xs[i]] with Python's negative indices; [None] stands for
    [IndexError]. *)
Definition getitem {A} (xs : list A) (i : Z) : option A :=
  let n := Z.of_nat (length xs) in
  let j := if (i <? 0)%Z then (i + n)%Z else i in
  if ((0 <=? j) && (j <? n))%Z then nth_error xs (Z.to_nat j) else None.

(** [s[:n]] with Python's negative bounds. *)
Definition slice_to (s : string) (n : Z) : string :=
  if (n <? 0)%Z then take (Z.to_nat (Z.max 0 (len s + n))) s
  else take (Z.to_nat n) s.

(** Digits in groups of three from the right: the [,] format
    option on a non-negative integer. *)
Fixpoint group3 (digits_rev : list ascii) : list ascii :=
  match digits_rev with
  | a :: b :: c :: ((_ :: _) as more) =>
      a :: b :: c :: ","%char :: group3 more
  | _ => digits_rev
  end.

Definition format_thousands (z : Z) : string :=
  string_of_list_ascii
    (rev (group3 (rev (list_ascii_of_string (str_of_Z z))))).

(** [" " * n] *)
Fixpoint spaces (n : nat) : string :=
  match n with
  | O => EmptyString
  | S n' => String " " (spaces n')
  end.

End Py.

(* ================================================================== *)
(** * Python's [re]: the fragment the scripts' patterns are written in *)
(* ================================================================== *)

Module Re.

Inductive category := Space | Word | Digit.

Inductive set_item :=
| SChar (c : ascii)
| SClass (negated : bool) (k : category).

(** Pattern syntax: literals, [.], the classes [\s \S \w \W \d \D],
    bracket sets without ranges, the anchors [^ $ \b \B], sequence,
    alternation, non-capturing groups and the greedy [* + ?]. *)
Inductive regex :=
| Empty
| Lit (c : ascii)
| AnyChar
| Class (negated : bool) (k : category)
| InSet (negated : bool) (items : list set_item)
| Bol
| Eol
| Boundary
| NotBoundary
| Seq (r1 r2 : regex)
| Alt (r1 r2 : regex)
| Star (r : regex)
| Plus (r : regex)
| Opt (r : regex).

Record flags := { IGNORECASE : bool; MULTILINE : bool }.

Definition NOFLAG : flags := {| IGNORECASE := false; MULTILINE := false |}.
Definition I : flags := {| IGNORECASE := true; MULTILINE := false |}.
Definition M : flags := {| IGNORECASE := false; MULTILINE := true |}.

(** ** Parsing a pattern *)

Definition escape (e : ascii) : option regex :=
  match e with
  | "b"%char => Some Boundary
  | "B"%char => Some NotBoundary
  | "s"%char => Some (Class false Space)
  | "S"%char => Some (Class true Space)
  | "w"%char => Some (Class false Word)
  | "W"%char => Some (Class true Word)
  | "d"%char => Some (Class false Digit)
  | "D"%char => Some (Class true Digit)
  | "n"%char => Some (Lit Py.LF)
  | "t"%char => Some (Lit "009"%char)
  | _ => if Py.isword e then None else Some (Lit e)
  end.

Definition set_escape (e : ascii) : option set_item :=
  match escape e with
  | Some (Class n k) => Some (SClass n k)
  | Some (Lit c) => Some (SChar c)
  | _ => None
  end.

(** Items of a bracket set up to the closing bracket.  A hyphen is a
    literal only as first or last item; ranges are not in the
    fragment. *)
Definition starts_range (s : string) : bool :=
  match s with
  | String "-" (String x _) => negb (Ascii.eqb x "]")
  | _ => false
  end.

Fixpoint parse_set (first : bool) (s : string)
  : option (list set_item * string) :=
  match s with
  | EmptyString => None
  | String "]" s' => if first then None else Some ([], s')
  | String "\" (String e s') =>
      match set_escape e, parse_set false s' with
      | Some i, Some (items, s'') => Some (i :: items, s'')
      | _, _ => None
      end
  | String "\" EmptyString => None
  | String "[" _ => None
  | String c s' =>
      let literal :=
        if Ascii.eqb c "-"
        then first || Py.startswith s' "]"
        else negb (starts_range s') in
      if literal
      then match parse_set false s' with
           | Some (items, s'') => Some (SChar c :: items, s'')
           | None => None
           end
      else None
  end.

(** A repetition operator after an atom; a second operator (lazy or
    possessive forms) is not in the fragment. *)
Definition parse_quant (a : regex) (s : string) : option (regex * string) :=
  let stacked (s' : string) :=
    match s' with
    | String "*" _ | String "+" _ | String "?" _ | String "{" _ => true
    | _ => false
    end in
  match s with
  | String "*" s' => if stacked s' then None else Some (Star a, s')
  | String "+" s' => if stacked s' then None else Some (Plus a, s')
  | String "?" s' => if stacked s' then None else Some (Opt a, s')
  | String "{" _ => None
  | _ => Some (a, s)
  end.

Fixpoint parse_alt (fuel : nat) (s : string) : option (regex * string) :=
  match fuel with
  | O => None
  | S fuel' =>
      match parse_seq fuel' s with
      | Some (r1, String "|" s1) =>
          match parse_alt fuel' s1 with
          | Some (r2, s2) => Some (Alt r1 r2, s2)
          | None => None
          end
      | res => res
      end
  end

with parse_seq (fuel : nat) (s : string) : option (regex * string) :=
  match fuel with
  | O => None
  | S fuel' =>
      match s with
      | EmptyString | String ")" _ | String "|" _ => Some (Empty, s)
      | _ =>
          match parse_atom fuel' s with
          | Some (a, s1) =>
              match parse_quant a s1 with
              | Some (q, s2) =>
                  match parse_seq fuel' s2 with
                  | Some (Empty, s3) => Some (q, s3)
                  | Some (r, s3) => Some (Seq q r, s3)
                  | None => None
                  end
              | None => None
              end
          | None => None
          end
      end
  end

with parse_atom (fuel : nat) (s : string) : option (regex * string) :=
  match fuel with
  | O => None
  | S fuel' =>
      match s with
      | String "(" (String "?" (String ":" s1)) =>
          match parse_alt fuel' s1 with
          | Some (r, String ")" s2) => Some (r, s2)
          | _ => None
          end
      | String "(" _ => None
      | String "[" (String "^" s1) =>
          match parse_set true s1 with
          | Some (items, s2) => Some (InSet true items, s2)
          | None => None
          end
      | String "[" s1 =>
          match parse_set true s1 with
          | Some (items, s2) => Some (InSet false items, s2)
          | None => None
          end
      | String "\" (String e s1) =>
          match escape e with
          | Some r => Some (r, s1)
          | None => None
          end
      | String "\" EmptyString => None
      | String "." s1 => Some (AnyChar, s1)
      | String "^" s1 => Some (Bol, s1)
      | String "$" s1 => Some (Eol, s1)
      | String "*" _ | String "+" _ | String "?" _
      | String "{" _ | String "}" _ | String ")" _ | String "|" _ => None
      | String c s1 => Some (Lit c, s1)
      | EmptyString => None
      end
  end.

(** [parse p]: the whole pattern, or [None] when [p] is outside the
    fragment (or is not a pattern at all). *)
Definition parse (p : string) : option regex :=
  match parse_alt (3 * String.length p + 3) p with
  | Some (r, EmptyString) => Some r
  | _ => None
  end.

(** ** Matching, by backtracking in the order [re] tries things *)

Definition in_category (k : category) (c : ascii) : bool :=
  match k with
  | Space => Py.isspace c
  | Word => Py.isword c
  | Digit => Py.isdecimal c
  end.

Definition is_word_at (c : option ascii) : bool :=
  match c with Some c => Py.isword c | None => false end.

Definition head (s : string) : option ascii :=
  match s with String c _ => Some c | EmptyString => None end.

Section Matcher.

Variable fl : flags.
Context {R : Type}.

(** A position: the character before it (if any) and the text
    from it on. *)
Definition cont := option ascii -> string -> option R.

Definition lit_eq (p c : ascii) : bool :=
  if IGNORECASE fl
  then Ascii.eqb (Py.lower_char p) (Py.lower_char c)
  else Ascii.eqb p c.

Definition item_has (c : ascii) (i : set_item) : bool :=
  match i with
  | SChar p => lit_eq p c
  | SClass n k => xorb n (in_category k c)
  end.

Definition at_bol (prev : option ascii) : bool :=
  match prev with
  | None => true
  | Some c => MULTILINE fl && Ascii.eqb c Py.LF
  end.

Definition at_eol (s : string) : bool :=
  match s with
  | EmptyString => true
  | String c EmptyString => Ascii.eqb c Py.LF
  | String c _ => MULTILINE fl && Ascii.eqb c Py.LF
  end.

Definition at_boundary (prev : option ascii) (s : string) : bool :=
  xorb (is_word_at prev) (is_word_at (head s)).

(** One character accepted by [ok]. *)
Definition one (ok : ascii -> bool) (s : string) (k : cont) : option R :=
  match s with
  | String c s' => if ok c then k (Some c) s' else None
  | EmptyString => None
  end.

Definition guard (b : bool) (prev : option ascii) (s : string) (k : cont)
  : option R :=
  if b then k prev s else None.

Definition or_else (a : option R) (b : option R) : option R :=
  match a with Some x => Some x | None => b end.

(** Greedy repetition of [body]: as many rounds as possible first,
    one round fewer on failure.  A round that consumes nothing ends
    the repetition. *)
Fixpoint repeat (body : option ascii -> string -> cont -> option R)
         (rounds : nat) (prev : option ascii) (s : string) (k : cont)
  : option R :=
  match rounds with
  | O => k prev s
  | S rounds' =>
      or_else
        (body prev s (fun p' s' =>
           if (String.length s' <? String.length s)%nat
           then repeat body rounds' p' s' k
           else None))
        (k prev s)
  end.

Fixpoint run (r : regex) (prev : option ascii) (s : string) (k : cont)
  : option R :=
  match r with
  | Empty => k prev s
  | Lit p => one (lit_eq p) s k
  | AnyChar => one (fun c => negb (Ascii.eqb c Py.LF)) s k
  | Class n c => one (fun a => xorb n (in_category c a)) s k
  | InSet n items => one (fun a => xorb n (existsb (item_has a) items)) s k
  | Bol => guard (at_bol prev) prev s k
  | Eol => guard (at_eol s) prev s k
  | Boundary => guard (at_boundary prev s) prev s k
  | NotBoundary => guard (negb (at_boundary prev s)) prev s k
  | Seq r1 r2 => run r1 prev s (fun p' s' => run r2 p' s' k)
  | Alt r1 r2 => or_else (run r1 prev s k) (run r2 prev s k)
  | Opt r1 => or_else (run r1 prev s k) (k prev s)
  | Star r1 => repeat (run r1) (String.length s) prev s k
  | Plus r1 =>
      run r1 prev s (fun p' s' => repeat (run r1) (String.length s') p' s' k)
  end.

End Matcher.

(** A matcher hands its continuation a position not before its own. *)
Definition shrinks {R} (m : option ascii -> string -> cont (R:=R) -> option R)
  : Prop :=
  forall prev s k x,
    m prev s k = Some x ->
    exists p' s', (String.length s' <= String.length s)%nat
                  /\ k p' s' = Some x.

(** Two continuations fail together, one on a text and one on the
    lowered text. *)
Definition fail_together {R R'} (k : cont (R:=R)) (k' : cont (R:=R'))
  : Prop :=
  forall p s,
    k p s = None <-> k' (option_map Py.lower_char p) (Py.lower s) = None.

(** A match found while scanning: the text skipped before it, the
    text matched, and the position after it. *)
Record found := {
  skipped : string;
  matched : string;
  last : option ascii;
  rest : string
}.

(** A match starting exactly at this position.  [must_advance]
    refuses the empty match (set after an empty match, so that a scan
    makes progress). *)
Definition match_here (fl : flags) (r : regex) (must_advance : bool)
           (prev : option ascii) (s : string) : option found :=
  run fl r prev s (fun p' s' =>
    let n := (String.length s - String.length s')%nat in
    if must_advance && (n =? 0)%nat then None
    else Some {| skipped := EmptyString; matched := Py.take n s;
                 last := p'; rest := s' |}).

(** Leftmost match at or after this position. *)
Fixpoint search_from (fl : flags) (r : regex) (must_advance : bool)
         (prev : option ascii) (s : string) : option found :=
  match match_here fl r must_advance prev s with
  | Some f => Some f
  | None =>
      match s with
      | EmptyString => None
      | String c s' =>
          match search_from fl r false (Some c) s' with
          | Some f => Some {| skipped := String c (skipped f);
                              matched := matched f;
                              last := last f; rest := rest f |}
          | None => None
          end
      end
  end.

(** Successive matches, left to right, not overlapping. *)
Fixpoint scan (fuel : nat) (fl : flags) (r : regex) (must_advance : bool)
         (prev : option ascii) (s : string) : list found * string :=
  match fuel with
  | O => ([], s)
  | S fuel' =>
      match search_from fl r must_advance prev s with
      | None => ([], s)
      | Some f =>
          let '(fs, tail) :=
            scan fuel' fl r (String.length (matched f) =? 0)%nat
                 (last f) (rest f) in
          (f :: fs, tail)
      end
  end.

(** Steps a scan can still take: two per character, one more when
    the empty match is still allowed here. *)
Definition steps_left (must_advance : bool) (s : string) : nat :=
  (2 * String.length s + (if must_advance then 0 else 1))%nat.

Definition scan_all (fl : flags) (r : regex) (s : string)
  : list found * string :=
  scan (2 * String.length s + 2) fl r false None s.

(** ** The API: compiled patterns and the functions called on them *)

(** A pattern object: its source and flags. *)
Record Pattern := compile { pattern : string; pflags : flags }.

(** [p.search(s)]: the match's span, or [None].  A pattern outside
    the fragment finds nothing; all patterns of the scripts are
    inside (see [patterns_in_fragment]). *)
Definition search (p : Pattern) (s : string) : option (nat * nat) :=
  match parse (pattern p) with
  | Some r =>
      match search_from (pflags p) r false None s with
      | Some f =>
          let b := String.length (skipped f) in
          Some (b, (b + String.length (matched f))%nat)
      | None => None
      end
  | None => None
  end.

(** [p.match(s)]: a match at the very start only. *)
Definition match_ (p : Pattern) (s : string) : option (nat * nat) :=
  match parse (pattern p) with
  | Some r =>
      match match_here (pflags p) r false None s with
      | Some f => Some (O, String.length (matched f))
      | None => None
      end
  | None => None
  end.

(** [p.findall(s)] for a pattern without groups. *)
Definition findall (p : Pattern) (s : string) : list string :=
  match parse (pattern p) with
  | Some r => map matched (fst (scan_all (pflags p) r s))
  | None => []
  end.

(** [p.sub(repl, s)] for a replacement without group references. *)
Definition sub (p : Pattern) (repl : string) (s : string) : string :=
  match parse (pattern p) with
  | Some r =>
      let '(fs, tail) := scan_all (pflags p) r s in
      fold_right (fun f acc => skipped f ++ repl ++ acc) tail fs
  | None => s
  end.

(** Truth value of what [search] and [match] return. *)
Definition hit {A} (m : option A) : bool :=
  match m with Some _ => true | None => false end.

End Re.

(* ================================================================== *)
(** * Python's [ast]: syntax trees and their traversal                 *)
(* ================================================================== *)

Module Ast.

(** [ast.alias]: one imported name.  It has no child nodes and no
    visitor of the scripts handles it, so it is kept as data of the
    import statement. *)
Record alias := { name : string; asname : option string }.

#[local] Set Warnings "-register-all".

(** A syntax tree node.  The node classes a script dispatches on
    have a constructor with the class's node-valued fields, in field
    order; every other class is [Other] with its child nodes in
    field order (what [ast.iter_child_nodes] yields). *)
Inductive node :=
| Import (names : list alias)
| ImportFrom (module : option string) (names : list alias) (level : Z)
| If (test : node) (body orelse : list node)
| While (test : node) (body orelse : list node)
| For (target iter : node) (body orelse : list node)
| With (items body : list node)
| Try (body handlers orelse finalbody : list node)
| ExceptHandler (type : option node) (name : option string)
                (body : list node)
| Assert (test : node) (msg : option node)
| BoolOp (op : node) (values : list node)
| comprehension (target iter : node) (ifs : list node) (is_async : Z)
| Other (class : string) (children : list node).

Section Visiting.

Context {S : Type}.
Variable visit : node -> S -> S.

Definition visit_list (ns : list node) (st : S) : S :=
  fold_left (fun st n => visit n st) ns st.

Definition visit_opt (o : option node) (st : S) : S :=
  match o with Some n => visit n st | None => st end.

(** [NodeVisitor.generic_visit]: call [visit] on every child node,
    field by field, threading the visitor's state. *)
Definition generic_visit (n : node) (st : S) : S :=
  match n with
  | Import _ | ImportFrom _ _ _ => st
  | If test body orelse | While test body orelse =>
      visit_list orelse (visit_list body (visit test st))
  | For target iter body orelse =>
      visit_list orelse (visit_list body (visit iter (visit target st)))
  | With items body => visit_list body (visit_list items st)
  | Try body handlers orelse finalbody =>
      visit_list finalbody
        (visit_list orelse (visit_list handlers (visit_list body st)))
  | ExceptHandler type _ body => visit_list body (visit_opt type st)
  | Assert test msg => visit_opt msg (visit test st)
  | BoolOp op values => visit_list values (visit op st)
  | comprehension target iter ifs _ =>
      visit_list ifs (visit iter (visit target st))
  | Other _ children => visit_list children st
  end.

End Visiting.

(** [ast.iter_child_nodes] *)
Definition iter_child_nodes (n : node) : list node :=
  generic_visit (fun c acc => acc ++ [c])%list n [].

(** The nodes of a subtree, parents before children. *)
Fixpoint descendants (n : node) : list node :=
  n :: generic_visit (fun c acc => acc ++ descendants c)%list n [].

(** Level [i] of the result holds level [i] of both arguments. *)
Fixpoint zip_levels (a b : list (list node)) : list (list node) :=
  match a, b with
  | x :: a', y :: b' => (x ++ y)%list :: zip_levels a' b'
  | [], _ => b
  | _, [] => a
  end.

Fixpoint levels (n : node) : list (list node) :=
  [n] :: generic_visit (fun c acc => zip_levels acc (levels c)) n [].

(** [ast.walk]: the nodes of a tree, breadth first. *)
Definition walk (n : node) : list node := concat (levels n).

(** ** Shorthands for trees, named as [ast.dump] prints them *)

Definition Module (body : list node) : node := Other "Module" body.
Definition arguments : node := Other "arguments" [].
Definition FunctionDef (args : node) (body : list node) : node :=
  Other "FunctionDef" (args :: body).
Definition Pass : node := Other "Pass" [].
Definition Name : node := Other "Name" [].
Definition Expr (value : node) : node := Other "Expr" [value].
Definition Return (value : node) : node := Other "Return" [value].
Definition And : node := Other "And" [].

End Ast.

(* ================================================================== *)
(** * measure_complexity.py                                            *)
(* ================================================================== *)

Module MeasureComplexity.
Import Ast.
Local Open Scope Z_scope.

(** [class ComplexityAnalyzer(ast.NodeVisitor)]; the state is
    [self.complexity]. *)
Module ComplexityAnalyzer.

Definition init : Z := 1.

Fixpoint visit (n : node) (complexity : Z) : Z :=
  match n with
  | If _ _ _            (* visit_If *)
  | While _ _ _         (* visit_While *)
  | For _ _ _ _         (* visit_For *)
  | ExceptHandler _ _ _ (* visit_ExceptHandler *)
  | With _ _            (* visit_With *)
  | Assert _ _ =>       (* visit_Assert *)
      generic_visit visit n (complexity + 1)
  | BoolOp _ values =>  (* visit_BoolOp *)
      generic_visit visit n (complexity + (Z.of_nat (length values) - 1))
  | comprehension _ _ ifs _ =>  (* visit_comprehension *)
      let complexity := complexity + 1 in
      let complexity :=
        match ifs with
        | [] => complexity
        | _ => complexity + Z.of_nat (length ifs)
        end in
      generic_visit visit n complexity
  | _ => generic_visit visit n complexity
  end.

End ComplexityAnalyzer.

(** [class NestingAnalyzer(ast.NodeVisitor)] *)
Module NestingAnalyzer.

Record state := { max_depth : Z; current_depth : Z }.

Definition init : state := {| max_depth := 0; current_depth := 0 |}.

Fixpoint visit (n : node) (self : state) : state :=
  match n with
  | If _ _ _ | While _ _ _ | For _ _ _ _ | With _ _ | Try _ _ _ _ =>
      (* _visit_nested *)
      let self := {| max_depth := max_depth self;
                     current_depth := current_depth self + 1 |} in
      let self := {| max_depth :=
                       Z.max (max_depth self) (current_depth self);
                     current_depth := current_depth self |} in
      let self := generic_visit visit n self in
      {| max_depth := max_depth self;
         current_depth := current_depth self - 1 |}
  | _ => generic_visit visit n self
  end.

End NestingAnalyzer.

Definition calculate_complexity (func_node : node) : Z :=
  ComplexityAnalyzer.visit func_node ComplexityAnalyzer.init.

Definition calculate_max_nesting (func_node : node) : Z :=
  NestingAnalyzer.max_depth
    (NestingAnalyzer.visit func_node NestingAnalyzer.init).

(** ** The two metrics as the specification words them *)

Definition Z_of_bool (b : bool) : Z := if b then 1 else 0.

Definition sumZ (w : node -> Z) (ns : list node) : Z :=
  fold_right (fun n acc => w n + acc) 0 ns.

(** A conditional branch node: if, while, for, except-clause,
    with-block, assert. *)
Definition is_branch (n : node) : bool :=
  match n with
  | If _ _ _ | While _ _ _ | For _ _ _ _
  | ExceptHandler _ _ _ | With _ _ | Assert _ _ => true
  | _ => false
  end.

Definition is_boolean_chain (n : node) : bool :=
  match n with BoolOp _ _ => true | _ => false end.

Definition is_generator (n : node) : bool :=
  match n with comprehension _ _ _ _ => true | _ => false end.

(** Operand count minus one, on a boolean-operator chain. *)
Definition extra_operands (n : node) : Z :=
  match n with
  | BoolOp _ values => Z.of_nat (length values) - 1
  | _ => 0
  end.

(** Filter conditions of a comprehension generator. *)
Definition filters (n : node) : Z :=
  match n with
  | comprehension _ _ ifs _ => Z.of_nat (length ifs)
  | _ => 0
  end.

(** What the specification has one node add. *)
Definition weight (n : node) : Z :=
  Z_of_bool (is_branch n) + extra_operands n
  + Z_of_bool (is_generator n) + filters n.

Definition count (p : node -> bool) (f : node) : Z :=
  sumZ (fun n => Z_of_bool (p n)) (descendants f).

(** One, plus one per branch node, plus the extra operands of each
    boolean chain, plus one per generator and one per filter. *)
Definition cyclomatic_spec (f : node) : Z :=
  1 + count is_branch f
    + sumZ extra_operands (descendants f)
    + count is_generator f
    + sumZ filters (descendants f).

(** A block that nests: if, while, for, with, try. *)
Definition is_block (n : node) : bool :=
  match n with
  | If _ _ _ | While _ _ _ | For _ _ _ _ | With _ _ | Try _ _ _ _ => true
  | _ => false
  end.

(** Blocks on the deepest path below (and including) a node: the
    maximum over the children, not their sum. *)
Fixpoint nesting_spec (n : node) : Z :=
  Z_of_bool (is_block n)
  + generic_visit (fun c deepest => Z.max deepest (nesting_spec c)) n 0.

(** The functions of the specification's examples. *)

(** [def f(): pass] *)
Definition straight_line : node := FunctionDef arguments [Pass].

(** [def f(): (if a and b: pass); (for x in xs: pass)] *)
Definition if_for_and : node :=
  FunctionDef arguments
    [ If (BoolOp And [Name; Name]) [Pass] [];
      For Name Name [Pass] [] ].

(** [def f(): if a: (if b: pass)] *)
Definition if_in_if : node :=
  FunctionDef arguments [ If Name [ If Name [Pass] [] ] [] ].

(** [def f(): (if a: pass); (if b: pass)] *)
Definition if_then_if : node :=
  FunctionDef arguments [ If Name [Pass] []; If Name [Pass] [] ].

(** ** The functions [analyze_file] measures *)

(** [isinstance(node, ast.FunctionDef)]: an [async def] is an
    [AsyncFunctionDef], another class. *)
Definition is_FunctionDef (n : node) : bool :=
  match n with
  | Other class _ => String.eqb class "FunctionDef"
  | _ => false
  end.

(** The nodes [analyze_file] builds metrics for, in its order. *)
Definition function_nodes (tree : node) : list node :=
  List.filter is_FunctionDef (walk tree).

(** [max(xs) if xs else 0] *)
Definition max_or_zero (xs : list Z) : Z :=
  match xs with
  | [] => 0
  | x :: xs' => fold_left Z.max xs' x
  end.

(** The fields [total_functions], [max_complexity] and
    [max_nesting] of the metrics of a file. *)
Definition total_functions (tree : node) : Z :=
  Z.of_nat (length (function_nodes tree)).

Definition max_complexity (tree : node) : Z :=
  max_or_zero (map calculate_complexity (function_nodes tree)).

Definition max_nesting (tree : node) : Z :=
  max_or_zero (map calculate_max_nesting (function_nodes tree)).

(** The statements of [if ... elif ... elif ... else ...]: the
    parser puts each [elif] as the only statement of the [orelse] of
    the [if] before it. *)
Fixpoint elif_chain (arms : list (node * list node)) (orelse : list node)
  : list node :=
  match arms with
  | [] => orelse
  | (test, body) :: arms' => [If test body (elif_chain arms' orelse)]
  end.

(** Every boolean chain of the tree has an operand (the parser
    gives each at least two). *)
Definition chains_have_operands (f : node) : Prop :=
  Forall (fun n => 0 <= extra_operands n) (descendants f).

End MeasureComplexity.

(* ================================================================== *)
(** * ast_parser.py: imports                                           *)
(* ================================================================== *)

Module AstParser.
Import Ast.

Record ImportInfo := {
  module : string;
  names : list string;
  is_from_import : bool;
  is_internal : bool
}.

Definition _COMMON_EXTERNAL_PREFIXES : gset string :=
  list_to_set [
    "os"; "sys"; "re"; "json"; "typing"; "collections"; "dataclasses";
    "pathlib"; "asyncio"; "logging"; "datetime"; "time"; "random";
    "functools"; "itertools"; "contextlib"; "abc"; "enum"; "uuid";
    "hashlib"; "base64"; "urllib"; "http"; "email"; "html"; "xml";
    "sqlite3"; "socket"; "threading"; "multiprocessing"; "subprocess";
    "unittest"; "pytest"; "mock"; "requests"; "aiohttp"; "httpx";
    "pydantic"; "sqlalchemy"; "django"; "flask"; "fastapi"; "celery";
    "redis"; "kafka"; "boto3"; "numpy"; "pandas"; "scipy"
  ].

Definition _is_likely_internal_module (module : string) : bool :=
  if negb (Py.truthy module) then false
  else
    (* Get the top-level package name *)
    let top_level := hd EmptyString (Py.split "." module) in
    (* If it starts with underscore, likely internal *)
    if Py.startswith top_level "_" then true
    (* If it matches common external packages, not internal *)
    else if bool_decide (Py.lower top_level ∈ _COMMON_EXTERNAL_PREFIXES)
    then false
    (* Relative imports are internal *)
    else if Py.startswith module "." then true
    (* Default: assume internal if not recognized *)
    else true.

(** [a or b] on an optional string and a string. *)
Definition or_str (a : option string) (b : string) : string :=
  match a with
  | Some s => if Py.truthy s then s else b
  | None => b
  end.

(** What one node of the walk adds to [imports]. *)
Definition imports_of (n : node) : list ImportInfo :=
  match n with
  | Import names =>
      map (fun a : alias =>
             {| module := name a;
                names := [or_str (asname a) (name a)];
                is_from_import := false;
                is_internal := _is_likely_internal_module (name a) |})
          names
  | ImportFrom node_module node_names _ =>
      let module := or_str node_module EmptyString in
      [ {| module := module;
           names := map name node_names;
           is_from_import := true;
           is_internal := _is_likely_internal_module module |} ]
  | _ => []
  end.

Definition parse_imports (tree : node) : list ImportInfo :=
  flat_map imports_of (walk tree).

(** The trees [ast.parse] gives for the three statements
    [import os], [from . import foo], [import mycompany.widgets]. *)
Definition import_os : node :=
  Module [Import [{| name := "os"; asname := None |}]].

Definition from_dot_import_foo : node :=
  Module [ImportFrom None [{| name := "foo"; asname := None |}] 1].

Definition import_mycompany_widgets : node :=
  Module [Import [{| name := "mycompany.widgets"; asname := None |}]].

(** ** External calls *)

Record ExternalCallInfo := {
  call_type : string;
  pattern : string;
  line_number : Z;
  context : string
}.

(** The dictionary, as the list of its items in insertion order. *)
Definition EXTERNAL_CALL_PATTERNS : list (string * list string) := [
  ("database", [
    "\.find_one\(";
    "\.find_many\(";
    "\.find\(";
    "\.insert_one\(";
    "\.insert_many\(";
    "\.update_one\(";
    "\.update_many\(";
    "\.delete_one\(";
    "\.delete_many\(";
    "\.aggregate\(";
    "\.execute\(";
    "cursor\.";
    "collection\.";
    "motor\.";
    "beanie\.";
    "pymongo\.";
    "mongodb"
  ]);
  ("network", [
    "aiohttp\.";
    "httpx\.";
    "requests\.";
    "\.fetch\(";
    "session\.get\(";
    "session\.post\(";
    "session\.put\(";
    "session\.delete\(";
    "session\.patch\(";
    "client\.get\(";
    "client\.post\(";
    "ClientSession\(";
    "AsyncClient\(";
    "Response\("
  ]);
  ("filesystem", [
    "\bopen\(";
    "\.read\(";
    "\.write\(";
    "\.read_text\(";
    "\.write_text\(";
    "\.mkdir\(";
    "\.rmdir\(";
    "\.unlink\(";
    "os\.remove\(";
    "shutil\."
  ]);
  ("messaging", [
    "\.publish\(";
    "\.send\(";
    "\.consume\(";
    "\.subscribe\(";
    "channel\.";
    "queue\.";
    "topic\.";
    "kafka\.";
    "redis\.pub";
    "celery\.";
    "kombu\."
  ]);
  ("ipc", [
    "subprocess\.";
    "multiprocessing\.";
    "shared_memory";
    "\.socket\(";
    "Popen\(";
    "pipe\(";
    "mmap\."
  ])
].

(** [re.search(pattern, line, re.IGNORECASE)] as a truth value. *)
Definition found_in (line pattern : string) : bool :=
  Re.hit (Re.search (Re.compile pattern Re.I) line).

(** The loop over the patterns of one type: the pattern at which
    it breaks, if it does. *)
Fixpoint first_match (patterns : list string) (line : string)
  : option string :=
  match patterns with
  | [] => None
  | pattern :: patterns' =>
      if found_in line pattern then Some pattern
      else first_match patterns' line
  end.

(** What one line adds to [calls]: the loop over the items of the
    dictionary. *)
Definition calls_on_line (line_num : Z) (line : string)
  : list ExternalCallInfo :=
  flat_map
    (fun '(call_type, patterns) =>
       match first_match patterns line with
       | Some pattern =>
           [ {| call_type := call_type;
                pattern := pattern;
                line_number := line_num;
                context := Py.slice_to (Py.strip line) 100 |} ]
       | None => []
       end)
    EXTERNAL_CALL_PATTERNS.

(** [enumerate(xs, start)] *)
Fixpoint enumerate {A} (start : Z) (xs : list A) : list (Z * A) :=
  match xs with
  | [] => []
  | x :: xs' => (start, x) :: enumerate (start + 1)%Z xs'
  end.

Definition find_external_calls (content : string)
  : list ExternalCallInfo :=
  let lines := Py.split Py.LF content in
  flat_map (fun '(line_num, line) => calls_on_line line_num line)
           (enumerate 1 lines).

(** The types of call, in the order of the dictionary. *)
Definition call_types : list string := map fst EXTERNAL_CALL_PATTERNS.


(** ** Function signatures *)

Record ParameterInfo := {
  param_name : string;
  param_annotation : option string;
  param_default : option string
}.

Section Signatures.

(** Expression nodes are kept abstract, with [ast.unparse] on them:
    [None] stands for an exception. *)
Variable expr : Type.
Variable unparse : expr -> option string.

(** [ast.arg] and [ast.arguments], with the fields that
    [parse_function] reads. *)
Record arg := { arg_name : string; annotation : option expr }.

Record arguments := {
  args : list arg;
  defaults : list expr;
  kwonlyargs : list arg;
  kw_defaults : list (option expr)
}.

(** [None] for an exception, [Some None] for the value [None]. *)
Definition get_annotation_str (node : option expr)
  : option (option string) :=
  match node with
  | None => Some None
  | Some e =>
      match unparse e with
      | Some s => Some (Some s)
      | None => None
      end
  end.

Definition get_default_str (node : option expr) : option string :=
  match node with
  | None => None
  | Some e =>
      match unparse e with
      | Some s => Some s
      | None => Some "..."
      end
  end.

(** One round of the loop over [args.args]. *)
Definition positional_parameter (a : arguments) (i : Z) (x : arg)
  : option ParameterInfo :=
  let num_defaults := Z.of_nat (length (defaults a)) in
  let num_args := Z.of_nat (length (args a)) in
  let non_default_args := (num_args - num_defaults)%Z in
  default ←
    (if (i >=? non_default_args)%Z
     then
       let default_idx := (i - non_default_args)%Z in
       d ← Py.getitem (defaults a) default_idx;
       Some (get_default_str (Some d))
     else Some None);
  annotation ← get_annotation_str (annotation x);
  Some {| param_name := arg_name x;
          param_annotation := annotation;
          param_default := default |}.

(** One round of the loop over [args.kwonlyargs]. *)
Definition keyword_only_parameter (a : arguments) (i : Z) (x : arg)
  : option ParameterInfo :=
  let num_kw_defaults := Z.of_nat (length (kw_defaults a)) in
  default ←
    (if (i <? num_kw_defaults)%Z
     then
       d ← Py.getitem (kw_defaults a) i;
       match d with
       | Some _ => Some (get_default_str d)
       | None => Some None
       end
     else Some None);
  annotation ← get_annotation_str (annotation x);
  Some {| param_name := arg_name x;
          param_annotation := annotation;
          param_default := default |}.

(** [params] at the end of the two loops of [parse_function]. *)
Definition parameters (a : arguments) : option (list ParameterInfo) :=
  positional ←
    mapM (fun '(i, x) => positional_parameter a i x)
         (enumerate 0 (args a));
  keyword_only ←
    mapM (fun '(i, x) => keyword_only_parameter a i x)
         (enumerate 0 (kwonlyargs a));
  Some (app positional keyword_only).

(** The defaults of the positional parameters as the signature
    has them: none for the first ones, then [defaults] in order. *)
Definition right_aligned (a : arguments) : list (option string) :=
  app (replicate (length (args a) - length (defaults a)) None)
      (map (fun d => get_default_str (Some d))
           (drop (length (defaults a) - length (args a)) (defaults a))).

End Signatures.

(** ** Constants and exported symbols *)

(** The statements of a module body as [find_constants] and
    [find_exported_symbols] tell them apart; a target is a name or
    something else. *)
Inductive target :=
| TName (id : string)
| TOther.

Inductive statement :=
| SClassDef (name : string)
| SFunctionDef (name : string)
| SAsyncFunctionDef (name : string)
| SAssign (targets : list target)
| SAnnAssign (target : target)
| SOther.

(** [str.islower] and [str.isupper] on one character. *)
Definition islower_char (c : ascii) : bool :=
  let n := Py.ord c in
  Py.between 97 122 n || (n =? 170)%N || (n =? 181)%N || (n =? 186)%N
  || Py.between 223 246 n || Py.between 248 255 n.

Definition isupper_char (c : ascii) : bool :=
  let n := Py.ord c in
  Py.between 65 90 n || Py.between 192 214 n || Py.between 216 222 n.

(** [s.isupper()]: no lower-case character and at least one
    upper-case character. *)
Definition isupper (s : string) : bool :=
  let cs := list_ascii_of_string s in
  forallb (fun c => negb (islower_char c)) cs && existsb isupper_char cs.

Definition find_constants (body : list statement) : list string :=
  flat_map
    (fun node =>
       match node with
       | SAssign targets =>
           flat_map
             (fun t =>
                match t with
                | TName id => if isupper id then [id] else []
                | TOther => []
                end)
             targets
       | SAnnAssign (TName id) => if isupper id then [id] else []
       | _ => []
       end)
    body.

Definition find_exported_symbols (body : list statement) : list string :=
  flat_map
    (fun node =>
       match node with
       | SClassDef name | SFunctionDef name | SAsyncFunctionDef name =>
           if negb (Py.startswith name "_") then [name] else []
       | SAssign targets =>
           flat_map
             (fun t =>
                match t with
                | TName id =>
                    if negb (Py.startswith id "_") then [id] else []
                | TOther => []
                end)
             targets
       | _ => []
       end)
    body.

(** A statement that is not an annotated assignment. *)
Definition plain (node : statement) : bool :=
  match node with SAnnAssign _ => false | _ => true end.

End AstParser.

(* ================================================================== *)
(** * classifier.py                                                    *)
(* ================================================================== *)

Module Classifier.
Local Open Scope Z_scope.

Definition HIGH_LOC_THRESHOLD : Z := 300.
Definition HIGH_DEPS_THRESHOLD : Z := 5.
Definition HIGH_COMPLEXITY_PATTERN_THRESHOLD : Z := 3.
Definition UTILITY_LOC_MAX : Z := 100.
Definition UTILITY_DEPS_MAX : Z := 3.
Definition CRITICAL_PATTERN_MIN : Z := 3.

Inductive Classification := CRITICAL | HIGH_COMPLEXITY | STANDARD | UTILITY.

Record ClassificationResult := {
  classification : Classification;
  lines_of_code : Z;
  num_dependencies : Z;
  critical_patterns_found : list string;
  complexity_indicators : list string;
  verification_required : bool;
  reasoning : string
}.

Definition CRITICAL_PATTERNS : list string := [
  "\bauth";
  "\btoken\b";
  "\bjwt\b";
  "\bsecret\b";
  "\bcredential";
  "\bpassword\b";
  "\bpermission";
  "\baccess.?control";
  "\bencrypt";
  "\bdecrypt";
  "\bprivate.?key";
  "\bapi.?key";
  "\bsession\b";
  "\boauth";
  "\bsecurity"
].

Definition COMPLEXITY_PATTERNS : list string := [
  "\basync\s+def\b";
  "\bawait\b";
  "\bstate\b.*\bmachine\b";
  "\bfsm\b";
  "\btransition\b";
  "\bcircuit.?breaker\b";
  "\bretry\b";
  "\bbackoff\b";
  "\block\b";
  "\bsemaphore\b";
  "\bmutex\b";
  "\bthread\b";
  "\bprocess\b";
  "\bqueue\b";
  "\bcallback\b";
  "\bevent.?loop\b"
].

Definition dquote : ascii := "034"%char.

(** Three double quotes, and three single quotes. *)
Definition TRIPLE_DOUBLE : string :=
  String dquote (String dquote (String dquote EmptyString)).
Definition TRIPLE_SINGLE : string := "'''".

(** One round of the loop of [count_lines]; the state is
    [(code_lines, in_docstring)]. *)
Definition count_lines_step (st : Z * bool) (line : string) : Z * bool :=
  let '(code_lines, in_docstring) := st in
  let stripped := Py.strip line in
  (* Skip empty lines *)
  if negb (Py.truthy stripped) then st
  else
    (* Track docstrings: [Some st'] stands for [continue] *)
    let tracked :=
      if Py.contains stripped TRIPLE_DOUBLE
         || Py.contains stripped TRIPLE_SINGLE
      then
        let triple_double := Py.count stripped TRIPLE_DOUBLE in
        let triple_single := Py.count stripped TRIPLE_SINGLE in
        if (triple_double =? 2) || (triple_single =? 2)
        then Some st
        else if (triple_double =? 1) || (triple_single =? 1)
        then Some (code_lines, negb in_docstring)
        else None
      else None in
    match tracked with
    | Some st' => st'
    | None =>
        if in_docstring then st
        (* Skip single-line comments *)
        else if Py.startswith stripped "#" then st
        else (code_lines + 1, in_docstring)
    end.

Definition count_lines (content : string) : Z :=
  let lines := Py.split Py.LF content in
  fst (fold_left count_lines_step lines (0, false)).

Definition count_imports (content : string) : Z :=
  let import_pattern := "^(?:from\s+\S+\s+)?import\s+" in
  Z.of_nat (length (Re.findall (Re.compile import_pattern Re.M) content)).

Definition find_patterns (content : string) (patterns : list string)
  : list string :=
  let content_lower := Py.lower content in
  List.filter
    (fun pattern =>
       Re.hit (Re.search (Re.compile pattern Re.I) content_lower))
    patterns.

(** Truth value of a list: [bool(xs)]. *)
Definition truthy_list {A} (xs : list A) : bool :=
  match xs with [] => false | _ :: _ => true end.

(** [x in xs] for a list of strings. *)
Definition mem (x : string) (xs : list string) : bool :=
  existsb (String.eqb x) xs.

Definition classify_from_content (content : string) : ClassificationResult :=
  (* Gather metrics *)
  let loc := count_lines content in
  let num_deps := count_imports content in
  let critical_found := find_patterns content CRITICAL_PATTERNS in
  let complexity_found := find_patterns content COMPLEXITY_PATTERNS in
  let n_critical := Z.of_nat (length critical_found) in
  let n_complexity := Z.of_nat (length complexity_found) in
  (* Primary critical patterns *)
  let primary_critical :=
    ["\bauth"; "\bsecret\b"; "\bcredential"; "\bencrypt"] in
  (* Classification logic *)
  let '(classification, reasoning_parts) :=
    match critical_found with
    | _ :: _ =>
        let has_primary_critical :=
          existsb (fun p => mem p critical_found) primary_critical in
        if (n_critical >=? CRITICAL_PATTERN_MIN) || has_primary_critical
        then (CRITICAL,
              ["Critical patterns found: " ++ Py.str_of_Z n_critical
               ++ " matches"])
        else (HIGH_COMPLEXITY,
              ["Some critical patterns: " ++ Py.str_of_Z n_critical])
    | [] =>
        if (loc >? HIGH_LOC_THRESHOLD)
           || (num_deps >? HIGH_DEPS_THRESHOLD)
           || (n_complexity >=? HIGH_COMPLEXITY_PATTERN_THRESHOLD)
        then (HIGH_COMPLEXITY,
              app (if loc >? HIGH_LOC_THRESHOLD
                   then ["High LOC: " ++ Py.str_of_Z loc] else [])
             (app (if num_deps >? HIGH_DEPS_THRESHOLD
                   then ["Many dependencies: " ++ Py.str_of_Z num_deps]
                   else [])
                  (if n_complexity >=? HIGH_COMPLEXITY_PATTERN_THRESHOLD
                   then ["Complexity patterns: "
                         ++ Py.str_of_Z n_complexity]
                   else [])))
        else if (loc <? UTILITY_LOC_MAX)
                && (num_deps <=? UTILITY_DEPS_MAX)
                && negb (truthy_list complexity_found)
        then (UTILITY, ["Small file with few dependencies"])
        else (STANDARD, ["Standard business logic"])
    end in
  (* Determine if verification is required *)
  let verification_required :=
    match classification with
    | CRITICAL | HIGH_COMPLEXITY => true
    | _ => false
    end in
  {| classification := classification;
     lines_of_code := loc;
     num_dependencies := num_deps;
     critical_patterns_found := critical_found;
     complexity_indicators := complexity_found;
     verification_required := verification_required;
     reasoning := Py.join "; " reasoning_parts |}.

(** ** Notions the specification speaks in *)

(** [w] occurs in [s] as a whole word: no word character right
    before or right after the occurrence. *)
Definition occurs_as_word (w s : string) : Prop :=
  exists before after,
    s = before ++ w ++ after
    /\ Re.is_word_at (Py.last_char before) = false
    /\ Re.is_word_at (Re.head after) = false.

(** [pat] matches at an occurrence of the word [w], whatever
    surrounds the occurrence. *)
Definition matches_word (pat w : string) : Prop :=
  exists r, Re.parse pat = Some r /\
    forall prev after,
      Re.is_word_at prev = false ->
      Re.is_word_at (Re.head after) = false ->
      Re.match_here Re.I r false prev (w ++ after) <> None.

Fixpoint repeat_line (n : nat) (line : string) : string :=
  match n with
  | O => EmptyString
  | S n' => line ++ Py.nl ++ repeat_line n' line
  end.

(** A file of 50 lines of code, two of them imports. *)
Definition fifty_lines : string :=
  "import os" ++ Py.nl ++ "import sys" ++ Py.nl
  ++ repeat_line 48 "total = total + 1".

(** [w] occurs in [s] at the start of a word: no word character
    right before the occurrence; what follows is free. *)
Definition occurs_at_word_start (w s : string) : Prop :=
  exists before after,
    s = before ++ w ++ after
    /\ Re.is_word_at (Py.last_char before) = false.

(** [pat] matches where the text [w] begins a word, whatever
    follows. *)
Definition matches_prefix (pat w : string) : Prop :=
  exists r, Re.parse pat = Some r /\
    forall prev after,
      Re.is_word_at prev = false ->
      Re.match_here Re.I r false prev (w ++ after) <> None.

(** The primary critical patterns, as [classify_from_content] lists
    them. *)
Definition primary_critical : list string :=
  ["\bauth"; "\bsecret\b"; "\bcredential"; "\bencrypt"].

(** A line [count_lines] passes over in every state: blank, or a
    [#] comment holding no triple quote. *)
Definition passed_over (line : string) : Prop :=
  Py.contains line Py.nl = false
  /\ (Py.strip line = EmptyString
      \/ (Py.startswith (Py.strip line) "#" = true
          /\ Py.contains (Py.strip line) TRIPLE_DOUBLE = false
          /\ Py.contains (Py.strip line) TRIPLE_SINGLE = false)).

(** Lines that are not blank. *)
Definition nonblank (lines : list string) : list string :=
  List.filter (fun line => Py.truthy (Py.strip line)) lines.

End Classifier.

(* ================================================================== *)
(** * comment_rewriter.py                                              *)
(* ================================================================== *)

Module CommentRewriter.
Local Open Scope Z_scope.

Definition MAX_FILE_SIZE_BYTES : Z := 10 * 1024 * 1024.

Inductive CommentType :=
| FUNCTION | DESIGN | WHY | TEACHER | CHECKLIST | GUIDE
| TRIVIAL | DEBT | BACKUP
| UNKNOWN.

Inductive CommentClassification := KEEP | ENHANCE | REWRITE | DELETE.

Record CommentInfo := {
  line_number : Z;
  column : Z;
  text : string;
  raw_text : string;
  is_docstring : bool;
  is_inline : bool;
  comment_type : CommentType;
  classification : CommentClassification;
  reason : string;
  suggestion : option string
}.

Definition _DEBT_PATTERNS : list Re.Pattern := [
  Re.compile "\bTODO\b" Re.I;
  Re.compile "\bFIXME\b" Re.I;
  Re.compile "\bXXX\b" Re.I;
  Re.compile "\bHACK\b" Re.I;
  Re.compile "\bBUG\b" Re.I;
  Re.compile "\bWORKAROUND\b" Re.I;
  Re.compile "\bTEMP\b" Re.I;
  Re.compile "\bTEMPORARY\b" Re.I
].

Definition _CHECKLIST_PATTERNS : list Re.Pattern := [
  Re.compile "\bif you (?:change|modify|update)\b" Re.I;
  Re.compile "\bremember to\b" Re.I;
  Re.compile "\bdon'?t forget\b" Re.I;
  Re.compile "\balso update\b" Re.I;
  Re.compile "\bmust be kept in sync\b" Re.I;
  Re.compile "\bsee also\b" Re.I;
  Re.compile "\bwhen changing\b" Re.I
].

Definition _WHY_PATTERNS : list Re.Pattern := [
  Re.compile "\bbecause\b" Re.I;
  Re.compile "\bthe reason\b" Re.I;
  Re.compile "\bwe (?:do|use) this\b" Re.I;
  Re.compile "\bthis is (?:necessary|needed|required)\b" Re.I;
  Re.compile "\bto avoid\b" Re.I;
  Re.compile "\bto prevent\b" Re.I;
  Re.compile "\bworkaround for\b" Re.I;
  Re.compile "\bdue to\b" Re.I;
  Re.compile "\brequired by\b" Re.I;
  Re.compile "\bhistorically\b" Re.I
].

Definition _TEACHER_PATTERNS : list Re.Pattern := [
  Re.compile "\balgorithm\b" Re.I;
  Re.compile "\bprotocol\b" Re.I;
  Re.compile "\bformula\b" Re.I;
  Re.compile "\bequation\b" Re.I;
  Re.compile "\btheorem\b" Re.I;
  Re.compile "\bRFC\s*\d+\b" Re.I;
  Re.compile "\bsee (?:http|https)://\b" Re.I;
  Re.compile "\brefer to\b" Re.I;
  Re.compile "\bexplained in\b" Re.I
].

Definition _GUIDE_PATTERNS : list Re.Pattern := [
  Re.compile "^[\s]*[-=]+[\s]*$" Re.NOFLAG;
  Re.compile "^[\s]*#+ " Re.NOFLAG;
  Re.compile "^\s*section\s*:?\s*" Re.I;
  Re.compile "^[\s]*[/\*]+ " Re.NOFLAG
].

(** Patterns indicating backup/commented-out code *)
Definition _CODE_PATTERNS : list Re.Pattern := [
  Re.compile "^\s*#\s*(?:def|class|import|from|if|for|while|try|except|with|return|yield|raise)\s+" Re.I;
  Re.compile "^\s*#\s*\w+\s*[=\(]" Re.NOFLAG;
  Re.compile "^\s*#\s*\w+\.\w+\(" Re.NOFLAG;
  Re.compile "^\s*#\s*@\w+" Re.NOFLAG;
  Re.compile "^\s*#\s*\w+:\s*\w+\s*[=,]" Re.NOFLAG
].

(** Trivial comment indicators: a comment pattern and the code
    pattern paired with it. *)
Definition _TRIVIAL_INDICATORS : list (Re.Pattern * Re.Pattern) := [
  (Re.compile "#\s*increment\b" Re.I, Re.compile "\+\+|\+=\s*1" Re.NOFLAG);
  (Re.compile "#\s*decrement\b" Re.I, Re.compile "--|-=\s*1" Re.NOFLAG);
  (Re.compile "#\s*return\b" Re.I, Re.compile "\breturn\b" Re.NOFLAG);
  (Re.compile "#\s*loop\b" Re.I, Re.compile "\bfor\b|\bwhile\b" Re.NOFLAG);
  (Re.compile "#\s*import\b" Re.I, Re.compile "\bimport\b" Re.NOFLAG);
  (Re.compile "#\s*set\s+\w+" Re.I, Re.compile "=" Re.NOFLAG);
  (Re.compile "#\s*call\s+\w+" Re.I, Re.compile "\(" Re.NOFLAG);
  (Re.compile "#\s*if\s+\w+" Re.I, Re.compile "\bif\b" Re.NOFLAG)
].

(** Debt pattern for removal in suggestions *)
Definition _DEBT_REMOVAL_PATTERN : Re.Pattern :=
  Re.compile
    "\b(?:TODO|FIXME|XXX|HACK|BUG|WORKAROUND|TEMP|TEMPORARY)\b:?\s*" Re.I.

(** [any(p.match(s) for p in ps)] and [any(p.search(s) for p in ps)] *)
Definition any_match (ps : list Re.Pattern) (s : string) : bool :=
  existsb (fun p => Re.hit (Re.match_ p s)) ps.

Definition any_search (ps : list Re.Pattern) (s : string) : bool :=
  existsb (fun p => Re.hit (Re.search p s)) ps.

Definition classify_comment
           (text raw_text : string) (is_inline is_docstring : bool)
           (line_content : option string)
  : CommentType * CommentClassification * string :=
  let text_lower := Py.lower text in
  (* Docstrings are always function comments *)
  if is_docstring then
    if Py.len text <? 10
    then (FUNCTION, ENHANCE, "Docstring too brief - needs more detail")
    else (FUNCTION, KEEP, "Docstring provides API documentation")
  (* Check for backup (commented-out code) *)
  else if any_match _CODE_PATTERNS raw_text
  then (BACKUP, DELETE,
        "Commented-out code should be removed (use git history)")
  (* Check for debt comments (TODO/FIXME) *)
  else if any_search _DEBT_PATTERNS text
  then (DEBT, REWRITE,
        "Debt marker found - resolve or document in design comments")
  (* Check for trivial comments (restates code) *)
  else if
    match line_content with
    | Some line =>
        Py.truthy line && is_inline &&
        existsb (fun '(comment_pattern, code_pattern) =>
                   Re.hit (Re.search comment_pattern raw_text)
                   && Re.hit (Re.search code_pattern line))
                _TRIVIAL_INDICATORS
    | None => false
    end
  then (TRIVIAL, DELETE, "Comment restates what code already says")
  (* Check for checklist comments *)
  else if any_search _CHECKLIST_PATTERNS text_lower
  then (CHECKLIST, KEEP,
        "Checklist comment - reminds of coordinated changes")
  (* Check for why comments *)
  else if any_search _WHY_PATTERNS text_lower
  then (WHY, KEEP, "Why comment - explains reasoning behind code")
  (* Check for teacher comments *)
  else if any_search _TEACHER_PATTERNS text_lower
  then (TEACHER, KEEP, "Teacher comment - educates about domain concepts")
  (* Check for guide comments (section dividers) *)
  else if any_match _GUIDE_PATTERNS text
  then (GUIDE, KEEP, "Guide comment - provides structure and rhythm")
  (* Short inline comments are often trivial *)
  else if is_inline && (Py.len text <? 20)
  then (TRIVIAL, ENHANCE,
        "Short inline comment - consider expanding or removing")
  (* Default to unknown - needs human review *)
  else (UNKNOWN, ENHANCE,
        "Cannot classify automatically - human review needed").

Definition CommentClassification_eqb (a b : CommentClassification) : bool :=
  match a, b with
  | KEEP, KEEP | ENHANCE, ENHANCE | REWRITE, REWRITE | DELETE, DELETE => true
  | _, _ => false
  end.

Definition suggest_rewrite (comment : CommentInfo) : option string :=
  if CommentClassification_eqb (classification comment) DELETE
  then None  (* Just delete, no rewrite *)
  else
    match comment_type comment with
    | DEBT =>
        (* Suggest converting to design comment or issue *)
        let task_text :=
          Re.sub _DEBT_REMOVAL_PATTERN EmptyString (text comment) in
        Some ("# DESIGN DECISION: " ++ Py.strip task_text ++ Py.nl
              ++ "# Context: [Add why this is deferred and conditions for completion]")
    | TRIVIAL =>
        (* Suggest converting to why comment *)
        Some "# WHY: [Explain the reasoning behind this code, not what it does]"
    | FUNCTION =>
        if CommentClassification_eqb (classification comment) ENHANCE
        then
          (* Suggest expanding docstring *)
          let q3 := String "034" (String "034" (String "034" EmptyString)) in
          Some (q3 ++ "[Brief description of what this does]" ++ Py.nl ++ Py.nl
                ++ "Args:" ++ Py.nl ++ "    [parameter]: [description]"
                ++ Py.nl ++ Py.nl
                ++ "Returns:" ++ Py.nl
                ++ "    [description of return value]" ++ Py.nl ++ Py.nl
                ++ "Raises:" ++ Py.nl
                ++ "    [Exception]: [when it is raised]" ++ Py.nl ++ q3)
        else None
    | _ => None
    end.

(** ** Exceptions, and computations that may raise *)

Inductive exn :=
| CommentRewriterError (msg : string)
| TokenError (msg : string)
| SyntaxError (msg : string)
| IndexError
| OSError.

Inductive result (A : Type) :=
| Return (a : A)
| Raise (e : exn).
Arguments Return {A} a.
Arguments Raise {A} e.

Definition bind {A B} (r : result A) (k : A -> result B) : result B :=
  match r with
  | Return a => k a
  | Raise e => Raise e
  end.

Notation "x <- r ;; k" := (bind r (fun x => k))
  (at level 100, r at next level, right associativity).

(** [for x in xs: st = body(st, x)] where the body may raise. *)
Fixpoint for_each {A St} (body : St -> A -> result St)
         (xs : list A) (st : St) : result St :=
  match xs with
  | [] => Return st
  | x :: xs' => st' <- body st x ;; for_each body xs' st'
  end.

(** ** The file system: paths to files (their text) and directories *)

Inductive entry := File (text : string) | Dir.

Definition filesystem := gmap string entry.

(** Size in bytes of a text written as UTF-8. *)
Fixpoint st_size (text : string) : Z :=
  match text with
  | EmptyString => 0
  | String c s => (if (Py.ord c <? 128)%N then 1 else 2) + st_size s
  end.

(** A computation on the file system: a result and the file system
    it leaves, also when it raises. *)
Definition io (A : Type) := filesystem -> result A * filesystem.

Definition ret {A} (a : A) : io A := fun fs => (Return a, fs).
Definition raise {A} (e : exn) : io A := fun fs => (Raise e, fs).

Definition io_bind {A B} (m : io A) (k : A -> io B) : io B :=
  fun fs =>
    match m fs with
    | (Return a, fs') => k a fs'
    | (Raise e, fs') => (Raise e, fs')
    end.

Notation "x <~ m ;; k" := (io_bind m (fun x => k))
  (at level 100, m at next level, right associativity).
Notation "m ;;; k" := (io_bind m (fun _ => k))
  (at level 100, right associativity).

Definition lift {A} (r : result A) : io A := fun fs => (r, fs).

(** [try: body except Exception: handler; raise] *)
Definition try_reraise {A} (body : io A) (handler : io unit) : io A :=
  fun fs =>
    match body fs with
    | (Return a, fs') => (Return a, fs')
    | (Raise e, fs') =>
        match handler fs' with
        | (Return _, fs'') => (Raise e, fs'')
        | (Raise e', fs'') => (Raise e', fs'')
        end
    end.

Definition exists_ (p : string) : io bool :=
  fun fs => (Return (bool_decide (is_Some (fs !! p))), fs).

Definition is_file (p : string) : io bool :=
  fun fs => (Return (match fs !! p with Some (File _) => true | _ => false end),
             fs).

Definition read_text (p : string) : io string :=
  fun fs => match fs !! p with
            | Some (File text) => (Return text, fs)
            | _ => (Raise OSError, fs)
            end.

Definition write_text (p : string) (text : string) : io unit :=
  fun fs => match fs !! p with
            | Some Dir => (Raise OSError, fs)
            | _ => (Return tt, <[p := File text]> fs)
            end.

Definition unlink (p : string) : io unit :=
  fun fs => match fs !! p with
            | Some (File _) => (Return tt, delete p fs)
            | _ => (Raise OSError, fs)
            end.

(** [src.rename(dst)]: a file replaces a file; anything onto a
    directory, or a directory onto a file, is refused. *)
Definition rename (src dst : string) : io unit :=
  fun fs => match fs !! src, fs !! dst with
            | Some (File text), (None | Some (File _)) =>
                (Return tt, <[dst := File text]> (delete src fs))
            | Some Dir, None => (Return tt, <[dst := Dir]> (delete src fs))
            | _, _ => (Raise OSError, fs)
            end.

Definition stat_size (p : string) : io Z :=
  fun fs => match fs !! p with
            | Some (File text) => (Return (st_size text), fs)
            | Some Dir => (Return 4096, fs)
            | None => (Raise OSError, fs)
            end.

(** ** Tokens *)

Inductive token_type := COMMENT | OTHER_TOKEN.

Record TokenInfo := {
  type : token_type;
  tok_string : string;
  start : Z * Z
}.

(** Edits collected by [rewrite_file] before it applies them. *)
Record edits := {
  changes : list string;
  lines_to_delete : gset Z;
  line_modifications : gmap Z string
}.

(** A stable sort by line number: [comments.sort(key=...)]. *)
Fixpoint insert_by_line (c : CommentInfo) (cs : list CommentInfo)
  : list CommentInfo :=
  match cs with
  | [] => [c]
  | d :: cs' =>
      if line_number c <? line_number d then c :: cs
      else d :: insert_by_line c cs'
  end.

Definition sort_by_line (cs : list CommentInfo) : list CommentInfo :=
  fold_left (fun sorted c => insert_by_line c sorted) cs [].

(** A computation that leaves the file system as it finds it. *)
Definition read_only {A} (m : io A) : Prop :=
  forall disk, snd (m disk) = disk.

(** The entry a real run adds to the changes it returns. *)
Definition wrote (target : string) : list string :=
  ["Wrote changes to: " ++ target].

(** How the outcome [d] of a dry run and the outcome [r] of a real
    run from the same [disk] compare, the real run writing to
    [target]. *)
Definition runs_agree (disk : filesystem) (target : string)
           (d r : result (string * list string) * filesystem) : Prop :=
  snd d = disk
  /\ (forall content changes,
        fst d = Return (content, changes) ->
        fst r = Return (content, app changes (wrote target))
        \/ fst r = Raise OSError)
  /\ (forall content changes,
        fst r = Return (content, changes) ->
        exists changes0,
          changes = app changes0 (wrote target)
          /\ fst d = Return (content, changes0)).

Section Rewriting.

(** Outside the repository: the tokenizer, the parser with the
    docstring lookup, and [pathlib]'s path arithmetic. *)

(** [list(tokenize.generate_tokens(StringIO(source).readline))] *)
Variable generate_tokens : string -> result (list TokenInfo).

(** For each module, function and class node of [ast.walk] over
    the parsed source, in that order: its line ([1] for the
    module) and [ast.get_docstring] of it. *)
Variable docstring_nodes : string -> result (list (Z * option string)).

Variable resolve : string -> string.
Variable parent : string -> string.
Variable suffix : string -> string.
Variable with_suffix : string -> string -> string.

Definition _validate_python_file (file_path : string) : io unit :=
  e <~ exists_ file_path ;;
  if negb e
  then raise (CommentRewriterError ("File does not exist: " ++ file_path))
  else
    f <~ is_file file_path ;;
    if negb f
    then raise (CommentRewriterError ("Path is not a file: " ++ file_path))
    else if negb (String.eqb (suffix file_path) ".py")
    then raise (CommentRewriterError
                  ("File must be a Python file (.py), got: "
                   ++ suffix file_path))
    else
      file_size <~ stat_size file_path ;;
      if file_size >? MAX_FILE_SIZE_BYTES
      then raise (CommentRewriterError
                    ("File too large: " ++ Py.format_thousands file_size
                     ++ " bytes (max "
                     ++ Py.format_thousands MAX_FILE_SIZE_BYTES
                     ++ " bytes)"))
      else ret tt.

Definition _validate_output_path (output_path source_path : string)
  : io string :=
  let resolved := resolve output_path in
  (* Prevent overwriting non-files *)
  e <~ exists_ resolved ;;
  f <~ is_file resolved ;;
  if e && negb f
  then raise (CommentRewriterError
                ("Output path exists but is not a file: " ++ resolved))
  else
    (* Ensure parent directory exists *)
    pe <~ exists_ (parent resolved) ;;
    if negb pe
    then raise (CommentRewriterError
                  ("Output directory does not exist: " ++ parent resolved))
    else ret resolved.

Definition extract_comments (source : string)
  : result (list (Z * Z * string * string * bool)) :=
  tokens <-
    match generate_tokens source with
    | Raise (TokenError e) =>
        Raise (CommentRewriterError ("Failed to tokenize source: " ++ e))
    | r => r
    end ;;
  let lines := Py.splitlines source in
  for_each
    (fun comments tok =>
       match type tok with
       | COMMENT =>
           let line_num := fst (start tok) in
           let col := snd (start tok) in
           let raw := tok_string tok in
           let text := Py.strip (Py.lstrip_char "#" raw) in
           (* Check if inline (code before comment on same line) *)
           is_inline <-
             (if col >? 0
              then match Py.getitem lines (line_num - 1) with
                   | Some line =>
                       Return (Py.truthy (Py.strip (Py.slice_to line col)))
                   | None => Raise IndexError
                   end
              else Return false) ;;
           Return (app comments [(line_num, col, text, raw, is_inline)])
       | OTHER_TOKEN => Return comments
       end)
    tokens [].

Definition extract_docstrings (source : string)
  : result (list (Z * string)) :=
  nodes <-
    match docstring_nodes source with
    | Raise (SyntaxError e) =>
        Raise (CommentRewriterError
                 ("Failed to parse source for docstrings: " ++ e))
    | r => r
    end ;;
  Return (flat_map
            (fun '(line_num, docstring) =>
               match docstring with
               | Some d => if Py.truthy d then [(line_num, d)] else []
               | None => []
               end)
            nodes).

(** The [CommentInfo] built for one extracted comment, with its
    suggestion ([include_suggestions] is true at every call). *)
Definition regular_comment (lines : list string)
           (extracted : Z * Z * string * string * bool) : CommentInfo :=
  let '(line_num, col, text, raw_text, is_inline) := extracted in
  let line_content :=
    if line_num <=? Z.of_nat (length lines)
    then match Py.getitem lines (line_num - 1) with
         | Some l => l
         | None => EmptyString
         end
    else EmptyString in
  let '(comment_type, classification, reason) :=
    classify_comment text raw_text is_inline false (Some line_content) in
  let comment :=
    {| line_number := line_num; column := col; text := text;
       raw_text := raw_text; is_docstring := false;
       is_inline := is_inline; comment_type := comment_type;
       classification := classification; reason := reason;
       suggestion := None |} in
  {| line_number := line_num; column := col; text := text;
     raw_text := raw_text; is_docstring := false;
     is_inline := is_inline; comment_type := comment_type;
     classification := classification; reason := reason;
     suggestion := suggest_rewrite comment |}.

(** The [CommentInfo] built for one docstring. *)
Definition docstring_comment (found : Z * string) : CommentInfo :=
  let '(line_num, docstring) := found in
  let q3 := String "034" (String "034" (String "034" EmptyString)) in
  let '(comment_type, classification, reason) :=
    classify_comment docstring (q3 ++ docstring ++ q3) false true None in
  {| line_number := line_num; column := 0; text := docstring;
     raw_text := q3 ++ docstring ++ q3; is_docstring := true;
     is_inline := false; comment_type := comment_type;
     classification := classification; reason := reason;
     suggestion := None |}.

(** [_analyze_comments_impl(content, file_path, True).comments];
    the counts and ratios of the analysis are derived from this
    list and not read by [rewrite_file]. *)
Definition _analyze_comments_impl (content : string)
  : result (list CommentInfo) :=
  let lines := Py.splitlines content in
  (* Extract and classify regular comments *)
  extracted <- extract_comments content ;;
  let regular := map (regular_comment lines) extracted in
  (* Extract and classify docstrings *)
  docstrings <- extract_docstrings content ;;
  let documented := map docstring_comment docstrings in
  (* Sort by line number *)
  Return (sort_by_line (app regular documented)).

(** One round of the loop over [analysis.comments]. *)
Definition process_comment (lines : list string) (st : edits)
           (comment : CommentInfo) : edits :=
  if is_docstring comment then st
  else
    let line_idx := line_number comment - 1 in
    if negb ((0 <=? line_idx) && (line_idx <? Z.of_nat (length lines)))
    then st
    else
      let old_line :=
        match Py.getitem lines line_idx with
        | Some l => l
        | None => EmptyString
        end in
      let line_no := Py.str_of_Z (line_number comment) in
      let shown := Py.take 50 (text comment) ++ "..." in
      match classification comment with
      | DELETE =>
          if is_inline comment then
            (* Remove only the comment part, validate result *)
            let new_line :=
              Py.rstrip (Py.slice_to old_line (column comment)) in
            if Py.truthy (Py.strip new_line)
            then
              (* Line still has code, keep it *)
              {| line_modifications :=
                   <[line_idx := new_line]> (line_modifications st);
                 lines_to_delete := lines_to_delete st;
                 changes :=
                   app (changes st)
                       ["Line " ++ line_no ++ ": Removed inline comment: "
                        ++ shown] |}
            else
              (* Line becomes empty after removing comment *)
              {| line_modifications := line_modifications st;
                 lines_to_delete := {[line_idx]} ∪ lines_to_delete st;
                 changes :=
                   app (changes st)
                       ["Line " ++ line_no
                        ++ ": Deleted line (empty after comment removal)"]
              |}
          else
            (* Stand-alone comment line - mark for deletion *)
            if Py.startswith (Py.strip old_line) "#"
            then {| line_modifications := line_modifications st;
                    lines_to_delete := {[line_idx]} ∪ lines_to_delete st;
                    changes :=
                      app (changes st)
                          ["Line " ++ line_no ++ ": Deleted comment line: "
                           ++ shown] |}
            else st
      | REWRITE =>
          match suggestion comment with
          | Some sugg =>
              if Py.truthy sugg then
                (* Add suggestion as additional comment before original *)
                let indent :=
                  (String.length old_line
                   - String.length (Py.lstrip old_line))%nat in
                let indent_str := Py.spaces indent in
                let suggestion_lines := Py.split Py.LF sugg in
                let suggestion_text :=
                  Py.join Py.nl
                    (map (fun line => indent_str ++ line)
                         suggestion_lines) in
                (* Store for insertion *)
                match line_modifications st !! line_idx with
                | None =>
                    {| line_modifications :=
                         <[line_idx := suggestion_text ++ Py.nl ++ old_line]>
                           (line_modifications st);
                       lines_to_delete := lines_to_delete st;
                       changes :=
                         app (changes st)
                             ["Line " ++ line_no
                              ++ ": Suggested rewrite for: " ++ shown] |}
                | Some _ => st
                end
              else st
          | None => st
          end
      | _ => st
      end.

(** The lines after the edits: modifications first, then deletions
    from the bottom up. *)
Definition apply_edits (lines : list string) (st : edits) : list string :=
  (* First, apply modifications; distinct keys write distinct
     lines, so the order of the dictionary does not show *)
  let lines :=
    map_fold
      (fun idx new_content lines =>
         if bool_decide (idx ∈ lines_to_delete st) then lines
         else <[Z.to_nat idx := new_content]> lines)
      lines (line_modifications st) in
  (* Then, delete lines from bottom to top to preserve indices *)
  fold_left
    (fun lines idx =>
       if (0 <=? idx) && (idx <? Z.of_nat (length lines))
       then delete (Z.to_nat idx) lines
       else lines)
    (reverse (merge_sort Z.le (elements (lines_to_delete st))))
    lines.

(** The part of [rewrite_file] between reading and writing. *)
Definition rewrite_content (content : string)
  : result (string * list string) :=
  let lines := Py.splitlines content in
  comments <- _analyze_comments_impl content ;;
  let st :=
    fold_left (process_comment lines) comments
              {| changes := []; lines_to_delete := ∅;
                 line_modifications := ∅ |} in
  Return (Py.join Py.nl (apply_edits lines st), changes st).

(** Where a real run writes: [output_path or file_path], both
    resolved. *)
Definition write_target (file_path : string) (output_path : option string)
  : string :=
  match output_path with
  | Some o => resolve o
  | None => resolve file_path
  end.

Definition rewrite_file (file_path : string) (output_path : option string)
           (dry_run : bool) : io (string * list string) :=
  let file_path := resolve file_path in
  (* Validate input file *)
  _validate_python_file file_path ;;;
  (* Validate output path if provided *)
  output_path <~
    match output_path with
    | Some o => o' <~ _validate_output_path o file_path ;; ret (Some o')
    | None => ret None
    end ;;
  content <~ read_text file_path ;;
  rc <~ lift (rewrite_content content) ;;
  let '(rewritten, changes) := rc in
  (* Write if not dry run *)
  if negb dry_run then
    let target :=
      match output_path with Some o => o | None => file_path end in
    e <~ exists_ target ;;
    (if e then
       (* Create backup before overwriting *)
       let backup_path := with_suffix target (suffix target ++ ".tmp") in
       try_reraise
         (old <~ read_text target ;;
          write_text backup_path old ;;;
          write_text target rewritten ;;;
          unlink backup_path)  (* Remove backup on success *)
         (* Restore from backup on failure *)
         (b <~ exists_ backup_path ;;
          if b then rename backup_path target else ret tt)
     else write_text target rewritten) ;;;
    ret (rewritten, app changes ["Wrote changes to: " ++ target])
  else ret (rewritten, changes).

(** The backup [rewrite_file] keeps while it overwrites [target]. *)
Definition backup_path (target : string) : string :=
  with_suffix target (suffix target ++ ".tmp").

End Rewriting.

(** ** Notions the statements about the rewriter speak in *)

(** The debt markers of [_DEBT_PATTERNS], in lower case. *)
Definition debt_markers : list string :=
  ["todo"; "fixme"; "xxx"; "hack"; "bug"; "workaround"; "temp"; "temporary"].

(** The pairs of type and action [classify_comment] can return. *)
Definition outcomes : list (CommentType * CommentClassification) :=
  [ (FUNCTION, ENHANCE); (FUNCTION, KEEP); (BACKUP, DELETE);
    (DEBT, REWRITE); (TRIVIAL, DELETE); (CHECKLIST, KEEP); (WHY, KEEP);
    (TEACHER, KEEP); (GUIDE, KEEP); (TRIVIAL, ENHANCE); (UNKNOWN, ENHANCE) ].


(** The line of the comment [c] holds nothing but the comment:
    nothing before an inline comment, a [#] first on the line of a
    comment that is not inline. *)
Definition comment_only_line (lines : list string) (c : CommentInfo) : Prop :=
  exists old_line,
    Py.getitem lines (line_number c - 1) = Some old_line
    /\ if is_inline c
       then Py.strip (Py.rstrip (Py.slice_to old_line (column c)))
            = EmptyString
       else Py.startswith (Py.strip old_line) "#" = true.

(** No edits collected yet. *)
Definition no_edits : edits :=
  {| changes := []; lines_to_delete := ∅; line_modifications := ∅ |}.

(** Comments in the order of their lines. *)
Definition in_line_order (cs : list CommentInfo) : Prop :=
  Sorted (fun a b => line_number a <= line_number b) cs.

(** The comments of line [n], in the order of the list. *)
Definition on_line (n : Z) (cs : list CommentInfo) : list CommentInfo :=
  List.filter (fun c => line_number c =? n) cs.

(** What [_validate_python_file] accepts: a regular file with the
    suffix [.py] and of at most [MAX_FILE_SIZE_BYTES] bytes. *)
Definition acceptable (suffix : string -> string) (disk : filesystem)
           (p : string) : Prop :=
  exists text,
    disk !! p = Some (File text)
    /\ suffix p = ".py"
    /\ st_size text <= MAX_FILE_SIZE_BYTES.

(** What the analysis attaches to a comment: a suggestion exactly
    when the type is debt, trivial with action enhance, or a
    docstring too brief. *)
Definition well_annotated (c : CommentInfo) : Prop :=
  In (comment_type c, classification c) outcomes
  /\ (is_docstring c = true ->
      comment_type c = FUNCTION /\ suggestion c = None)
  /\ (classification c = REWRITE ->
      comment_type c = DEBT
      /\ exists rest, suggestion c = Some ("# DESIGN DECISION: " ++ rest))
  /\ (classification c = DELETE \/ classification c = KEEP ->
      suggestion c = None).

(** The lines after the edits, told line by line from the line of
    index [idx] on: a line to delete is left out, a line with a
    modification is replaced by it, every other line stays. *)
Fixpoint edited_from (st : edits) (idx : Z) (lines : list string)
  : list string :=
  match lines with
  | [] => []
  | line :: rest =>
      if bool_decide (idx ∈ lines_to_delete st)
      then edited_from st (idx + 1) rest
      else default line (line_modifications st !! idx)
           :: edited_from st (idx + 1) rest
  end.

(** Every index of an edit is the index of a line. *)
Definition within (lines : list string) (st : edits) : Prop :=
  (forall idx, idx ∈ lines_to_delete st ->
               0 <= idx < Z.of_nat (length lines))
  /\ (forall idx, is_Some (line_modifications st !! idx) ->
                  0 <= idx < Z.of_nat (length lines)).

(** The two ways a line is modified for the comment [c]: cut
    before an inline comment to delete, code remaining; or preceded
    by the lines of a suggestion, indented as the line is. *)
Definition cut_before (lines : list string) (c : CommentInfo)
           (new_line : string) : Prop :=
  exists old_line,
    Py.getitem lines (line_number c - 1) = Some old_line
    /\ classification c = DELETE /\ is_inline c = true
    /\ new_line = Py.rstrip (Py.slice_to old_line (column c))
    /\ Py.strip new_line <> EmptyString.

Definition preceded_by_suggestion (lines : list string) (c : CommentInfo)
           (new_line : string) : Prop :=
  exists old_line sugg,
    Py.getitem lines (line_number c - 1) = Some old_line
    /\ classification c = REWRITE /\ suggestion c = Some sugg
    /\ new_line
       = Py.join Py.nl
           (map (fun line =>
                   Py.spaces (String.length old_line
                              - String.length (Py.lstrip old_line))
                   ++ line)
                (Py.split Py.LF sugg))
         ++ Py.nl ++ old_line.

(** The lines after the modifications alone. *)
Definition modified (del : gset Z) (mods : gmap Z string)
           (i : nat) (line : string) : string :=
  if bool_decide (Z.of_nat i ∈ del) then line
  else default line (mods !! Z.of_nat i).

(** The lines whose index, counted from [idx], is not in [del]. *)
Fixpoint keep_from (del : gset Z) (idx : Z) (lines : list string)
  : list string :=
  match lines with
  | [] => []
  | line :: rest =>
      if bool_decide (idx ∈ del) then keep_from del (idx + 1) rest
      else line :: keep_from del (idx + 1) rest
  end.

(** ** A sample file and its surroundings *)

Module Sample.

Definition path : string := "/project/app.py".

Definition source : string :=
  "i += 1  # Increment i" ++ Py.nl
  ++ "    # TODO: fix this" ++ Py.nl
  ++ "# x = 3" ++ Py.nl
  ++ "x = 1" ++ Py.nl.

Definition tok (t : token_type) (s : string) (row col : Z) : TokenInfo :=
  {| type := t; tok_string := s; start := (row, col) |}.

(** What the tokenizer yields on [source]. *)
Definition generate_tokens (s : string) : result (list TokenInfo) :=
  if String.eqb s source then
    Return [ tok OTHER_TOKEN "i" 1 0; tok OTHER_TOKEN "+=" 1 2;
             tok OTHER_TOKEN "1" 1 5; tok COMMENT "# Increment i" 1 8;
             tok OTHER_TOKEN Py.nl 1 21;
             tok COMMENT "# TODO: fix this" 2 4; tok OTHER_TOKEN Py.nl 2 20;
             tok COMMENT "# x = 3" 3 0; tok OTHER_TOKEN Py.nl 3 7;
             tok OTHER_TOKEN "x" 4 0; tok OTHER_TOKEN "=" 4 2;
             tok OTHER_TOKEN "1" 4 4; tok OTHER_TOKEN Py.nl 4 5;
             tok OTHER_TOKEN EmptyString 5 0 ]
  else Raise (TokenError "not the sample").

(** The module node of [source], which has no docstring. *)
Definition docstring_nodes (s : string)
  : result (list (Z * option string)) :=
  if String.eqb s source then Return [(1, None)]
  else Raise (SyntaxError "not the sample").

(** [pathlib] on the sample path. *)
Definition resolve (p : string) : string := p.
Definition parent (p : string) : string := "/project".
Definition suffix (p : string) : string :=
  if String.eqb p path then ".py" else EmptyString.
Definition with_suffix (p sfx : string) : string := "/project/app" ++ sfx.

Definition disk : filesystem :=
  <[path := File source]> (<["/project" := Dir]> ∅).

Definition run (dry_run : bool)
  : result (string * list string) * filesystem :=
  rewrite_file generate_tokens docstring_nodes resolve parent suffix
               with_suffix path None dry_run disk.

Definition rewritten : string :=
  "i += 1" ++ Py.nl
  ++ "    # DESIGN DECISION: fix this" ++ Py.nl
  ++ "    # Context: [Add why this is deferred and conditions for completion]"
  ++ Py.nl
  ++ "    # TODO: fix this" ++ Py.nl
  ++ "x = 1".

Definition reported : list string :=
  [ "Line 1: Removed inline comment: Increment i...";
    "Line 2: Suggested rewrite for: TODO: fix this...";
    "Line 3: Deleted comment line: x = 3..." ].

End Sample.

End CommentRewriter.

(* ================================================================== *)
(** * Properties of the traversal                                      *)
(* ================================================================== *)

Module AstFacts.
Import Ast.

Lemma visit_list_app {S} (f : node -> S -> S) (a b : list node) (st : S) :
  visit_list f (a ++ b)%list st = visit_list f b (visit_list f a st).
Proof. unfold visit_list. apply fold_left_app. Qed.

Lemma visit_list_collect (ns acc : list node) :
  visit_list (fun c acc => acc ++ [c])%list ns acc = (acc ++ ns)%list.
Proof.
  unfold visit_list. revert acc.
  induction ns as [|n ns IH]; intros acc; simpl.
  - now rewrite app_nil_r.
  - rewrite IH, <- app_assoc. reflexivity.
Qed.

(** [generic_visit] visits the child nodes in order. *)
Lemma generic_visit_children {S} (f : node -> S -> S) (n : node) (st : S) :
  generic_visit f n st = visit_list f (iter_child_nodes n) st.
Proof.
  unfold iter_child_nodes.
  destruct n as [ | | t b o | t b o | t i b o | i b | b h o f' | [t|] nm b
                | t [m|] | o v | t i fs a | c ch ]; simpl;
    rewrite ?visit_list_collect; simpl;
    rewrite ?visit_list_app; reflexivity.
Qed.

(** Induction on a tree, with the property known of all children. *)
Lemma node_children_ind (P : node -> Prop) :
  (forall n, Forall P (iter_child_nodes n) -> P n) -> forall n, P n.
Proof.
  intros step.
  fix IH 1.
  intros n. apply step. unfold iter_child_nodes.
  destruct n as [ | | t b o | t b o | t i b o | i b | b h o f' | [t|] nm b
                | t [m|] | o v | t i fs a | c ch ]; simpl;
    rewrite ?visit_list_collect; simpl;
    repeat first
      [ exact I
      | apply List.Forall_nil
      | apply List.Forall_cons; [apply IH|]
      | apply Forall_app; split
      | match goal with
        | |- Forall P ?l =>
            is_var l; induction l; [apply List.Forall_nil|];
            apply List.Forall_cons; [apply IH | assumption]
        end ].
Qed.

End AstFacts.

(* ================================================================== *)
(** * measure_complexity.py: the two metrics                           *)
(* ================================================================== *)

Module MeasureComplexityFacts.
Import Ast AstFacts MeasureComplexity.
Local Open Scope Z_scope.

Lemma sumZ_cons w n ns : sumZ w (n :: ns) = w n + sumZ w ns.
Proof. reflexivity. Qed.

Lemma sumZ_app w a b : sumZ w (a ++ b)%list = sumZ w a + sumZ w b.
Proof. induction a as [|x a IH]; simpl; [reflexivity | rewrite IH; lia]. Qed.

Lemma sumZ_add w1 w2 ns :
  sumZ (fun n => w1 n + w2 n) ns = sumZ w1 ns + sumZ w2 ns.
Proof. induction ns as [|x ns IH]; simpl; [reflexivity | rewrite IH; lia]. Qed.

Lemma visit_list_flat {A} (g : node -> list A) ns acc :
  visit_list (fun c acc => acc ++ g c)%list ns acc
  = (acc ++ flat_map g ns)%list.
Proof.
  unfold visit_list. revert acc.
  induction ns as [|n ns IH]; intros acc; simpl.
  - now rewrite app_nil_r.
  - rewrite IH, <- app_assoc. reflexivity.
Qed.

Lemma descendants_children n :
  descendants n = n :: flat_map descendants (iter_child_nodes n).
Proof.
  transitivity
    (n :: generic_visit (fun c acc => acc ++ descendants c)%list n []).
  - destruct n; reflexivity.
  - now rewrite generic_visit_children, visit_list_flat.
Qed.

(** ** Cyclomatic complexity *)

Lemma visit_weight n c :
  ComplexityAnalyzer.visit n c
  = generic_visit ComplexityAnalyzer.visit n (c + weight n).
Proof.
  destruct n as [ | | t b o | t b o | t i b o | i b | b h o f' | t nm b
                | t m | o v | t i [|x fs] a | cl ch ];
    cbn [ComplexityAnalyzer.visit]; unfold weight;
    cbn [is_branch extra_operands is_generator filters Z_of_bool];
    match goal with
    | |- generic_visit _ _ ?a = generic_visit _ _ ?b =>
        replace b with a by (cbn [length]; lia)
    end; reflexivity.
Qed.

Lemma visit_sum n :
  forall c, ComplexityAnalyzer.visit n c = c + sumZ weight (descendants n).
Proof.
  induction n as [n IH] using node_children_ind. intros c.
  rewrite visit_weight, generic_visit_children, descendants_children.
  rewrite sumZ_cons, Z.add_assoc.
  generalize (c + weight n). unfold visit_list.
  induction IH as [|x xs Hx _ IHxs]; intros c'; cbn [fold_left flat_map].
  - simpl. lia.
  - rewrite IHxs, Hx, sumZ_app. lia.
Qed.

Lemma complexity_formula f : calculate_complexity f = cyclomatic_spec f.
Proof.
  unfold calculate_complexity, ComplexityAnalyzer.init, cyclomatic_spec, count.
  rewrite visit_sum. unfold weight.
  rewrite !sumZ_add. lia.
Qed.

Lemma sumZ_zero w ns : Forall (fun n => w n = 0) ns -> sumZ w ns = 0.
Proof. induction 1 as [|x xs Hx _ IH]; simpl; lia. Qed.

Lemma count_zero p f n :
  count p f = 0 -> In n (descendants f) -> p n = false.
Proof.
  unfold count. induction (descendants f) as [|x xs IH]; simpl; [tauto|].
  assert (0 <= sumZ (fun n => Z_of_bool (p n)) xs).
  { clear. induction xs as [|y ys IH]; simpl; [lia|].
    destruct (p y); simpl; lia. }
  intros Hsum [->|Hin].
  - destruct (p n); simpl in *; [lia | reflexivity].
  - apply IH; [|assumption]. destruct (p x); simpl in *; lia.
Qed.

(** C3. The cyclomatic complexity of a function is 1, plus one per
    conditional branch node (if, while, for, except-clause,
    with-block, assert), plus operand count minus one per
    boolean-operator chain, plus one per comprehension generator and
    one per comprehension filter.  A function with no branch node, no
    boolean chain and no comprehension scores 1; the function with
    one [if], one [for] and one two-operand [and] scores 4. *)
Theorem cyclomatic_complexity_counts :
  (forall f, calculate_complexity f
             = 1 + count is_branch f
                 + sumZ extra_operands (descendants f)
                 + count is_generator f
                 + sumZ filters (descendants f))
  /\ (forall f, count is_branch f = 0 ->
                count is_boolean_chain f = 0 ->
                count is_generator f = 0 ->
                calculate_complexity f = 1)
  /\ calculate_complexity straight_line = 1
  /\ calculate_complexity if_for_and = 4.
Proof.
  split; [exact complexity_formula|].
  split; [|split; reflexivity].
  intros f Hb Hc Hg. rewrite complexity_formula. unfold cyclomatic_spec.
  rewrite Hb, Hg.
  rewrite (sumZ_zero extra_operands), (sumZ_zero filters); [reflexivity| |].
  - apply List.Forall_forall. intros n Hn.
    pose proof (count_zero _ _ _ Hg Hn) as E.
    destruct n; simpl in *; congruence.
  - apply List.Forall_forall. intros n Hn.
    pose proof (count_zero _ _ _ Hc Hn) as E.
    destruct n; simpl in *; congruence.
Qed.

(** The function without branches, as an instance of
    [cyclomatic_complexity_counts]. *)
Lemma cyclomatic_complexity_counts_witness :
  count is_branch straight_line = 0
  /\ count is_boolean_chain straight_line = 0
  /\ count is_generator straight_line = 0
  /\ calculate_complexity straight_line = 1.
Proof.
  do 3 (split; [reflexivity|]).
  apply (proj1 (proj2 cyclomatic_complexity_counts) straight_line);
    reflexivity.
Defined.

(** ** Nesting depth *)

Lemma nesting_children n :
  nesting_spec n
  = Z_of_bool (is_block n)
    + visit_list (fun c deepest => Z.max deepest (nesting_spec c))
                 (iter_child_nodes n) 0.
Proof.
  rewrite <- generic_visit_children. destruct n; reflexivity.
Qed.

Lemma deepest_lower_bound ns d :
  d <= visit_list (fun c deepest => Z.max deepest (nesting_spec c)) ns d.
Proof.
  unfold visit_list. revert d.
  induction ns as [|n ns IH]; intros d; simpl; [lia|].
  etransitivity; [|apply IH]. lia.
Qed.

Lemma nesting_nonneg n : 0 <= nesting_spec n.
Proof.
  rewrite nesting_children.
  pose proof (deepest_lower_bound (iter_child_nodes n) 0).
  destruct (is_block n); simpl; lia.
Qed.

Import NestingAnalyzer.

(** Visiting the children of a node at depth [cur]. *)
Lemma visit_children ns :
  Forall (fun n => forall m cur, cur <= m ->
            visit n {| max_depth := m; current_depth := cur |}
            = {| max_depth := Z.max m (cur + nesting_spec n);
                 current_depth := cur |}) ns ->
  forall m cur d, 0 <= d -> cur + d <= m ->
    visit_list visit ns {| max_depth := m; current_depth := cur |}
    = {| max_depth :=
           Z.max m (cur + visit_list
                      (fun c deepest => Z.max deepest (nesting_spec c)) ns d);
         current_depth := cur |}.
Proof.
  unfold visit_list.
  induction 1 as [|x xs Hx _ IH]; intros m cur d Hd0 Hd; simpl.
  - f_equal. lia.
  - rewrite Hx by lia.
    rewrite (IH _ _ (Z.max d (nesting_spec x))) by lia.
    f_equal.
    pose proof (deepest_lower_bound xs (Z.max d (nesting_spec x))) as L.
    unfold visit_list in L. lia.
Qed.

Lemma visit_depth n :
  forall m cur, cur <= m ->
    visit n {| max_depth := m; current_depth := cur |}
    = {| max_depth := Z.max m (cur + nesting_spec n);
         current_depth := cur |}.
Proof.
  induction n as [n IH] using node_children_ind. intros m cur Hcur.
  rewrite nesting_children.
  pose proof (visit_children _ IH) as V.
  pose proof (deepest_lower_bound (iter_child_nodes n) 0) as L.
  destruct n as [ | | t b o | t b o | t i b o | i b | b h o f' | t nm b
                | t ms | o v | t i fs a | cl ch ];
    cbn [visit is_block Z_of_bool max_depth current_depth];
    rewrite generic_visit_children;
    try (rewrite (V _ _ 0) by lia; cbn [max_depth current_depth]; f_equal;
         lia).
Qed.

Lemma max_nesting_formula f : calculate_max_nesting f = nesting_spec f.
Proof.
  unfold calculate_max_nesting, init.
  rewrite visit_depth by lia. simpl.
  pose proof (nesting_nonneg f). lia.
Qed.

(** C4. The maximum nesting depth counts nested if/while/for/with/try
    blocks along the deepest path of the traversal: the maximum over
    siblings, not their sum.  A function whose body is an [if] inside
    an [if] has depth 2; one whose body is an [if] followed by a
    sibling [if] has depth 1. *)
Theorem max_nesting_is_deepest_path :
  (forall f, calculate_max_nesting f
             = Z_of_bool (is_block f)
               + fold_left (fun deepest c => Z.max deepest (nesting_spec c))
                           (iter_child_nodes f) 0)
  /\ (forall f, calculate_max_nesting f = nesting_spec f)
  /\ calculate_max_nesting if_in_if = 2
  /\ calculate_max_nesting if_then_if = 1.
Proof.
  split; [|split; [exact max_nesting_formula | split; reflexivity]].
  intros f. rewrite max_nesting_formula, nesting_children. reflexivity.
Qed.

End MeasureComplexityFacts.

(* ================================================================== *)
(** * ast_parser.py: classification of imports                         *)
(* ================================================================== *)

Module AstParserFacts.
Import Ast AstParser.

(** C1, on the code.  [import os] is external and
    [import mycompany.widgets] is internal, but the relative import
    [from . import foo] is reported external: its module is absent,
    [parse_imports] passes the empty string, and
    [_is_likely_internal_module] answers [False] on the empty string
    before it reaches its test for relative imports. *)
Theorem relative_import_reported_external :
  map is_internal (parse_imports import_os) = [false]
  /\ map is_internal (parse_imports import_mycompany_widgets) = [true]
  /\ parse_imports from_dot_import_foo
     = [ {| module := EmptyString; names := ["foo"];
            is_from_import := true; is_internal := false |} ].
Proof. repeat split; vm_compute; reflexivity. Qed.

(** No module name an [ImportFrom] node can carry reaches the test
    for a leading dot with a dot-initial name left to accept: a
    relative import is told from [level], which is not consulted. *)
Lemma level_not_consulted m ns l1 l2 :
  parse_imports (Module [ImportFrom m ns l1])
  = parse_imports (Module [ImportFrom m ns l2]).
Proof. reflexivity. Qed.

End AstParserFacts.

(* ================================================================== *)
(** * Properties of text and of pattern search                         *)
(* ================================================================== *)

Module PyFacts.
Import Py.

Lemma lower_app a b : lower (a ++ b) = lower a ++ lower b.
Proof. induction a as [|c a IH]; simpl; [reflexivity | now rewrite IH]. Qed.

(** Lowering a character keeps it a word character, or not one. *)
Lemma isword_lower_char c : isword (lower_char c) = isword c.
Proof.
  destruct c as [[] [] [] [] [] [] [] []]; vm_compute; reflexivity.
Qed.

Lemma last_char_lower s :
  last_char (lower s) = option_map lower_char (last_char s).
Proof.
  induction s as [|c s IH]; [reflexivity|].
  simpl. destruct s; [reflexivity | exact IH].
Qed.

Lemma last_char_cons c s :
  last_char (String c s)
  = match last_char s with Some d => Some d | None => Some c end.
Proof.
  revert c. induction s as [|d s IH]; intros c; [reflexivity|].
  change (last_char (String c (String d s))) with (last_char (String d s)).
  rewrite IH. destruct (last_char s); reflexivity.
Qed.

Lemma append_cons c a b : String c a ++ b = String c (a ++ b).
Proof. reflexivity. Qed.

Lemma nl_append s : nl ++ s = String LF s.
Proof. reflexivity. Qed.

Lemma split_nonempty sep s : split sep s <> [].
Proof.
  destruct s as [|c s]; simpl; [discriminate|].
  destruct (Ascii.eqb c sep); [discriminate|].
  destruct (split sep s); discriminate.
Qed.

(** Splitting at a separator splits the list of fields. *)
Lemma split_app sep a b :
  split sep (a ++ String sep b) = (split sep a ++ split sep b)%list.
Proof.
  induction a as [|c a IH]; rewrite ?append_cons.
  - change (EmptyString ++ String sep b) with (String sep b).
    simpl. now rewrite Ascii.eqb_refl.
  - simpl. destruct (Ascii.eqb c sep); [now rewrite IH|].
    rewrite IH. destruct (split sep a) eqn:E; [|reflexivity].
    now apply split_nonempty in E.
Qed.

(** A text without line feed is one field. *)
Lemma split_single_line s :
  contains s nl = false -> split LF s = [s].
Proof.
  induction s as [|c s IH]; [reflexivity|].
  intros H. simpl in H. apply orb_false_iff in H as [Hc Hs].
  simpl. destruct s as [|d s'].
  - destruct (Ascii.eqb c LF) eqn:E; [|reflexivity].
    apply Ascii.eqb_eq in E. subst c. discriminate Hc.
  - destruct (Ascii.eqb c LF) eqn:E.
    + apply Ascii.eqb_eq in E. subst c. discriminate Hc.
    + rewrite (IH Hs). reflexivity.
Qed.

Lemma lower_char_idem c : lower_char (lower_char c) = lower_char c.
Proof.
  destruct c as [[] [] [] [] [] [] [] []]; vm_compute; reflexivity.
Qed.

Lemma isspace_lower_char c : isspace (lower_char c) = isspace c.
Proof.
  destruct c as [[] [] [] [] [] [] [] []]; vm_compute; reflexivity.
Qed.

Lemma isdecimal_lower_char c : isdecimal (lower_char c) = isdecimal c.
Proof.
  destruct c as [[] [] [] [] [] [] [] []]; vm_compute; reflexivity.
Qed.

Lemma is_LF_lower_char c : Ascii.eqb (lower_char c) LF = Ascii.eqb c LF.
Proof.
  destruct c as [[] [] [] [] [] [] [] []]; vm_compute; reflexivity.
Qed.

Lemma length_lower s : String.length (lower s) = String.length s.
Proof. induction s as [|c s IH]; simpl; [reflexivity | now rewrite IH]. Qed.

Lemma lower_idem s : lower (lower s) = lower s.
Proof.
  induction s as [|c s IH]; simpl; [reflexivity|].
  now rewrite lower_char_idem, IH.
Qed.

(** A text without the separator is one field. *)
Lemma split_one_field sep s :
  contains s (String sep EmptyString) = false -> split sep s = [s].
Proof.
  induction s as [|c s IH]; [reflexivity|].
  intros H. simpl in H. apply orb_false_iff in H as [Hc Hs].
  assert (E : Ascii.eqb c sep = false).
  { destruct (Ascii.eqb c sep) eqn:E; [|reflexivity].
    apply Ascii.eqb_eq in E. subst c. rewrite Ascii.eqb_refl in Hc.
    destruct s; discriminate Hc. }
  simpl. rewrite E.
  destruct s as [|d s']; [reflexivity|]. now rewrite (IH Hs).
Qed.

End PyFacts.

Module ReFacts.
Import Re.

Lemma is_word_at_lower o :
  is_word_at (option_map Py.lower_char o) = is_word_at o.
Proof. destruct o; simpl; [apply PyFacts.isword_lower_char | reflexivity]. Qed.

Lemma head_lower s : head (Py.lower s) = option_map Py.lower_char (head s).
Proof. destruct s; reflexivity. Qed.

Lemma search_from_unfold fl r ma prev s :
  search_from fl r ma prev s
  = match match_here fl r ma prev s with
    | Some f => Some f
    | None =>
        match s with
        | EmptyString => None
        | String c s' =>
            match search_from fl r false (Some c) s' with
            | Some f => Some {| skipped := String c (skipped f);
                                matched := matched f;
                                last := last f; rest := rest f |}
            | None => None
            end
        end
    end.
Proof. destruct s; reflexivity. Qed.

(** A match somewhere in the text is enough for the scan to find
    one (that one, or one further left). *)
Lemma search_from_finds fl r before :
  forall prev s,
    match_here fl r false
      (match Py.last_char before with Some c => Some c | None => prev end) s
    <> None ->
    search_from fl r false prev (before ++ s) <> None.
Proof.
  induction before as [|c before IH]; intros prev s Hm.
  - change (EmptyString ++ s) with s.
    change (match_here fl r false prev s <> None) in Hm.
    rewrite search_from_unfold.
    destruct (match_here fl r false prev s); congruence.
  - change (String c before ++ s) with (String c (before ++ s)).
    rewrite search_from_unfold.
    destruct (match_here fl r false prev (String c (before ++ s)));
      [congruence|].
    specialize (IH (Some c) s).
    rewrite PyFacts.last_char_cons in Hm.
    destruct (search_from fl r false (Some c) (before ++ s));
      [congruence|].
    exfalso. apply IH; [|reflexivity].
    destruct (Py.last_char before); exact Hm.
Qed.

Lemma search_hits p r before s :
  parse (pattern p) = Some r ->
  match_here (pflags p) r false (Py.last_char before) s <> None ->
  hit (search p (before ++ s)) = true.
Proof.
  intros Hp Hm. unfold search. rewrite Hp.
  pose proof (search_from_finds (pflags p) r before None s) as F.
  destruct (search_from (pflags p) r false None (before ++ s)).
  - reflexivity.
  - exfalso. apply F; [|reflexivity].
    destruct (Py.last_char before); exact Hm.
Qed.

(** ** The scan never runs out of fuel *)

Section Shrinking.

Variable fl : flags.
Context {R : Type}.

Lemma one_shrinks ok : shrinks (fun _ s k => one (R:=R) ok s k).
Proof.
  intros prev [|c s] k x H; simpl in H; [discriminate|].
  destruct (ok c); [|discriminate].
  exists (Some c), s. split; [simpl; lia | exact H].
Qed.

Lemma guard_shrinks (b : option ascii -> string -> bool) :
  shrinks (fun prev s k => guard (R:=R) (b prev s) prev s k).
Proof.
  intros prev s k x H. unfold guard in H.
  destruct (b prev s); [|discriminate]. eauto.
Qed.

Lemma repeat_shrinks (body : option ascii -> string -> cont -> option R) :
  shrinks body -> forall rounds, shrinks (repeat body rounds).
Proof.
  intros Hbody rounds.
  induction rounds as [|n IH]; intros prev s k x H; simpl in H.
  - eauto.
  - unfold or_else in H.
    destruct (body prev s _) as [y|] eqn:E.
    + injection H as ->.
      apply Hbody in E as (p1 & s1 & L1 & E1).
      destruct (Nat.ltb_spec (String.length s1) (String.length s));
        [|discriminate].
      apply IH in E1 as (p2 & s2 & L2 & E2).
      exists p2, s2. split; [lia | exact E2].
    + eauto.
Qed.

Lemma run_shrinks r : shrinks (run (R:=R) fl r).
Proof.
  induction r as [ | c | | n c | n items | | | | | r1 IH1 r2 IH2
                 | r1 IH1 r2 IH2 | r1 IH1 | r1 IH1 | r1 IH1 ];
    intros prev s k x H; cbn [run] in H.
  - eauto.
  - eapply one_shrinks; eauto.
  - eapply one_shrinks; eauto.
  - eapply one_shrinks; eauto.
  - eapply one_shrinks; eauto.
  - eapply (guard_shrinks (fun p _ => at_bol fl p)); eauto.
  - eapply (guard_shrinks (fun _ t => at_eol fl t)); eauto.
  - eapply (guard_shrinks at_boundary); eauto.
  - eapply (guard_shrinks (fun p t => negb (at_boundary p t))); eauto.
  - apply IH1 in H as (p1 & s1 & L1 & H).
    apply IH2 in H as (p2 & s2 & L2 & H).
    exists p2, s2. split; [lia | exact H].
  - unfold or_else in H.
    destruct (run fl r1 prev s k) eqn:E.
    + injection H as ->. eapply IH1; eauto.
    + eapply IH2; eauto.
  - eapply repeat_shrinks; eauto.
  - apply IH1 in H as (p1 & s1 & L1 & H).
    apply (repeat_shrinks _ IH1) in H as (p2 & s2 & L2 & H).
    exists p2, s2. split; [lia | exact H].
  - unfold or_else in H.
    destruct (run fl r1 prev s k) eqn:E.
    + injection H as ->. eapply IH1; eauto.
    + eauto.
Qed.

End Shrinking.

Lemma length_take n s :
  (n <= String.length s)%nat -> String.length (Py.take n s) = n.
Proof.
  revert s. induction n as [|n IH]; intros [|c s] L; simpl in *;
    try reflexivity; try lia.
  rewrite IH by lia. reflexivity.
Qed.

(** A match at a position splits the text there into what is matched
    and what is left. *)
Lemma match_here_lengths fl r ma prev s f :
  match_here fl r ma prev s = Some f ->
  skipped f = EmptyString
  /\ String.length s
     = (String.length (matched f) + String.length (rest f))%nat
  /\ (ma = true -> String.length (matched f) <> O).
Proof.
  unfold match_here. intros H.
  apply run_shrinks in H as (p' & s' & L & H).
  destruct (ma && (String.length s - String.length s' =? 0)%nat) eqn:E;
    [discriminate|].
  injection H as <-. cbn [skipped matched rest].
  rewrite length_take by lia.
  split; [reflexivity|]. split; [lia|].
  intros ->. cbn [andb] in E. apply Nat.eqb_neq in E. exact E.
Qed.

Lemma search_from_lengths fl r s :
  forall ma prev f,
    search_from fl r ma prev s = Some f ->
    String.length s
    = (String.length (skipped f) + String.length (matched f)
       + String.length (rest f))%nat
    /\ (ma = true -> skipped f = EmptyString ->
        String.length (matched f) <> O).
Proof.
  induction s as [|c s IH]; intros ma prev f H;
    rewrite search_from_unfold in H;
    destruct (match_here fl r ma prev _) as [g|] eqn:E.
  - injection H as <-.
    apply match_here_lengths in E as (-> & L & N). simpl in *. auto.
  - discriminate.
  - injection H as <-.
    apply match_here_lengths in E as (-> & L & N). simpl in *. auto.
  - destruct (search_from fl r false (Some c) s) as [g|] eqn:G;
      [|discriminate].
    injection H as <-. cbn [skipped matched rest].
    apply IH in G as (L & _). split; [simpl; lia|].
    intros _ Hs. discriminate Hs.
Qed.

Lemma scan_fuel_irrelevant fl r :
  forall fuel fuel' ma prev s,
    (steps_left ma s < fuel)%nat -> (steps_left ma s < fuel')%nat ->
    scan fuel fl r ma prev s = scan fuel' fl r ma prev s.
Proof.
  induction fuel as [|fuel IH]; intros [|fuel'] ma prev s L L'; try lia.
  cbn [scan].
  destruct (search_from fl r ma prev s) as [f|] eqn:E; [|reflexivity].
  apply search_from_lengths in E as (Len & Adv).
  rewrite (IH fuel'); [reflexivity| |];
    unfold steps_left in *;
    destruct (Nat.eqb_spec (String.length (matched f)) 0) as [Z|NZ];
    destruct ma; try lia;
    (destruct (skipped f) eqn:Sk; [exfalso; apply Adv; auto | simpl in Len; lia]).
Qed.

(** [findall] and [sub] see every match: more fuel changes nothing. *)
Lemma scan_all_complete fl r s fuel :
  (2 * String.length s + 2 <= fuel)%nat ->
  scan fuel fl r false None s = scan_all fl r s.
Proof.
  intros L. unfold scan_all.
  apply scan_fuel_irrelevant; unfold steps_left; lia.
Qed.

(** ** Ignoring case: the letter case of the text does not show *)

Section Lowering.

Variable fl : flags.
Hypothesis ignoring : IGNORECASE fl = true.
Context {R R' : Type}.

Local Abbreviation low := (option_map Py.lower_char).

Lemma or_else_lower (a b : option R) (a' b' : option R') :
  (a = None <-> a' = None) -> (b = None <-> b' = None) ->
  or_else a b = None <-> or_else a' b' = None.
Proof. destruct a, b, a', b'; simpl; intuition congruence. Qed.

Lemma one_lower ok ok' s (k : cont (R:=R)) (k' : cont (R:=R')) :
  (forall c, ok' (Py.lower_char c) = ok c) ->
  fail_together k k' ->
  one ok s k = None <-> one ok' (Py.lower s) k' = None.
Proof.
  intros Hok Hk. destruct s as [|c s]; simpl; [tauto|].
  rewrite Hok. destruct (ok c); [apply (Hk (Some c)) | tauto].
Qed.

Lemma guard_lower b prev s (k : cont (R:=R)) (k' : cont (R:=R')) :
  fail_together k k' ->
  guard b prev s k = None <-> guard b (low prev) (Py.lower s) k' = None.
Proof. intros Hk. destruct b; simpl; [apply Hk | tauto]. Qed.

Lemma lit_eq_lower p c : lit_eq fl p (Py.lower_char c) = lit_eq fl p c.
Proof. unfold lit_eq. now rewrite ignoring, PyFacts.lower_char_idem. Qed.

Lemma in_category_lower k c :
  in_category k (Py.lower_char c) = in_category k c.
Proof.
  destruct k; simpl;
    auto using PyFacts.isspace_lower_char, PyFacts.isword_lower_char,
      PyFacts.isdecimal_lower_char.
Qed.

Lemma item_has_lower c i :
  item_has fl (Py.lower_char c) i = item_has fl c i.
Proof.
  destruct i; simpl; [apply lit_eq_lower | now rewrite in_category_lower].
Qed.

Lemma at_bol_lower prev : at_bol fl (low prev) = at_bol fl prev.
Proof.
  destruct prev as [c|]; simpl; [|reflexivity].
  now rewrite PyFacts.is_LF_lower_char.
Qed.

Lemma at_eol_lower s : at_eol fl (Py.lower s) = at_eol fl s.
Proof.
  destruct s as [|c [|d s]]; simpl; [reflexivity| |];
    now rewrite PyFacts.is_LF_lower_char.
Qed.

Lemma at_boundary_lower prev s :
  at_boundary (low prev) (Py.lower s) = at_boundary prev s.
Proof.
  unfold at_boundary. now rewrite head_lower, !is_word_at_lower.
Qed.

Lemma repeat_lower
      (body : option ascii -> string -> cont (R:=R) -> option R)
      (body' : option ascii -> string -> cont (R:=R') -> option R') :
  (forall prev s (k : cont (R:=R)) (k' : cont (R:=R')),
     fail_together k k' ->
     body prev s k = None <-> body' (low prev) (Py.lower s) k' = None) ->
  forall rounds prev s (k : cont (R:=R)) (k' : cont (R:=R')),
    fail_together k k' ->
    repeat body rounds prev s k = None
    <-> repeat body' rounds (low prev) (Py.lower s) k' = None.
Proof.
  intros Hbody. induction rounds as [|n IH]; intros prev s k k' Hk; simpl.
  - apply Hk.
  - apply or_else_lower; [|apply Hk].
    apply Hbody. intros p s0. rewrite !PyFacts.length_lower.
    destruct (String.length s0 <? String.length s)%nat; [|tauto].
    now apply IH.
Qed.

Lemma run_lower r :
  forall prev s (k : cont (R:=R)) (k' : cont (R:=R')),
    fail_together k k' ->
    run fl r prev s k = None
    <-> run fl r (low prev) (Py.lower s) k' = None.
Proof.
  induction r as [ | p | | n c | n items | | | | | r1 IH1 r2 IH2
                 | r1 IH1 r2 IH2 | r1 IH1 | r1 IH1 | r1 IH1 ];
    intros prev s k k' Hk; cbn [run].
  - apply Hk.
  - apply one_lower; [apply lit_eq_lower | exact Hk].
  - apply one_lower; [|exact Hk].
    intros c. now rewrite PyFacts.is_LF_lower_char.
  - apply one_lower; [|exact Hk].
    intros a. now rewrite in_category_lower.
  - apply one_lower; [|exact Hk].
    intros a. f_equal. induction items as [|i items IHi]; [reflexivity|].
    simpl. now rewrite item_has_lower, IHi.
  - rewrite at_bol_lower. now apply guard_lower.
  - rewrite at_eol_lower. now apply guard_lower.
  - rewrite at_boundary_lower. now apply guard_lower.
  - rewrite at_boundary_lower. now apply guard_lower.
  - apply IH1. intros p s0. now apply IH2.
  - apply or_else_lower; [now apply IH1 | now apply IH2].
  - rewrite PyFacts.length_lower. apply repeat_lower; [|exact Hk].
    intros; now apply IH1.
  - apply IH1. intros p s0. rewrite PyFacts.length_lower.
    apply repeat_lower; [|exact Hk]. intros; now apply IH1.
  - apply or_else_lower; [now apply IH1 | apply Hk].
Qed.

End Lowering.

Lemma match_here_lower fl r ma prev s :
  IGNORECASE fl = true ->
  match_here fl r ma prev s = None
  <-> match_here fl r ma (option_map Py.lower_char prev) (Py.lower s) = None.
Proof.
  intros Hfl. unfold match_here. apply run_lower; [exact Hfl|].
  intros p s0. rewrite !PyFacts.length_lower.
  destruct (ma && (String.length s - String.length s0 =? 0)%nat);
    [tauto | split; discriminate].
Qed.

Lemma search_from_lower fl r :
  IGNORECASE fl = true ->
  forall s ma prev,
    search_from fl r ma prev s = None
    <-> search_from fl r ma (option_map Py.lower_char prev) (Py.lower s)
        = None.
Proof.
  intros Hfl. induction s as [|c s IH]; intros ma prev;
    rewrite (search_from_unfold fl r ma prev),
      (search_from_unfold fl r ma (option_map Py.lower_char prev)).
  - pose proof (match_here_lower fl r ma prev EmptyString Hfl) as M.
    simpl Py.lower in *.
    destruct (match_here fl r ma prev EmptyString),
      (match_here fl r ma (option_map Py.lower_char prev) EmptyString);
      intuition congruence.
  - pose proof (match_here_lower fl r ma prev (String c s) Hfl) as M.
    specialize (IH false (Some c)).
    cbn [Py.lower option_map] in *.
    destruct (match_here fl r ma prev (String c s)),
      (match_here fl r ma (option_map Py.lower_char prev)
         (String (Py.lower_char c) (Py.lower s)));
      try (intuition congruence).
    destruct (search_from fl r false (Some c) s),
      (search_from fl r false (Some (Py.lower_char c)) (Py.lower s));
      intuition congruence.
Qed.

(** A search that ignores case finds a match in a text exactly when
    it finds one in the lowered text. *)
Lemma search_lower p s :
  IGNORECASE (pflags p) = true ->
  hit (search p (Py.lower s)) = hit (search p s).
Proof.
  intros Hfl. unfold search.
  destruct (parse (pattern p)) as [r|]; [|reflexivity].
  pose proof (search_from_lower (pflags p) r Hfl s false None) as E.
  simpl option_map in E.
  destruct (search_from (pflags p) r false None s),
    (search_from (pflags p) r false None (Py.lower s));
    simpl; intuition congruence.
Qed.

End ReFacts.

(* ================================================================== *)
(** * classifier.py: the decision                                      *)
(* ================================================================== *)

Module ClassifierFacts.
Import Classifier.
Local Open Scope Z_scope.

Lemma verification_follows_class content :
  verification_required (classify_from_content content)
  = match classification (classify_from_content content) with
    | CRITICAL | HIGH_COMPLEXITY => true
    | _ => false
    end.
Proof.
  unfold classify_from_content.
  match goal with
  | |- context [let '(_, _) := ?e in _] => destruct e as [c r]
  end.
  reflexivity.
Qed.

(** C9. For every source text, the result of [classify_from_content]
    has [verification_required] true if and only if its
    classification is CRITICAL or HIGH_COMPLEXITY. *)
Theorem verification_required_iff_critical_or_high content :
  verification_required (classify_from_content content) = true
  <-> (classification (classify_from_content content) = CRITICAL
       \/ classification (classify_from_content content) = HIGH_COMPLEXITY).
Proof.
  rewrite verification_follows_class.
  destruct (classification (classify_from_content content));
    intuition congruence.
Qed.

(** C8. A source text with no critical-pattern match, fewer than 100
    counted lines of code, at most 3 counted imports and no
    complexity-indicator match is classified UTILITY. *)
Theorem small_plain_file_is_utility content :
  find_patterns content CRITICAL_PATTERNS = [] ->
  count_lines content < 100 ->
  count_imports content <= 3 ->
  find_patterns content COMPLEXITY_PATTERNS = [] ->
  classification (classify_from_content content) = UTILITY.
Proof.
  intros Hcrit Hloc Hdeps Hcomp.
  unfold classify_from_content. cbv zeta. rewrite Hcrit, Hcomp.
  unfold HIGH_LOC_THRESHOLD, HIGH_DEPS_THRESHOLD,
    HIGH_COMPLEXITY_PATTERN_THRESHOLD, UTILITY_LOC_MAX, UTILITY_DEPS_MAX.
  cbn [length truthy_list negb Z.of_nat].
  replace (count_lines content >? 300) with false by lia.
  replace (count_imports content >? 5) with false by lia.
  replace (count_lines content <? 100) with true by lia.
  replace (count_imports content <=? 3) with true by lia.
  reflexivity.
Qed.

(** The file of 50 lines with 2 imports, as an instance of
    [small_plain_file_is_utility]. *)
Lemma small_plain_file_is_utility_witness :
  count_lines fifty_lines = 50
  /\ count_imports fifty_lines = 2
  /\ classification (classify_from_content fifty_lines) = UTILITY.
Proof.
  split; [vm_compute; reflexivity|].
  split; [vm_compute; reflexivity|].
  apply (small_plain_file_is_utility fifty_lines).
  - vm_compute; reflexivity.
  - vm_compute; reflexivity.
  - vm_compute. discriminate.
  - vm_compute; reflexivity.
Defined.

(** ** Whole words and the critical patterns *)

Ltac word_match Hr Hp Ha :=
  vm_compute in Hr; injection Hr as <-;
  unfold Re.match_here;
  cbv [Re.run String.append Re.guard Re.at_boundary Re.one Re.lit_eq
       Re.IGNORECASE Re.I];
  rewrite Hp; cbn [Re.head Re.is_word_at]; rewrite ?Ha;
  vm_compute; discriminate.

Lemma password_matches : matches_word "\bpassword\b" "password".
Proof.
  destruct (Re.parse "\bpassword\b") as [r|] eqn:Hr;
    [|vm_compute in Hr; discriminate].
  exists r. split; [exact Hr|].
  intros prev after Hp Ha.
  word_match Hr Hp Ha.
Qed.

Lemma encrypt_matches : matches_word "\bencrypt" "encrypt".
Proof.
  destruct (Re.parse "\bencrypt") as [r|] eqn:Hr;
    [|vm_compute in Hr; discriminate].
  exists r. split; [exact Hr|].
  intros prev after Hp Ha.
  word_match Hr Hp Ha.
Qed.

Lemma jwt_matches : matches_word "\bjwt\b" "jwt".
Proof.
  destruct (Re.parse "\bjwt\b") as [r|] eqn:Hr;
    [|vm_compute in Hr; discriminate].
  exists r. split; [exact Hr|].
  intros prev after Hp Ha.
  word_match Hr Hp Ha.
Qed.

(** A lower-case word occurring whole in the text is found by the
    pattern written for it: lowering the text keeps the word and its
    boundaries. *)
Lemma word_found pat w patterns content :
  matches_word pat w ->
  Py.lower w = w ->
  In pat patterns ->
  occurs_as_word w content ->
  In pat (find_patterns content patterns).
Proof.
  intros (r & Hparse & Hhere) Hw Hin (before & after & -> & Hb & Ha).
  unfold find_patterns. apply List.filter_In. split; [exact Hin|].
  rewrite !PyFacts.lower_app, Hw.
  apply (ReFacts.search_hits (Re.compile pat Re.I) r); [exact Hparse|].
  apply Hhere.
  - now rewrite PyFacts.last_char_lower, ReFacts.is_word_at_lower.
  - now rewrite ReFacts.head_lower, ReFacts.is_word_at_lower.
Qed.

Lemma three_distinct {A} (a b c : A) l :
  In a l -> In b l -> In c l -> a <> b -> a <> c -> b <> c ->
  (3 <= length l)%nat.
Proof.
  intros Ha Hb Hc Hab Hac Hbc.
  change 3%nat with (length [a; b; c]).
  apply List.NoDup_incl_length.
  - repeat constructor; simpl; intuition congruence.
  - intros x [<-|[<-|[<-|[]]]]; assumption.
Qed.

(** C2. For every source text in which the words "password",
    "encrypt" and "jwt" each occur as whole words, at least three
    distinct critical patterns match, and [classify_from_content]
    returns the classification CRITICAL with
    [verification_required] true. *)
Theorem three_critical_words_are_critical content :
  occurs_as_word "password" content ->
  occurs_as_word "encrypt" content ->
  occurs_as_word "jwt" content ->
  classification (classify_from_content content) = CRITICAL
  /\ verification_required (classify_from_content content) = true
  /\ (3 <= length (critical_patterns_found (classify_from_content content)))%nat.
Proof.
  intros Hpw Henc Hjwt.
  assert (Ip : In "\bpassword\b" (find_patterns content CRITICAL_PATTERNS)).
  { apply (word_found _ "password"); auto using password_matches.
    unfold CRITICAL_PATTERNS; simpl; tauto. }
  assert (Ie : In "\bencrypt" (find_patterns content CRITICAL_PATTERNS)).
  { apply (word_found _ "encrypt"); auto using encrypt_matches.
    unfold CRITICAL_PATTERNS; simpl; tauto. }
  assert (Ij : In "\bjwt\b" (find_patterns content CRITICAL_PATTERNS)).
  { apply (word_found _ "jwt"); auto using jwt_matches.
    unfold CRITICAL_PATTERNS; simpl; tauto. }
  assert (Hcount : (3 <= length (find_patterns content CRITICAL_PATTERNS))%nat).
  { apply (three_distinct _ _ _ _ Ip Ie Ij); discriminate. }
  assert (Hclass : classification (classify_from_content content) = CRITICAL).
  { unfold classify_from_content. cbv zeta.
    destruct (find_patterns content CRITICAL_PATTERNS) as [|p ps] eqn:E;
      [destruct Ip|].
    replace (existsb (fun q => mem q (p :: ps))
               ["\bauth"; "\bsecret\b"; "\bcredential"; "\bencrypt"])
      with true.
    - rewrite orb_true_r. reflexivity.
    - symmetry. apply List.existsb_exists. exists "\bencrypt".
      split; [simpl; tauto|].
      apply List.existsb_exists. exists "\bencrypt".
      split; [exact Ie | apply String.eqb_refl]. }
  split; [exact Hclass|]. split.
  - rewrite verification_follows_class, Hclass. reflexivity.
  - unfold classify_from_content. cbv zeta.
    match goal with
    | |- context [let '(_, _) := ?e in _] => destruct e
    end.
    exact Hcount.
Qed.

(** A text with the three words, as an instance of
    [three_critical_words_are_critical]. *)
Lemma three_critical_words_are_critical_witness :
  classification
    (classify_from_content "check the password, then encrypt the jwt")
  = CRITICAL.
Proof.
  apply (three_critical_words_are_critical
           "check the password, then encrypt the jwt").
  - exists "check the ", ", then encrypt the jwt".
    repeat split; reflexivity.
  - exists "check the password, then ", " the jwt".
    repeat split; reflexivity.
  - exists "check the password, then encrypt the ", EmptyString.
    repeat split; reflexivity.
Defined.

(** ** Counting lines of code *)

Lemma step_bounds st line :
  fst st <= fst (count_lines_step st line) <= fst st + 1.
Proof.
  destruct st as [n d]. unfold count_lines_step.
  repeat match goal with
         | |- context [if ?b then _ else _] => destruct b
         end; simpl; lia.
Qed.

Lemma step_blank st line :
  Py.truthy (Py.strip line) = false -> count_lines_step st line = st.
Proof.
  intros H. destruct st as [n d]. unfold count_lines_step.
  now rewrite H.
Qed.

Lemma fold_bounds lines st :
  fst st <= fst (fold_left count_lines_step lines st)
  <= fst st + Z.of_nat (length (nonblank lines)).
Proof.
  revert st. induction lines as [|l ls IH]; intros st.
  - simpl. lia.
  - cbn [fold_left nonblank List.filter].
    destruct (Py.truthy (Py.strip l)) eqn:E.
    + specialize (IH (count_lines_step st l)).
      pose proof (step_bounds st l).
      fold (nonblank ls). cbn [length]. lia.
    + rewrite (step_blank _ _ E). apply IH.
Qed.

(** X5. The count is never negative and never above the number of lines
    that are not blank. *)
Theorem count_lines_bounds content :
  0 <= count_lines content
  <= Z.of_nat (length (nonblank (Py.split Py.LF content))).
Proof.
  unfold count_lines. cbv zeta.
  pose proof (fold_bounds (Py.split Py.LF content) (0, false)) as H.
  simpl fst in H. lia.
Qed.

Lemma step_passed_over st line :
  passed_over line -> count_lines_step st line = st.
Proof.
  intros [_ [H|(Hc & Hd & Hs)]]; destruct st as [n d].
  - apply step_blank. now rewrite H.
  - unfold count_lines_step. rewrite Hd, Hs, Hc. simpl.
    destruct (Py.truthy (Py.strip line)); simpl; [|reflexivity].
    destruct d; reflexivity.
Qed.

(** X6. Blank lines and [#] comments without triple quotes do not count,
    wherever they stand: also inside a docstring, and whatever the
    lines around them are. *)
Theorem comment_and_blank_lines_do_not_count before line after :
  passed_over line ->
  count_lines (before ++ Py.nl ++ line ++ Py.nl ++ after)
  = count_lines (before ++ Py.nl ++ after).
Proof.
  intros H. unfold count_lines. cbv zeta.
  rewrite !PyFacts.nl_append, !PyFacts.split_app.
  rewrite (PyFacts.split_single_line line (proj1 H)).
  rewrite !fold_left_app. cbn [fold_left].
  now rewrite (step_passed_over _ _ H).
Qed.

Lemma comment_and_blank_lines_do_not_count_witness :
  count_lines ("x = 1" ++ Py.nl ++ "  # set y" ++ Py.nl ++ "y = 2")
  = count_lines ("x = 1" ++ Py.nl ++ "y = 2").
Proof.
  apply (comment_and_blank_lines_do_not_count "x = 1" "  # set y" "y = 2").
  split; [reflexivity|]. right. repeat split; reflexivity.
Defined.

(** ** More on the decision *)

Ltac prefix_match Hr Hp :=
  vm_compute in Hr; injection Hr as <-;
  unfold Re.match_here;
  cbv [Re.run String.append Re.guard Re.at_boundary Re.one Re.lit_eq
       Re.IGNORECASE Re.I];
  rewrite Hp; vm_compute; discriminate.

Lemma auth_matches : matches_prefix "\bauth" "auth".
Proof.
  destruct (Re.parse "\bauth") as [r|] eqn:Hr;
    [|vm_compute in Hr; discriminate].
  exists r. split; [exact Hr|]. intros prev after Hp. prefix_match Hr Hp.
Qed.

Lemma credential_matches : matches_prefix "\bcredential" "credential".
Proof.
  destruct (Re.parse "\bcredential") as [r|] eqn:Hr;
    [|vm_compute in Hr; discriminate].
  exists r. split; [exact Hr|]. intros prev after Hp. prefix_match Hr Hp.
Qed.

Lemma encrypt_prefix_matches : matches_prefix "\bencrypt" "encrypt".
Proof.
  destruct (Re.parse "\bencrypt") as [r|] eqn:Hr;
    [|vm_compute in Hr; discriminate].
  exists r. split; [exact Hr|]. intros prev after Hp. prefix_match Hr Hp.
Qed.

Lemma secret_matches : matches_word "\bsecret\b" "secret".
Proof.
  destruct (Re.parse "\bsecret\b") as [r|] eqn:Hr;
    [|vm_compute in Hr; discriminate].
  exists r. split; [exact Hr|].
  intros prev after Hp Ha. word_match Hr Hp Ha.
Qed.

Lemma prefix_found pat w patterns content :
  matches_prefix pat w ->
  In pat patterns ->
  occurs_at_word_start w (Py.lower content) ->
  In pat (find_patterns content patterns).
Proof.
  intros (r & Hparse & Hhere) Hin (before & after & E & Hb).
  unfold find_patterns. apply List.filter_In. split; [exact Hin|].
  rewrite E.
  apply (ReFacts.search_hits (Re.compile pat Re.I) r); [exact Hparse|].
  now apply Hhere.
Qed.

Lemma lowered_word_found pat w patterns content :
  matches_word pat w ->
  In pat patterns ->
  occurs_as_word w (Py.lower content) ->
  In pat (find_patterns content patterns).
Proof.
  intros (r & Hparse & Hhere) Hin (before & after & E & Hb & Ha).
  unfold find_patterns. apply List.filter_In. split; [exact Hin|].
  rewrite E.
  apply (ReFacts.search_hits (Re.compile pat Re.I) r); [exact Hparse|].
  now apply Hhere.
Qed.

(** The classification when some critical pattern matched. *)
Lemma critical_branch content p ps :
  find_patterns content CRITICAL_PATTERNS = p :: ps ->
  classification (classify_from_content content)
  = if (Z.of_nat (length (p :: ps)) >=? CRITICAL_PATTERN_MIN)
       || existsb (fun q => mem q (p :: ps)) primary_critical
    then CRITICAL else HIGH_COMPLEXITY.
Proof.
  intros E. unfold classify_from_content. cbv zeta. rewrite E.
  fold primary_critical.
  destruct ((Z.of_nat (length (p :: ps)) >=? CRITICAL_PATTERN_MIN)
            || existsb (fun q => mem q (p :: ps)) primary_critical);
    reflexivity.
Qed.

Lemma primary_found_is_critical content p :
  In p primary_critical ->
  In p (find_patterns content CRITICAL_PATTERNS) ->
  classification (classify_from_content content) = CRITICAL.
Proof.
  intros Hprim Hfound.
  destruct (find_patterns content CRITICAL_PATTERNS) as [|q qs] eqn:E;
    [destruct Hfound|].
  rewrite (critical_branch _ _ _ E).
  replace (existsb (fun x => mem x (q :: qs)) primary_critical) with true.
  - now rewrite orb_true_r.
  - symmetry. apply List.existsb_exists. exists p. split; [exact Hprim|].
    apply List.existsb_exists. exists p.
    split; [exact Hfound | apply String.eqb_refl].
Qed.

(** X1. One word is enough.  A text in which, in any letter case, a
    word begins with "auth", "credential" or "encrypt", or in which
    "secret" stands as a whole word, is CRITICAL and needs
    verification, whatever else it holds. *)
Theorem one_primary_word_is_critical content :
  occurs_at_word_start "auth" (Py.lower content)
  \/ occurs_as_word "secret" (Py.lower content)
  \/ occurs_at_word_start "credential" (Py.lower content)
  \/ occurs_at_word_start "encrypt" (Py.lower content) ->
  classification (classify_from_content content) = CRITICAL
  /\ verification_required (classify_from_content content) = true.
Proof.
  intros H.
  assert (C : classification (classify_from_content content) = CRITICAL).
  { destruct H as [H|[H|[H|H]]].
    - apply (primary_found_is_critical _ "\bauth"); [simpl; tauto|].
      apply (prefix_found _ "auth"); auto using auth_matches.
      unfold CRITICAL_PATTERNS; simpl; tauto.
    - apply (primary_found_is_critical _ "\bsecret\b"); [simpl; tauto|].
      apply (lowered_word_found _ "secret"); auto using secret_matches.
      unfold CRITICAL_PATTERNS; simpl; tauto.
    - apply (primary_found_is_critical _ "\bcredential"); [simpl; tauto|].
      apply (prefix_found _ "credential"); auto using credential_matches.
      unfold CRITICAL_PATTERNS; simpl; tauto.
    - apply (primary_found_is_critical _ "\bencrypt"); [simpl; tauto|].
      apply (prefix_found _ "encrypt"); auto using encrypt_prefix_matches.
      unfold CRITICAL_PATTERNS; simpl; tauto. }
  split; [exact C|].
  rewrite verification_follows_class, C. reflexivity.
Qed.

(** The word "Author" begins with "auth", the case of letters
    apart. *)
Lemma one_primary_word_is_critical_witness :
  classification (classify_from_content "The Author of this page") = CRITICAL.
Proof.
  apply (one_primary_word_is_critical "The Author of this page").
  left. exists "the ", "or of this page". split; reflexivity.
Defined.

(** X2. Below three matches and without a primary one, a file with
    critical matches is HIGH_COMPLEXITY: never CRITICAL, never
    STANDARD or UTILITY, however small it is. *)
Theorem few_secondary_matches_are_high_complexity content :
  find_patterns content CRITICAL_PATTERNS <> [] ->
  (length (find_patterns content CRITICAL_PATTERNS) < 3)%nat ->
  (forall p, In p primary_critical ->
             ~ In p (find_patterns content CRITICAL_PATTERNS)) ->
  classification (classify_from_content content) = HIGH_COMPLEXITY
  /\ verification_required (classify_from_content content) = true.
Proof.
  intros Hne Hlen Hprim.
  assert (C : classification (classify_from_content content)
              = HIGH_COMPLEXITY).
  { destruct (find_patterns content CRITICAL_PATTERNS) as [|q qs] eqn:E;
      [congruence|].
    rewrite (critical_branch _ _ _ E).
    replace (Z.of_nat (length (q :: qs)) >=? CRITICAL_PATTERN_MIN)
      with false by (unfold CRITICAL_PATTERN_MIN; lia).
    replace (existsb (fun x => mem x (q :: qs)) primary_critical)
      with false; [reflexivity|].
    symmetry. apply not_true_is_false. intros Hex.
    apply List.existsb_exists in Hex as (p & Hp & Hm).
    apply List.existsb_exists in Hm as (p' & Hin & Heq).
    apply String.eqb_eq in Heq. subst p'. exact (Hprim p Hp Hin). }
  split; [exact C|].
  rewrite verification_follows_class, C. reflexivity.
Qed.

Lemma few_secondary_matches_are_high_complexity_witness :
  classification (classify_from_content "the token here") = HIGH_COMPLEXITY.
Proof.
  apply (few_secondary_matches_are_high_complexity "the token here").
  - vm_compute. discriminate.
  - vm_compute. lia.
  - intros p Hp. vm_compute.
    destruct Hp as [<-|[<-|[<-|[<-|[]]]]]; intros [H|[]]; discriminate H.
Defined.

(** Without critical matches: the three remaining classes, by the
    thresholds. *)
Lemma plain_branch content :
  find_patterns content CRITICAL_PATTERNS = [] ->
  classification (classify_from_content content)
  = if (count_lines content >? 300) || (count_imports content >? 5)
       || (Z.of_nat (length (find_patterns content COMPLEXITY_PATTERNS))
           >=? 3)
    then HIGH_COMPLEXITY
    else if (count_lines content <? 100) && (count_imports content <=? 3)
            && negb (truthy_list (find_patterns content COMPLEXITY_PATTERNS))
    then UTILITY else STANDARD.
Proof.
  intros E. unfold classify_from_content. cbv zeta. rewrite E.
  unfold HIGH_LOC_THRESHOLD, HIGH_DEPS_THRESHOLD,
    HIGH_COMPLEXITY_PATTERN_THRESHOLD, UTILITY_LOC_MAX, UTILITY_DEPS_MAX.
  repeat match goal with
         | |- context [if ?b then _ else _] => destruct b
         end; reflexivity.
Qed.

(** X3. A file is UTILITY exactly when nothing critical and no complexity
    indicator matched, it has fewer than 100 lines of code and at
    most 3 imports. *)
Theorem utility_exactly content :
  classification (classify_from_content content) = UTILITY
  <-> (find_patterns content CRITICAL_PATTERNS = []
       /\ find_patterns content COMPLEXITY_PATTERNS = []
       /\ count_lines content < 100
       /\ count_imports content <= 3).
Proof.
  split.
  - intros H.
    destruct (find_patterns content CRITICAL_PATTERNS) as [|p ps] eqn:E.
    + rewrite (plain_branch _ E) in H.
      destruct (find_patterns content COMPLEXITY_PATTERNS) as [|q qs];
        cbn [truthy_list negb length] in H.
      * repeat split; try reflexivity;
          destruct (count_lines content >? 300) eqn:?;
          destruct (count_imports content >? 5) eqn:?;
          destruct (count_lines content <? 100) eqn:?;
          destruct (count_imports content <=? 3) eqn:?;
          simpl in H; try discriminate H; lia.
      * rewrite andb_false_r in H.
        destruct ((count_lines content >? 300) || (count_imports content >? 5)
                  || (Z.of_nat (S (length qs)) >=? 3));
          discriminate H.
    + rewrite (critical_branch _ _ _ E) in H.
      destruct ((Z.of_nat (length (p :: ps)) >=? CRITICAL_PATTERN_MIN)
                || existsb (fun q => mem q (p :: ps)) primary_critical);
        discriminate H.
  - intros (Hc & Hx & Hl & Hd).
    rewrite (plain_branch _ Hc), Hx. cbn [length truthy_list negb Z.of_nat].
    replace (count_lines content >? 300) with false by lia.
    replace (count_imports content >? 5) with false by lia.
    replace (count_lines content <? 100) with true by lia.
    replace (count_imports content <=? 3) with true by lia.
    reflexivity.
Qed.

(** X4. Size alone makes a file HIGH_COMPLEXITY: more than 300 lines of
    code, or more than 5 imports, or three complexity indicators, when
    nothing critical matched. *)
Theorem large_plain_file_is_high_complexity content :
  find_patterns content CRITICAL_PATTERNS = [] ->
  (300 < count_lines content \/ 5 < count_imports content
   \/ (3 <= length (find_patterns content COMPLEXITY_PATTERNS))%nat) ->
  classification (classify_from_content content) = HIGH_COMPLEXITY
  /\ verification_required (classify_from_content content) = true.
Proof.
  intros Hc Hbig.
  assert (C : classification (classify_from_content content)
              = HIGH_COMPLEXITY).
  { rewrite (plain_branch _ Hc).
    replace ((count_lines content >? 300) || (count_imports content >? 5)
             || (Z.of_nat (length (find_patterns content COMPLEXITY_PATTERNS))
                 >=? 3)) with true; [reflexivity|].
    symmetry. rewrite !orb_true_iff. destruct Hbig as [H|[H|H]].
    - left; left; lia.
    - left; right; lia.
    - right; lia. }
  split; [exact C|].
  rewrite verification_follows_class, C. reflexivity.
Qed.

Lemma large_plain_file_is_high_complexity_witness :
  classification (classify_from_content "await x; retry; lock")
  = HIGH_COMPLEXITY.
Proof.
  apply (large_plain_file_is_high_complexity "await x; retry; lock").
  - vm_compute. reflexivity.
  - right. right. vm_compute. lia.
Defined.

End ClassifierFacts.

(* ================================================================== *)
(** * comment_rewriter.py: classification and rewriting                *)
(* ================================================================== *)

Module CommentRewriterFacts.
Import CommentRewriter.
Local Open Scope Z_scope.

(** Every pattern of the scripts lies in the modelled fragment. *)
Lemma patterns_in_fragment :
  forallb (fun p => Re.hit (Re.parse p))
    (Classifier.CRITICAL_PATTERNS ++ Classifier.COMPLEXITY_PATTERNS
     ++ ["^(?:from\s+\S+\s+)?import\s+"]
     ++ map Re.pattern
          (_DEBT_PATTERNS ++ _CHECKLIST_PATTERNS ++ _WHY_PATTERNS
           ++ _TEACHER_PATTERNS ++ _GUIDE_PATTERNS ++ _CODE_PATTERNS
           ++ map fst _TRIVIAL_INDICATORS ++ map snd _TRIVIAL_INDICATORS
           ++ [_DEBT_REMOVAL_PATTERN]))%list
  = true.
Proof. vm_compute. reflexivity. Qed.

(** C5. The standalone comment [# TODO: fix this] (not a docstring,
    not inline) is classified type debt, action rewrite; the rewrite
    suggestion generated for it contains "DESIGN DECISION" and does
    not contain "TODO". *)
Theorem todo_comment_becomes_design_decision :
  (forall line_content,
      classify_comment "TODO: fix this" "# TODO: fix this" false false
                       line_content
      = (DEBT, REWRITE,
         "Debt marker found - resolve or document in design comments"))
  /\ (forall line_number column,
        let comment :=
          regular_comment ["# TODO: fix this"]
            (line_number, column, "TODO: fix this", "# TODO: fix this",
             false) in
        comment_type comment = DEBT
        /\ classification comment = REWRITE
        /\ suggestion comment
           = Some ("# DESIGN DECISION: fix this" ++ Py.nl
                   ++ "# Context: [Add why this is deferred and conditions for completion]")
        /\ exists s, suggestion comment = Some s
                     /\ Py.contains s "DESIGN DECISION" = true
                     /\ Py.contains s "TODO" = false).
Proof.
  split.
  - intros line_content. vm_compute. reflexivity.
  - intros line_number column.
    assert (E : forall lc,
               classify_comment "TODO: fix this" "# TODO: fix this" false
                                false lc
               = (DEBT, REWRITE,
                  "Debt marker found - resolve or document in design comments"))
      by (intros lc; vm_compute; reflexivity).
    unfold regular_comment. cbv zeta. rewrite E.
    cbn [comment_type classification suggestion].
    split; [reflexivity|]. split; [reflexivity|].
    assert (S : forall c : CommentInfo,
               comment_type c = DEBT -> classification c = REWRITE ->
               text c = "TODO: fix this" ->
               suggest_rewrite c
               = Some ("# DESIGN DECISION: fix this" ++ Py.nl
                       ++ "# Context: [Add why this is deferred and conditions for completion]")).
    { intros c Ht Hc Hx. unfold suggest_rewrite. rewrite Ht, Hc, Hx.
      vm_compute. reflexivity. }
    rewrite S by reflexivity.
    split; [reflexivity|].
    eexists. split; [reflexivity|]. split; vm_compute; reflexivity.
Qed.

(** C6. The inline comment [# Increment i] on the source line
    [i += 1  # Increment i] is classified type trivial, action
    delete: the phrase pattern for "increment" matches the comment
    and its paired code pattern matches the line. *)
Theorem increment_comment_is_trivial_delete :
  classify_comment "Increment i" "# Increment i" true false
                   (Some "i += 1  # Increment i")
  = (TRIVIAL, DELETE, "Comment restates what code already says")
  /\ (exists comment_pattern code_pattern,
        nth_error _TRIVIAL_INDICATORS 0 = Some (comment_pattern, code_pattern)
        /\ Re.pattern comment_pattern = "#\s*increment\b"
        /\ Re.search comment_pattern "# Increment i" = Some (0, 11)%nat
        /\ Re.search code_pattern "i += 1  # Increment i" = Some (2, 6)%nat)
  /\ any_match _CODE_PATTERNS "# Increment i" = false
  /\ any_search _DEBT_PATTERNS "Increment i" = false.
Proof.
  split; [vm_compute; reflexivity|].
  split; [|split; vm_compute; reflexivity].
  do 2 eexists. split; [reflexivity|].
  repeat split; vm_compute; reflexivity.
Qed.

(** C10. With [is_docstring] true the result of [classify_comment]
    does not depend on [raw_text], [is_inline] or [line_content]: it
    is type function with action enhance when the text is shorter
    than 10 characters, and keep otherwise. *)
Theorem docstring_classification_ignores_context :
  forall (doc raw raw' : string) (inline inline' : bool)
         (line line' : option string),
    classify_comment doc raw inline true line
    = classify_comment doc raw' inline' true line'
    /\ classify_comment doc raw inline true line
       = if (String.length doc <? 10)%nat
         then (FUNCTION, ENHANCE, "Docstring too brief - needs more detail")
         else (FUNCTION, KEEP, "Docstring provides API documentation").
Proof.
  intros. split; [reflexivity|].
  unfold classify_comment, Py.len.
  destruct (Nat.ltb_spec (String.length doc) 10) as [H|H].
  - replace (Z.of_nat (String.length doc) <? 10) with true by lia.
    reflexivity.
  - replace (Z.of_nat (String.length doc) <? 10) with false by lia.
    reflexivity.
Qed.

(** ** Dry run and real run of [rewrite_file] *)

(** A scrutinee that is itself free of case analysis is split. *)
Ltac split_case :=
  match goal with
  | |- context [match ?x with _ => _ end] =>
      lazymatch x with
      | context [match _ with _ => _ end] => fail
      | _ => destruct x eqn:?
      end
  | |- context [if ?x then _ else _] =>
      lazymatch x with
      | context [if _ then _ else _] => fail
      | context [match _ with _ => _ end] => fail
      | _ => destruct x eqn:?
      end
  end.

Ltac open_io :=
  unfold _validate_python_file, _validate_output_path,
    try_reraise, io_bind, exists_, is_file, stat_size, read_text,
    write_text, unlink, rename, lift, ret, raise.

Ltac all_cases :=
  repeat (split_case; cbn [fst snd negb andb]).

(** Two runs that share a read-only first step agree when what
    follows it agrees. *)
Lemma io_bind_agree {A} (m : io A) k1 k2 (Q : A -> Prop) disk t :
  read_only m ->
  (forall a, fst (m disk) = Return a -> Q a) ->
  (forall a, Q a -> runs_agree disk t (k1 a disk) (k2 a disk)) ->
  runs_agree disk t (io_bind m k1 disk) (io_bind m k2 disk).
Proof.
  intros Hro Hpost Hk. unfold io_bind.
  specialize (Hro disk). destruct (m disk) as [[a|e] disk'];
    cbn [fst snd] in *; subst disk'.
  - apply Hk, Hpost. reflexivity.
  - repeat split; cbn [fst snd]; intros; discriminate.
Qed.

Lemma read_text_read_only p : read_only (read_text p).
Proof. intros disk. open_io. all_cases; reflexivity. Qed.

Lemma lift_read_only {A} (r : result A) : read_only (lift r).
Proof. intros disk. reflexivity. Qed.

Section DryRun.

Variable generate_tokens : string -> result (list TokenInfo).
Variable docstring_nodes : string -> result (list (Z * option string)).
Variables resolve parent suffix : string -> string.
Variable with_suffix : string -> string -> string.

Local Abbreviation run :=
  (rewrite_file generate_tokens docstring_nodes resolve parent suffix
                with_suffix).

Local Abbreviation target := (write_target resolve).

Lemma validate_python_file_read_only p :
  read_only (_validate_python_file suffix p).
Proof. intros disk. open_io. all_cases; reflexivity. Qed.

Lemma validate_output_path_read_only o p :
  read_only (_validate_output_path resolve parent o p).
Proof. intros disk. open_io. all_cases; reflexivity. Qed.

Lemma validate_output_path_returns o p disk a :
  fst (_validate_output_path resolve parent o p disk) = Return a ->
  a = resolve o.
Proof. open_io. all_cases; intros H; try discriminate H; now injection H. Qed.

(** The write, with its backup, against returning at once. *)
Lemma write_agrees disk t c ch :
  runs_agree disk t
    (ret (c, ch) disk)
    (io_bind
       (io_bind (exists_ t)
          (fun e =>
             if e
             then
               try_reraise
                 (io_bind (read_text t) (fun old =>
                  io_bind (write_text (with_suffix t (suffix t ++ ".tmp")) old)
                    (fun _ =>
                  io_bind (write_text t c) (fun _ =>
                  unlink (with_suffix t (suffix t ++ ".tmp"))))))
                 (io_bind (exists_ (with_suffix t (suffix t ++ ".tmp")))
                    (fun b =>
                       if b
                       then rename (with_suffix t (suffix t ++ ".tmp")) t
                       else ret tt))
             else write_text t c))
       (fun _ => ret (c, app ch ["Wrote changes to: " ++ t])) disk).
Proof.
  unfold runs_agree, wrote. open_io. cbn [fst snd].
  split; [reflexivity|]. split.
  - intros c' ch' H. injection H as <- <-.
    all_cases; auto.
  - intros c' ch'. all_cases; intros H; try discriminate H.
    all: injection H as <- <-; eauto.
Qed.

Lemma rewrite_file_runs_agree disk file_path output_path :
  runs_agree disk (target file_path output_path)
    (run file_path output_path true disk)
    (run file_path output_path false disk).
Proof.
  unfold rewrite_file. cbv zeta. simpl negb. cbv iota.
  apply io_bind_agree with (Q := fun _ => True);
    [apply validate_python_file_read_only | trivial | intros _ _].
  apply io_bind_agree with (Q := fun a => a = option_map resolve output_path).
  - destruct output_path as [o|]; intros d; [|reflexivity].
    unfold io_bind.
    pose proof (validate_output_path_read_only o (resolve file_path) d) as E.
    destruct (_validate_output_path _ _ _ _ _) as [[a|e] d']; exact E.
  - destruct output_path as [o|]; intros a; [|intros H; now injection H].
    unfold io_bind.
    pose proof (validate_output_path_returns o (resolve file_path) disk) as E.
    destruct (_validate_output_path _ _ _ _ _) as [[a'|e] d'];
      cbn [fst] in *; intros H; [|discriminate H].
    injection H as <-. now rewrite (E a').
  - intros a ->.
    apply io_bind_agree with (Q := fun _ => True);
      [apply read_text_read_only | trivial | intros content _].
    apply io_bind_agree with (Q := fun _ => True);
      [apply lift_read_only | trivial | intros [c ch] _].
    destruct output_path as [o|]; apply write_agrees.
Qed.

Lemma dry_run_keeps_disk disk file_path output_path :
  snd (run file_path output_path true disk) = disk.
Proof. apply rewrite_file_runs_agree. Qed.

(** C7.  For every input file on which the dry run ([dry_run] true)
    returns, it returns the rewritten content that the real run
    ([dry_run] false) returns on the same disk, and it leaves the disk
    as it is.  The real run differs by its write alone: it writes the
    content, or fails with an OS error doing so, and reports the write
    as the last entry of the changes it returns. *)
Theorem dry_run_returns_the_written_content
        disk file_path output_path content changes :
  fst (run file_path output_path true disk) = Return (content, changes) ->
  snd (run file_path output_path true disk) = disk
  /\ (fst (run file_path output_path false disk)
        = Return (content,
                  app changes ["Wrote changes to: "
                               ++ target file_path output_path])
      \/ fst (run file_path output_path false disk) = Raise OSError)
  /\ (forall content' changes',
        fst (run file_path output_path false disk)
          = Return (content', changes') ->
        content' = content).
Proof.
  intros Hdry.
  destruct (rewrite_file_runs_agree disk file_path output_path)
    as (Hdisk & Hreal & Hback).
  split; [exact Hdisk|]. split; [now apply Hreal|].
  intros content' changes' R.
  destruct (Hback _ _ R) as (changes0 & _ & Hdry').
  congruence.
Qed.

End DryRun.

Lemma sample_dry_run :
  fst (Sample.run true) = Return (Sample.rewritten, Sample.reported).
Proof. vm_compute. reflexivity. Qed.

Lemma sample_real_run :
  fst (Sample.run false)
  = Return (Sample.rewritten,
            app Sample.reported ["Wrote changes to: /project/app.py"]).
Proof. vm_compute. reflexivity. Qed.

(** The sample file, as an instance of
    [dry_run_returns_the_written_content]. *)
Lemma dry_run_returns_the_written_content_witness :
  snd (Sample.run true) = Sample.disk
  /\ forall content' changes',
       fst (Sample.run false) = Return (content', changes') ->
       content' = Sample.rewritten.
Proof.
  assert (Hdry : fst (Sample.run true)
                 = Return (Sample.rewritten, Sample.reported))
    by (vm_compute; reflexivity).
  pose proof (dry_run_returns_the_written_content
                Sample.generate_tokens Sample.docstring_nodes
                Sample.resolve Sample.parent Sample.suffix
                Sample.with_suffix Sample.disk Sample.path None
                Sample.rewritten Sample.reported Hdry)
    as (Hdisk & _ & Hsame).
  split; [exact Hdisk | exact Hsame].
Defined.

(** ** Debt markers in any letter case *)

Ltac debt_word :=
  match goal with
  | |- Classifier.matches_word ?pat ?w =>
      let r := fresh "r" in
      let Hr := fresh "Hr" in
      destruct (Re.parse pat) as [r|] eqn:Hr;
      [|vm_compute in Hr; discriminate];
      exists r; split; [exact Hr|];
      let prev := fresh "prev" in
      let after := fresh "after" in
      let Hp := fresh "Hp" in
      let Ha := fresh "Ha" in
      intros prev after Hp Ha; ClassifierFacts.word_match Hr Hp Ha
  end.

Ltac marker_pattern pat :=
  exists (Re.compile pat Re.I);
  split; [unfold _DEBT_PATTERNS; simpl; tauto|];
  split; [reflexivity | simpl Re.pattern; debt_word].

Lemma debt_marker_pattern w :
  In w debt_markers ->
  exists p, In p _DEBT_PATTERNS /\ Re.pflags p = Re.I
            /\ Classifier.matches_word (Re.pattern p) w.
Proof.
  intros H. unfold debt_markers in H. simpl in H.
  destruct H as [<-|[<-|[<-|[<-|[<-|[<-|[<-|[<-|[]]]]]]]]].
  - marker_pattern "\bTODO\b".
  - marker_pattern "\bFIXME\b".
  - marker_pattern "\bXXX\b".
  - marker_pattern "\bHACK\b".
  - marker_pattern "\bBUG\b".
  - marker_pattern "\bWORKAROUND\b".
  - marker_pattern "\bTEMP\b".
  - marker_pattern "\bTEMPORARY\b".
Qed.

Lemma debt_marker_found w text :
  In w debt_markers ->
  Classifier.occurs_as_word w (Py.lower text) ->
  any_search _DEBT_PATTERNS text = true.
Proof.
  intros Hw (before & after & E & Hb & Ha).
  destruct (debt_marker_pattern w Hw)
    as (p & Hin & Hfl & r & Hparse & Hhere).
  apply List.existsb_exists. exists p. split; [exact Hin|].
  rewrite <- ReFacts.search_lower by (rewrite Hfl; reflexivity).
  rewrite E.
  apply (ReFacts.search_hits p r); [exact Hparse|].
  rewrite Hfl. now apply Hhere.
Qed.

(** X7. A debt marker in any letter case makes a comment debt.  A
    comment that is no docstring and no commented-out code, and whose
    text holds one of the words TODO, FIXME, XXX, HACK, BUG,
    WORKAROUND, TEMP, TEMPORARY in any letter case, is of type debt
    with action rewrite, inline or not and whatever the code on its
    line; the suggestion made for it opens a design decision. *)
Theorem debt_marker_is_rewritten w text raw inline :
  In w debt_markers ->
  Classifier.occurs_as_word w (Py.lower text) ->
  any_match _CODE_PATTERNS raw = false ->
  (forall line,
      classify_comment text raw inline false line
      = (DEBT, REWRITE,
         "Debt marker found - resolve or document in design comments"))
  /\ (forall lines line_num col,
        let comment :=
          regular_comment lines (line_num, col, text, raw, inline) in
        comment_type comment = DEBT
        /\ classification comment = REWRITE
        /\ exists rest,
             suggestion comment = Some ("# DESIGN DECISION: " ++ rest)).
Proof.
  intros Hw Hocc Hcode.
  assert (E : forall line,
             classify_comment text raw inline false line
             = (DEBT, REWRITE,
                "Debt marker found - resolve or document in design comments")).
  { intros line. unfold classify_comment.
    now rewrite Hcode, (debt_marker_found w text Hw Hocc). }
  split; [exact E|].
  intros lines line_num col. unfold regular_comment. cbv zeta.
  rewrite E. cbn [comment_type classification suggestion].
  split; [reflexivity|]. split; [reflexivity|].
  unfold suggest_rewrite.
  cbn [comment_type classification CommentClassification_eqb].
  eexists. reflexivity.
Qed.

Lemma debt_marker_is_rewritten_witness :
  classify_comment "Fixme: later" "# Fixme: later" true false
                   (Some "x = 1  # Fixme: later")
  = (DEBT, REWRITE,
     "Debt marker found - resolve or document in design comments").
Proof.
  apply (debt_marker_is_rewritten "fixme" "Fixme: later" "# Fixme: later").
  - unfold debt_markers. simpl. tauto.
  - exists EmptyString, ": later". repeat split; reflexivity.
  - vm_compute. reflexivity.
Defined.

(** ** What the classifier can answer, and what the loop deletes *)

Lemma outcome_listed text raw inline docstring line :
  In (fst (classify_comment text raw inline docstring line)) outcomes.
Proof.
  unfold classify_comment.
  repeat match goal with
         | |- context [if ?b then _ else _] => destruct b
         end;
    unfold outcomes; simpl; tauto.
Qed.

(** X8. What [classify_comment] can answer.  The type and the action
    are one of eleven pairs: the action is rewrite for debt and for
    nothing else, delete only for commented-out code and for trivial
    comments, and no comment is given the type design. *)
Theorem classify_comment_outcomes text raw inline docstring line :
  let '(type, action, _) :=
    classify_comment text raw inline docstring line in
  In (type, action) outcomes
  /\ (action = REWRITE <-> type = DEBT)
  /\ (action = DELETE -> type = BACKUP \/ type = TRIVIAL)
  /\ type <> DESIGN.
Proof.
  unfold classify_comment.
  repeat match goal with
         | |- context [if ?b then _ else _] => destruct b
         end;
    (split; [unfold outcomes; simpl; tauto|]);
    (split; [split; discriminate || reflexivity|]);
    (split; [first [discriminate | intros _; tauto] | discriminate]).
Qed.

Lemma getitem_in_range {A} (xs : list A) i :
  0 <= i < Z.of_nat (length xs) -> exists x, Py.getitem xs i = Some x.
Proof.
  intros H. unfold Py.getitem.
  replace (i <? 0) with false by lia.
  replace ((0 <=? i) && (i <? Z.of_nat (length xs))) with true by lia.
  destruct (nth_error xs (Z.to_nat i)) eqn:E; [eauto|].
  apply nth_error_None in E. lia.
Qed.

(** What one round of the loop adds to the lines to delete. *)
Lemma process_comment_deletes lines st c idx :
  idx ∈ lines_to_delete (process_comment lines st c) ->
  idx ∈ lines_to_delete st
  \/ (line_number c - 1 = idx
      /\ classification c = DELETE
      /\ is_docstring c = false
      /\ comment_only_line lines c).
Proof.
  unfold process_comment.
  destruct (is_docstring c) eqn:Hd; [tauto|].
  destruct ((0 <=? line_number c - 1)
            && (line_number c - 1 <? Z.of_nat (length lines))) eqn:Hr;
    cbn [negb]; [|tauto].
  destruct (getitem_in_range lines (line_number c - 1)) as [old Hold];
    [lia|].
  rewrite Hold.
  destruct (classification c) eqn:Hc; try tauto.
  - destruct (suggestion c) as [sugg|]; [|tauto].
    destruct (Py.truthy sugg); [|tauto].
    destruct (line_modifications st !! (line_number c - 1)); cbn; tauto.
  - destruct (is_inline c) eqn:Hi.
    + destruct (Py.truthy (Py.strip (Py.rstrip
                  (Py.slice_to old (column c))))) eqn:Ht;
        cbn [lines_to_delete]; [tauto|].
      intros [->%elem_of_singleton|H]%elem_of_union; [|tauto].
      right. repeat split; try reflexivity.
      exists old. split; [exact Hold|]. rewrite Hi.
      destruct (Py.strip _); [reflexivity | discriminate Ht].
    + destruct (Py.startswith (Py.strip old) "#") eqn:Hs;
        cbn [lines_to_delete]; [|tauto].
      intros [->%elem_of_singleton|H]%elem_of_union; [|tauto].
      right. repeat split; try reflexivity.
      exists old. split; [exact Hold|]. now rewrite Hi.
Qed.

Lemma fold_deletes lines comments : forall st idx,
  idx ∈ lines_to_delete (fold_left (process_comment lines) comments st) ->
  idx ∈ lines_to_delete st
  \/ exists c, In c comments
               /\ line_number c - 1 = idx
               /\ classification c = DELETE
               /\ is_docstring c = false
               /\ comment_only_line lines c.
Proof.
  induction comments as [|c cs IH]; intros st idx H; simpl in H; [tauto|].
  destruct (IH _ _ H) as [H'|(c' & Hin & Hrest)].
  - destruct (process_comment_deletes _ _ _ _ H') as [?|?]; [tauto|].
    right. exists c. split; [now left | assumption].
  - right. exists c'. split; [now right | assumption].
Qed.

(** X9. A line is deleted only for a comment that stands alone on it.
    Every line the loop of [rewrite_file] marks for deletion is the
    line of a comment with action delete, not a docstring, with no
    code before it on the line. *)
Theorem deleted_lines_hold_no_code lines comments idx :
  idx ∈ lines_to_delete
          (fold_left (process_comment lines) comments no_edits) ->
  exists c, In c comments
            /\ line_number c - 1 = idx
            /\ classification c = DELETE
            /\ is_docstring c = false
            /\ comment_only_line lines c.
Proof.
  intros H. destruct (fold_deletes _ _ _ _ H) as [H'|H']; [|exact H'].
  exfalso. revert H'. cbn. apply not_elem_of_empty.
Qed.

Lemma deleted_lines_hold_no_code_witness :
  exists c, In c [regular_comment ["# x = 3"]
                    (1, 0, "x = 3", "# x = 3", false)]
            /\ line_number c - 1 = 0
            /\ classification c = DELETE
            /\ is_docstring c = false
            /\ comment_only_line ["# x = 3"] c.
Proof.
  apply (deleted_lines_hold_no_code ["# x = 3"]).
  vm_compute. reflexivity.
Defined.

(** ** Files that need no edit, and what a real run leaves *)




Section Rewrite.

Variable generate_tokens : string -> result (list TokenInfo).
Variable docstring_nodes : string -> result (list (Z * option string)).


End Rewrite.


(** A run that returns went through every step before the last. *)
Lemma io_bind_returns {A B} (m : io A) (k : A -> io B) disk r :
  read_only m ->
  fst (io_bind m k disk) = Return r ->
  exists a, fst (m disk) = Return a /\ io_bind m k disk = k a disk.
Proof.
  intros Hro. unfold io_bind. specialize (Hro disk).
  destruct (m disk) as [[a|e] d]; cbn [fst snd] in *; subst d.
  - eauto.
  - discriminate.
Qed.

Lemma io_then_ret {A B} (m : io A) (x : B) d :
  (forall y, fst (io_bind m (fun _ => ret x) d) = Return y ->
             y = x /\ exists u, fst (m d) = Return u)
  /\ snd (io_bind m (fun _ => ret x) d) = snd (m d).
Proof.
  unfold io_bind, ret. destruct (m d) as [[u|e] d']; cbn [fst snd].
  - split; [|reflexivity]. intros y H. injection H as <-. eauto.
  - split; [|reflexivity]. intros y H. discriminate H.
Qed.

Section RealRun.

Variable generate_tokens : string -> result (list TokenInfo).
Variable docstring_nodes : string -> result (list (Z * option string)).
Variables resolve parent suffix : string -> string.
Variable with_suffix : string -> string -> string.

Local Abbreviation run :=
  (rewrite_file generate_tokens docstring_nodes resolve parent suffix
                with_suffix).
Local Abbreviation target := (write_target resolve).
Local Abbreviation backup := (backup_path suffix with_suffix).

(** What the write with its backup leaves on the disk. *)
Lemma write_block_leaves disk t c (r : unit) :
  let body :=
    io_bind (exists_ t)
      (fun e =>
         if e
         then
           try_reraise
             (io_bind (read_text t) (fun old =>
              io_bind (write_text (with_suffix t (suffix t ++ ".tmp")) old)
                (fun _ =>
              io_bind (write_text t c) (fun _ =>
              unlink (with_suffix t (suffix t ++ ".tmp"))))))
             (io_bind (exists_ (with_suffix t (suffix t ++ ".tmp")))
                (fun b =>
                   if b
                   then rename (with_suffix t (suffix t ++ ".tmp")) t
                   else ret tt))
         else write_text t c) in
  fst (body disk) = Return r ->
  backup t <> t ->
  snd (body disk) !! t = Some (File c)
  /\ snd (body disk) !! backup t
     = (if bool_decide (is_Some (disk !! t)) then None
        else disk !! backup t)
  /\ forall p, p <> t -> p <> backup t -> snd (body disk) !! p = disk !! p.
Proof.
  cbv zeta. unfold backup_path.
  set (b := with_suffix t (suffix t ++ ".tmp")).
  open_io. cbv beta. unfold filesystem in *.
  assert (T : bool_decide (is_Some (Some Dir)) = true /\
              (forall x, bool_decide (is_Some (Some (File x))) = true) /\
              bool_decide (is_Some (@None entry)) = false)
    by (repeat split).
  destruct T as (Td & Tf & Tn).
  destruct (disk !! t) as [[old|]|] eqn:Ht.
  - rewrite Tf. cbv beta iota. rewrite Ht. cbv beta iota.
    assert (E1 : forall x, b <> t -> <[b:=x]> disk !! t = Some (File old))
      by (intros; rewrite lookup_insert_ne; congruence).
    assert (E2 : forall x y,
               b <> t -> <[t:=y]> (<[b:=x]> disk) !! b = Some x)
      by (intros; rewrite lookup_insert_ne, lookup_insert_eq; congruence).
    destruct (disk !! b) as [[x|]|] eqn:Hbk; cbv beta iota.
    2:{ rewrite Hbk, Td. cbv beta iota. rewrite Hbk, Ht. cbn [fst].
        discriminate. }
    all: intros _ Hb; rewrite E1 by exact Hb; cbv beta iota;
      rewrite E2 by exact Hb; cbn [fst snd].
    all: repeat split;
      [ rewrite lookup_delete_ne, lookup_insert_eq by congruence; reflexivity
      | apply lookup_delete_eq
      | intros p Hp1 Hp2;
        rewrite lookup_delete_ne, !lookup_insert_ne by congruence;
        reflexivity ].
  - rewrite Td. cbv beta iota. rewrite Ht. cbv beta iota.
    destruct (disk !! b) as [[x|]|] eqn:Hbk; rewrite ?Tf, ?Td, ?Tn;
      cbv beta iota; rewrite ?Hbk, ?Ht; discriminate.
  - rewrite Tn. cbv beta iota. rewrite Ht. cbn [fst snd]. intros _ Hb.
    repeat split.
    + apply lookup_insert_eq.
    + apply lookup_insert_ne. congruence.
    + intros p Hp1 Hp2. apply lookup_insert_ne. congruence.
Qed.

Lemma output_validation_read_only output_path file_path :
  read_only
    (match output_path with
     | Some o =>
         io_bind (_validate_output_path resolve parent o file_path)
                 (fun o' => ret (Some o'))
     | None => ret None
     end).
Proof.
  destruct output_path as [o|]; intros d; [|reflexivity].
  unfold io_bind.
  pose proof (validate_output_path_read_only resolve parent o file_path d)
    as E.
  destruct (_validate_output_path _ _ _ _ _) as [[a|e] d']; exact E.
Qed.

Lemma output_validation_returns output_path file_path disk a :
  fst ((match output_path with
        | Some o =>
            io_bind (_validate_output_path resolve parent o file_path)
                    (fun o' => ret (Some o'))
        | None => ret None
        end) disk) = Return a ->
  a = option_map resolve output_path.
Proof.
  destruct output_path as [o|]; [|intros H; now injection H].
  unfold io_bind.
  pose proof (validate_output_path_returns resolve parent o file_path disk)
    as E.
  destruct (_validate_output_path _ _ _ _ _) as [[a'|e] d'];
    cbn [fst] in *; intros H; [|discriminate H].
  injection H as <-. now rewrite (E a').
Qed.

(** X11. What a real run leaves on the disk.  When the run with
    [dry_run] false returns, the target holds the content it returns;
    the backup path holds nothing if the target was there before
    (whatever was at the backup path is gone) and is untouched
    otherwise; every other path is as it was. *)
Theorem real_run_leaves_the_content
        disk file_path output_path content changes :
  fst (run file_path output_path false disk) = Return (content, changes) ->
  backup (target file_path output_path) <> target file_path output_path ->
  let after := snd (run file_path output_path false disk) in
  after !! target file_path output_path = Some (File content)
  /\ after !! backup (target file_path output_path)
     = (if bool_decide
             (is_Some (disk !! target file_path output_path))
        then None
        else disk !! backup (target file_path output_path))
  /\ forall p,
       p <> target file_path output_path ->
       p <> backup (target file_path output_path) ->
       after !! p = disk !! p.
Proof.
  cbv zeta. unfold rewrite_file. cbv zeta. simpl negb. cbv iota.
  intros H.
  destruct (io_bind_returns _ _ disk _
              (validate_python_file_read_only suffix _) H)
    as (a1 & _ & E1).
  rewrite E1 in *. clear E1.
  destruct (io_bind_returns _ _ disk _
              (output_validation_read_only output_path _) H)
    as (a2 & Ha2 & E2).
  rewrite E2 in *. clear E2.
  apply output_validation_returns in Ha2. subst a2.
  destruct (io_bind_returns _ _ disk _ (read_text_read_only _) H)
    as (text & _ & E3).
  rewrite E3 in *. clear E3.
  destruct (io_bind_returns _ _ disk _ (lift_read_only _) H)
    as ([c ch] & _ & E4).
  rewrite E4 in *. clear E4.
  replace (match option_map resolve output_path with
           | Some o => o
           | None => resolve file_path
           end) with (target file_path output_path) in *
    by (destruct output_path; reflexivity).
  set (t := target file_path output_path) in *.
  pose proof (write_block_leaves disk t c tt) as W. cbv zeta in W.
  match type of W with
  | fst (?blk disk) = _ -> _ =>
      match goal with
      | |- context [snd (?m disk)] =>
          change (m disk)
            with (io_bind blk
                    (fun _ => ret (c, app ch ["Wrote changes to: " ++ t]))
                    disk) in H |- *
      end;
      destruct (io_then_ret blk (c, app ch ["Wrote changes to: " ++ t]) disk)
        as (Hfst & Hsnd)
  end.
  rewrite Hsnd. destruct (Hfst _ H) as (Hc & [] & Hu).
  injection Hc as <- _. intros Hb. now apply W.
Qed.

End RealRun.

Lemma real_run_leaves_the_content_witness :
  snd (Sample.run false) !! Sample.path = Some (File Sample.rewritten).
Proof.
  assert (Hreal : fst (Sample.run false)
                  = Return (Sample.rewritten,
                            app Sample.reported
                                ["Wrote changes to: /project/app.py"]))
    by (vm_compute; reflexivity).
  assert (Hbackup : backup_path Sample.suffix Sample.with_suffix
                      (write_target Sample.resolve Sample.path None)
                    <> write_target Sample.resolve Sample.path None)
    by (vm_compute; discriminate).
  pose proof (real_run_leaves_the_content
                Sample.generate_tokens Sample.docstring_nodes
                Sample.resolve Sample.parent Sample.suffix
                Sample.with_suffix Sample.disk Sample.path None
                Sample.rewritten _ Hreal Hbackup)
    as (Htarget & _).
  exact Htarget.
Defined.

(** ** The order of an analysis *)

Lemma insert_by_line_sorted c cs :
  in_line_order cs -> in_line_order (insert_by_line c cs).
Proof.
  unfold in_line_order. induction 1 as [|d cs Hs IH Hd]; simpl.
  - repeat constructor.
  - destruct (line_number c <? line_number d) eqn:E.
    + constructor; [constructor; assumption|]. constructor. lia.
    + constructor; [exact IH|].
      destruct cs as [|d' cs']; simpl.
      * constructor. lia.
      * inversion Hd; subst.
        destruct (line_number c <? line_number d'); constructor; lia.
Qed.

Lemma insert_by_line_perm c cs : insert_by_line c cs ≡ₚ c :: cs.
Proof.
  induction cs as [|d cs IH]; simpl; [reflexivity|].
  destruct (line_number c <? line_number d); [reflexivity|].
  rewrite IH. apply Permutation_swap.
Qed.

Lemma insert_by_line_on_line n c cs :
  in_line_order cs ->
  on_line n (insert_by_line c cs)
  = (on_line n cs ++ (if line_number c =? n then [c] else []))%list.
Proof.
  unfold in_line_order, on_line.
  induction 1 as [|d cs Hs IH Hd]; [reflexivity|].
  cbn [insert_by_line].
  destruct (line_number c <? line_number d) eqn:E.
  - cbn [List.filter].
    destruct (line_number c =? n) eqn:Ec; [|now rewrite app_nil_r].
    assert (Hall : Forall (fun x => line_number d <= line_number x) cs).
    { clear IH E Ec. revert d Hd.
      induction Hs as [|e cs He IHs Hhd]; intros d Hd; constructor.
      - inversion Hd; assumption.
      - inversion Hd; subst.
        eapply Forall_impl; [apply IHs; exact Hhd|]. simpl. intros; lia. }
    replace (line_number d =? n) with false by lia.
    replace (List.filter (fun c0 => line_number c0 =? n) cs)
      with (@nil CommentInfo); [reflexivity|].
    symmetry. clear -Hall E Ec.
    induction Hall as [|x xs Hx _ IHx]; [reflexivity|]. simpl.
    replace (line_number x =? n) with false by lia. exact IHx.
  - cbn [List.filter]. rewrite IH.
    destruct (line_number d =? n); reflexivity.
Qed.

Lemma sort_by_line_spec cs :
  in_line_order (sort_by_line cs)
  /\ sort_by_line cs ≡ₚ cs
  /\ forall n, on_line n (sort_by_line cs) = on_line n cs.
Proof.
  unfold sort_by_line.
  assert (G : forall acc,
             in_line_order acc ->
             in_line_order
               (fold_left (fun sorted c => insert_by_line c sorted) cs acc)
             /\ fold_left (fun sorted c => insert_by_line c sorted) cs acc
                ≡ₚ (acc ++ cs)%list
             /\ forall n,
                  on_line n
                    (fold_left (fun sorted c => insert_by_line c sorted)
                               cs acc)
                  = (on_line n acc ++ on_line n cs)%list).
  { induction cs as [|c cs IH]; intros acc Hacc; simpl.
    - rewrite app_nil_r. split; [assumption|]. split; [reflexivity|].
      intros n. unfold on_line. simpl. now rewrite app_nil_r.
    - destruct (IH (insert_by_line c acc) (insert_by_line_sorted c acc Hacc))
        as (S1 & P1 & F1).
      split; [exact S1|]. split.
      + rewrite P1, insert_by_line_perm.
        change (c :: acc ++ cs)%list with ((c :: acc) ++ cs)%list.
        rewrite <- Permutation_middle. reflexivity.
      + intros n. rewrite F1, insert_by_line_on_line by exact Hacc.
        rewrite <- app_assoc. f_equal. unfold on_line. simpl.
        destruct (line_number c =? n); reflexivity. }
  destruct (G [] (Sorted_nil _)) as (S1 & P1 & F1).
  repeat split; assumption.
Qed.

Section Analysis.

Variable generate_tokens : string -> result (list TokenInfo).
Variable docstring_nodes : string -> result (list (Z * option string)).

(** X12. The comments of an analysis come in the order of their lines.
    They are the comments and the docstrings found, none lost and
    none added, and those of one line keep the order in which they
    were found: comments before docstrings. *)
Theorem analysis_in_line_order content comments :
  _analyze_comments_impl generate_tokens docstring_nodes content
  = Return comments ->
  exists extracted docstrings,
    extract_comments generate_tokens content = Return extracted
    /\ extract_docstrings docstring_nodes content = Return docstrings
    /\ let found :=
         app (map (regular_comment (Py.splitlines content)) extracted)
             (map docstring_comment docstrings) in
       in_line_order comments
       /\ comments ≡ₚ found
       /\ forall n, on_line n comments = on_line n found.
Proof.
  unfold _analyze_comments_impl. cbv zeta.
  destruct (extract_comments generate_tokens content) as [extracted|e];
    [|discriminate].
  destruct (extract_docstrings docstring_nodes content) as [docstrings|e];
    [|discriminate].
  cbn [bind]. intros H. injection H as <-.
  exists extracted, docstrings. split; [reflexivity|].
  split; [reflexivity|]. apply sort_by_line_spec.
Qed.

End Analysis.

Lemma analysis_in_line_order_witness :
  exists comments,
    _analyze_comments_impl Sample.generate_tokens Sample.docstring_nodes
                           Sample.source
    = Return comments
    /\ in_line_order comments.
Proof.
  eexists. split; [vm_compute; reflexivity|].
  edestruct (analysis_in_line_order Sample.generate_tokens
               Sample.docstring_nodes Sample.source)
    as (extracted & docstrings & _ & _ & Hsorted & _);
    [vm_compute; reflexivity|].
  exact Hsorted.
Defined.

(** ** Input that is refused *)

Section Refusal.

Variable generate_tokens : string -> result (list TokenInfo).
Variable docstring_nodes : string -> result (list (Z * option string)).
Variables resolve parent suffix : string -> string.
Variable with_suffix : string -> string -> string.

Local Abbreviation run :=
  (rewrite_file generate_tokens docstring_nodes resolve parent suffix
                with_suffix).

Lemma validation_outcome disk p :
  (_validate_python_file suffix p disk = (Return tt, disk)
   /\ acceptable suffix disk p)
  \/ (exists msg,
        _validate_python_file suffix p disk
        = (Raise (CommentRewriterError msg), disk)
        /\ ~ acceptable suffix disk p).
Proof.
  unfold acceptable. open_io. unfold filesystem in *.
  destruct (disk !! p) as [[text|]|] eqn:Hp.
  - replace (bool_decide (is_Some (Some (File text)))) with true
      by reflexivity.
    cbn [negb]. cbv beta iota. rewrite Hp. cbn [negb]. cbv beta iota.
    destruct (String.eqb (suffix p) ".py") eqn:Hs; cbn [negb]; cbv beta iota.
    + apply String.eqb_eq in Hs. rewrite Hp. cbv beta iota.
      destruct (st_size text >? MAX_FILE_SIZE_BYTES) eqn:Hz.
      * right. eexists. split; [reflexivity|].
        intros (t & Ht & _ & Hle). injection Ht as <-. lia.
      * left. split; [reflexivity|]. exists text. repeat split; auto. lia.
    + right. eexists. split; [reflexivity|].
      intros (t & _ & Hsfx & _). apply String.eqb_neq in Hs. contradiction.
  - replace (bool_decide (is_Some (Some Dir))) with true by reflexivity.
    cbn [negb]. cbv beta iota. rewrite Hp. cbn [negb]. cbv beta iota.
    right. eexists. split; [reflexivity|].
    intros (t & Ht & _). discriminate Ht.
  - replace (bool_decide (is_Some (@None entry))) with false
      by reflexivity.
    cbn [negb]. cbv beta iota.
    right. eexists. split; [reflexivity|].
    intros (t & Ht & _). discriminate Ht.
Qed.

(** X13. Nothing is read or written for an input that is not
    acceptable.  Unless the input path, resolved, is a regular file
    with suffix [.py] of at most 10 MB, [rewrite_file] raises a
    [CommentRewriterError] and leaves the disk as it is, with
    [dry_run] true or false and whatever the output path. *)
Theorem invalid_input_is_refused disk file_path output_path dry_run :
  ~ acceptable suffix disk (resolve file_path) ->
  exists msg,
    run file_path output_path dry_run disk
    = (Raise (CommentRewriterError msg), disk).
Proof.
  intros Hbad. unfold rewrite_file. cbv zeta.
  destruct (validation_outcome disk (resolve file_path))
    as [[_ Hok]|(msg & Hv & _)]; [contradiction|].
  exists msg. unfold io_bind at 1. now rewrite Hv.
Qed.

End Refusal.

Lemma invalid_input_is_refused_witness :
  exists msg,
    rewrite_file Sample.generate_tokens Sample.docstring_nodes
                 Sample.resolve Sample.parent Sample.suffix
                 Sample.with_suffix "/project/notes.txt" None false
                 Sample.disk
    = (Raise (CommentRewriterError msg), Sample.disk).
Proof.
  apply (invalid_input_is_refused
           Sample.generate_tokens Sample.docstring_nodes Sample.resolve
           Sample.parent Sample.suffix Sample.with_suffix Sample.disk
           "/project/notes.txt" None false).
  intros (text & _ & Hsfx & _). vm_compute in Hsfx. discriminate Hsfx.
Defined.

(** ** What the analysis attaches to a comment *)

Lemma regular_comment_annotated lines extracted :
  well_annotated (regular_comment lines extracted).
Proof.
  destruct extracted as [[[[line_num col] txt] raw] inline].
  unfold regular_comment. cbv zeta.
  match goal with
  | |- context [classify_comment ?t ?r ?i ?d ?l] =>
      pose proof (outcome_listed t r i d l) as T;
      destruct (classify_comment t r i d l) as [[ty act] reason]
  end.
  cbn [fst] in T.
  unfold well_annotated, suggest_rewrite.
  cbn [comment_type classification suggestion is_docstring].
  split; [exact T|]. split; [discriminate|].
  unfold outcomes in T. simpl in T.
  repeat (destruct T as [T|T]); try contradiction.
  all: injection T as <- <-.
  all: cbn [CommentClassification_eqb].
  all: split;
    [ intros H;
      first [discriminate H | split; [reflexivity | eexists; reflexivity]]
    | intros [H|H]; first [discriminate H | reflexivity] ].
Qed.

Lemma docstring_comment_annotated found :
  well_annotated (docstring_comment found).
Proof.
  destruct found as [line_num docstring].
  unfold docstring_comment. cbv zeta.
  match goal with
  | |- context [classify_comment ?t ?r ?i ?d ?l] =>
      pose proof (outcome_listed t r i d l) as T;
      assert (F : fst (fst (classify_comment t r i d l)) = FUNCTION)
        by (unfold classify_comment;
            destruct (Py.len t <? 10); reflexivity);
      assert (K : snd (fst (classify_comment t r i d l)) <> REWRITE)
        by (unfold classify_comment;
            destruct (Py.len t <? 10); discriminate);
      destruct (classify_comment t r i d l) as [[ty act] reason]
  end.
  cbn [fst snd] in *. subst ty.
  unfold well_annotated.
  cbn [comment_type classification suggestion is_docstring].
  split; [exact T|]. split; [auto|]. split; [contradiction | reflexivity].
Qed.

Section Annotation.

Variable generate_tokens : string -> result (list TokenInfo).
Variable docstring_nodes : string -> result (list (Z * option string)).

(** X14. What the analysis attaches to each comment.  Every comment
    of an analysis has one of the eleven pairs of type and action; a
    comment with action rewrite is of type debt and carries a
    suggestion that opens a design decision; a comment with action
    delete or keep carries no suggestion, and no docstring carries
    one. *)
Theorem analysis_comments_are_annotated content comments :
  _analyze_comments_impl generate_tokens docstring_nodes content
  = Return comments ->
  Forall well_annotated comments.
Proof.
  unfold _analyze_comments_impl. cbv zeta.
  destruct (extract_comments generate_tokens content) as [extracted|e];
    [|discriminate].
  destruct (extract_docstrings docstring_nodes content) as [docstrings|e];
    [|discriminate].
  cbn [bind]. intros H. injection H as <-.
  destruct (sort_by_line_spec
              (app (map (regular_comment (Py.splitlines content)) extracted)
                   (map docstring_comment docstrings)))
    as (_ & Hperm & _).
  rewrite Hperm. apply Forall_app. split.
  - apply List.Forall_forall. intros c Hc.
    apply in_map_iff in Hc as (x & <- & _).
    apply regular_comment_annotated.
  - apply List.Forall_forall. intros c Hc.
    apply in_map_iff in Hc as (x & <- & _).
    apply docstring_comment_annotated.
Qed.

End Annotation.

Lemma analysis_comments_are_annotated_witness :
  exists comments,
    _analyze_comments_impl Sample.generate_tokens Sample.docstring_nodes
                           Sample.source
    = Return comments
    /\ Forall well_annotated comments.
Proof.
  eexists. split; [vm_compute; reflexivity|].
  apply (analysis_comments_are_annotated
           Sample.generate_tokens Sample.docstring_nodes Sample.source).
  vm_compute. reflexivity.
Defined.

(** ** Applying the edits *)

Lemma process_comment_within lines st c :
  within lines st -> within lines (process_comment lines st c).
Proof.
  intros [Hd Hm]. unfold process_comment.
  destruct (is_docstring c); [split; assumption|].
  destruct ((0 <=? line_number c - 1)
            && (line_number c - 1 <? Z.of_nat (length lines))) eqn:Hr;
    cbn [negb]; [|split; assumption].
  assert (R : 0 <= line_number c - 1 < Z.of_nat (length lines)) by lia.
  assert (Hd' : forall idx,
             idx ∈ ({[line_number c - 1]} ∪ lines_to_delete st : gset Z) ->
             0 <= idx < Z.of_nat (length lines)).
  { intros idx [->%elem_of_singleton|H]%elem_of_union; auto. }
  assert (Hm' : forall x idx,
             is_Some (<[line_number c - 1 := x]> (line_modifications st)
                      !! idx) ->
             0 <= idx < Z.of_nat (length lines)).
  { intros x idx H. destruct (decide (line_number c - 1 = idx)) as [<-|Hne];
      [exact R|]. rewrite lookup_insert_ne in H by exact Hne. auto. }
  destruct (classification c); try (split; assumption).
  - destruct (suggestion c) as [sugg|]; [|split; assumption].
    destruct (Py.truthy sugg); [|split; assumption].
    destruct (line_modifications st !! (line_number c - 1));
      [split; assumption|].
    split; cbn [lines_to_delete line_modifications]; [exact Hd | apply Hm'].
  - destruct (is_inline c).
    + destruct (Py.truthy _); split;
        cbn [lines_to_delete line_modifications]; auto.
      apply Hm'.
    + destruct (Py.startswith _ _); split;
        cbn [lines_to_delete line_modifications]; auto.
Qed.

Lemma fold_within lines comments st :
  within lines st ->
  within lines (fold_left (process_comment lines) comments st).
Proof.
  revert st. induction comments as [|c cs IH]; intros st H; simpl;
    [exact H|].
  apply IH. now apply process_comment_within.
Qed.

Lemma no_edits_within lines : within lines no_edits.
Proof.
  split; intros idx H; exfalso.
  - revert H. cbn. apply not_elem_of_empty.
  - cbn in H. rewrite lookup_empty in H. now destruct H.
Qed.

Lemma modifications_applied (del : gset Z) (mods : gmap Z string)
      (lines : list string) :
  (forall idx, is_Some (mods !! idx) -> 0 <= idx < Z.of_nat (length lines)) ->
  map_fold
    (fun idx new_content lines =>
       if bool_decide (idx ∈ del) then lines
       else <[Z.to_nat idx := new_content]> lines)
    lines mods
  = imap (modified del mods) lines.
Proof.
  revert mods. apply (map_fold_weak_ind
    (fun r (m : gmap Z string) =>
       (forall idx, is_Some (m !! idx) ->
                    0 <= idx < Z.of_nat (length lines)) ->
       r = imap (modified del m) lines)).
  - intros _. apply list_eq. intros i. rewrite list_lookup_imap.
    destruct (lines !! i) as [line|]; [|reflexivity]. simpl.
    unfold modified. rewrite lookup_empty. simpl.
    destruct (bool_decide _); reflexivity.
  - intros idx x m r Hnone IH Hrange.
    assert (Hm : forall k, is_Some (m !! k) ->
                           0 <= k < Z.of_nat (length lines)).
    { intros k Hk. apply Hrange.
      destruct (decide (idx = k)) as [->|Hne].
      - rewrite Hnone in Hk. now destruct Hk.
      - now rewrite lookup_insert_ne. }
    specialize (IH Hm). subst r.
    assert (Hidx : 0 <= idx < Z.of_nat (length lines)).
    { apply Hrange. rewrite lookup_insert_eq. eauto. }
    apply list_eq. intros i.
    destruct (bool_decide (idx ∈ del)) eqn:Hdel.
    + rewrite !list_lookup_imap.
      destruct (lines !! i) as [line|]; [|reflexivity]. simpl. f_equal.
      unfold modified.
      destruct (bool_decide (Z.of_nat i ∈ del)) eqn:Hi; [reflexivity|].
      rewrite lookup_insert_ne; [reflexivity|].
      intros ->. congruence.
    + destruct (decide (Z.to_nat idx = i)) as [<-|Hne].
      * rewrite list_lookup_insert_eq by (rewrite length_imap; lia).
        rewrite list_lookup_imap.
        destruct (lines !! Z.to_nat idx) as [line|] eqn:El.
        -- simpl. f_equal. unfold modified.
           rewrite Z2Nat.id by lia. rewrite Hdel, lookup_insert_eq.
           reflexivity.
        -- apply lookup_ge_None in El. lia.
      * rewrite list_lookup_insert_ne by exact Hne.
        rewrite !list_lookup_imap.
        destruct (lines !! i) as [line|]; [|reflexivity]. simpl. f_equal.
        unfold modified.
        destruct (bool_decide (Z.of_nat i ∈ del)); [reflexivity|].
        rewrite lookup_insert_ne; [reflexivity|]. lia.
Qed.

Lemma keep_from_ext (D1 D2 : gset Z) lines : forall k,
  (forall i, k <= i -> (i ∈ D1 <-> i ∈ D2)) ->
  keep_from D1 k lines = keep_from D2 k lines.
Proof.
  induction lines as [|x r IH]; intros k H; simpl; [reflexivity|].
  rewrite (IH (k + 1)) by (intros; apply H; lia).
  destruct (bool_decide (k ∈ D1)) eqn:E1, (bool_decide (k ∈ D2)) eqn:E2;
    try reflexivity; exfalso.
  - apply bool_decide_eq_true in E1. apply bool_decide_eq_false in E2.
    apply E2, H; [lia | exact E1].
  - apply bool_decide_eq_false in E1. apply bool_decide_eq_true in E2.
    apply E1, H; [lia | exact E2].
Qed.

Lemma keep_from_all (D : gset Z) lines : forall k,
  (forall i, k <= i -> i ∉ D) -> keep_from D k lines = lines.
Proof.
  induction lines as [|x r IH]; intros k H; simpl; [reflexivity|].
  rewrite (IH (k + 1)) by (intros; apply H; lia).
  rewrite bool_decide_eq_false_2 by (apply H; lia). reflexivity.
Qed.

(** Deleting one line more, above all the others. *)
Lemma keep_from_delete (D : gset Z) lines : forall k (n : nat),
  (forall i, i ∈ D -> i < k + Z.of_nat n) ->
  (n < length lines)%nat ->
  keep_from D k (delete n lines)
  = keep_from ({[k + Z.of_nat n]} ∪ D) k lines.
Proof.
  induction lines as [|x r IH]; intros k n HD Hn; [simpl in Hn; lia|].
  destruct n as [|n].
  - change (delete 0%nat (x :: r)) with r. cbn [keep_from].
    rewrite Z.add_0_r in *.
    rewrite (bool_decide_eq_true_2 (k ∈ {[k]} ∪ D)) by set_solver.
    rewrite !keep_from_all; [reflexivity| |].
    + intros i Hi [Hk%elem_of_singleton|Hin]%elem_of_union; [lia|].
      specialize (HD i Hin). lia.
    + intros i Hi Hin. specialize (HD i Hin). lia.
  - change (delete (S n) (x :: r)) with (x :: delete n r).
    cbn [keep_from].
    rewrite (IH (k + 1) n).
    2:{ intros i Hi. specialize (HD i Hi). lia. }
    2:{ simpl in Hn. lia. }
    replace (k + 1 + Z.of_nat n) with (k + Z.of_nat (S n)) by lia.
    destruct (bool_decide (k ∈ D)) eqn:E.
    + rewrite bool_decide_eq_true_2; [reflexivity|].
      apply bool_decide_eq_true in E. set_solver.
    + rewrite bool_decide_eq_false_2; [reflexivity|].
      apply bool_decide_eq_false in E.
      intros [Hk%elem_of_singleton|Hin]%elem_of_union; [lia | auto].
Qed.

Lemma deletions_applied (ds : list Z) : forall lines,
  StronglySorted (fun a b => b < a) ds ->
  (forall d, In d ds -> 0 <= d < Z.of_nat (length lines)) ->
  fold_left
    (fun lines idx =>
       if (0 <=? idx) && (idx <? Z.of_nat (length lines))
       then delete (Z.to_nat idx) lines
       else lines)
    ds lines
  = keep_from (list_to_set ds) 0 lines.
Proof.
  induction ds as [|d ds IH]; intros lines Hs Hr.
  - simpl. symmetry. apply keep_from_all. intros i _. set_solver.
  - cbn [fold_left list_to_set].
    apply StronglySorted_inv in Hs as [Hs Hd].
    assert (Rd : 0 <= d < Z.of_nat (length lines)) by (apply Hr; now left).
    replace ((0 <=? d) && (d <? Z.of_nat (length lines))) with true by lia.
    assert (Hlen : length (delete (Z.to_nat d) lines)
                   = (length lines - 1)%nat).
    { apply length_delete. apply lookup_lt_is_Some. lia. }
    rewrite IH; [|exact Hs|].
    + rewrite (keep_from_delete (list_to_set ds) lines 0 (Z.to_nat d)).
      * rewrite Z.add_0_l, Z2Nat.id by lia. reflexivity.
      * intros i Hi. apply elem_of_list_to_set, list_elem_of_In in Hi.
        rewrite List.Forall_forall in Hd. specialize (Hd i Hi). lia.
      * lia.
    + intros d' Hd'. rewrite Hlen.
      rewrite List.Forall_forall in Hd. specialize (Hd d' Hd').
      specialize (Hr d' (or_intror Hd')). lia.
Qed.

Lemma descending_elements (del : gset Z) :
  StronglySorted (fun a b => b < a)
                 (reverse (merge_sort Z.le (elements del))).
Proof.
  assert (Hs : StronglySorted Z.le (merge_sort Z.le (elements del))).
  { apply StronglySorted_merge_sort.
    - exact Z.le_trans.
    - exact Z.le_ge_cases. }
  assert (Hn : NoDup (merge_sort Z.le (elements del))).
  { rewrite merge_sort_Permutation. apply NoDup_elements. }
  induction Hs as [|x l Hl IH Hx]; [constructor|].
  rewrite reverse_cons. apply NoDup_cons in Hn as [Hx' Hn].
  specialize (IH Hn).
  assert (G : forall l1, StronglySorted (fun a b => b < a) l1 ->
                Forall (fun y => x < y) l1 ->
                StronglySorted (fun a b => b < a) (l1 ++ [x])).
  { clear. induction 1 as [|y l1 Hl1 IH Hy]; intros Hall; simpl.
    - repeat constructor.
    - apply List.Forall_cons_iff in Hall as [Hxy Hall].
      constructor; [now apply IH|].
      apply Forall_app. split; [exact Hy|]. repeat constructor. exact Hxy. }
  apply G; [exact IH|].
  apply List.Forall_forall. intros y Hy.
  apply list_elem_of_In in Hy. rewrite elem_of_reverse in Hy.
  assert (x <= y).
  { rewrite List.Forall_forall in Hx. apply Hx.
    apply list_elem_of_In. exact Hy. }
  assert (x <> y) by (intros ->; contradiction).
  lia.
Qed.

Lemma keep_modified st lines : forall (k : nat) (f : nat -> string -> string),
  (forall i line, f i line
                  = modified (lines_to_delete st) (line_modifications st)
                             (k + i) line) ->
  keep_from (lines_to_delete st) (Z.of_nat k) (imap f lines)
  = edited_from st (Z.of_nat k) lines.
Proof.
  induction lines as [|x r IH]; intros k f Hf; [reflexivity|].
  rewrite imap_cons. cbn [keep_from edited_from].
  replace (Z.of_nat k + 1) with (Z.of_nat (S k)) by lia.
  rewrite (IH (S k) (f ∘ S))
    by (intros i line; simpl; rewrite Hf; f_equal; lia).
  destruct (bool_decide (Z.of_nat k ∈ lines_to_delete st)) eqn:E;
    [reflexivity|].
  f_equal. rewrite Hf. unfold modified.
  rewrite Nat.add_0_r, E. reflexivity.
Qed.

Lemma apply_edits_within lines st :
  within lines st -> apply_edits lines st = edited_from st 0 lines.
Proof.
  intros [Hd Hm]. unfold apply_edits.
  rewrite (modifications_applied _ _ _ Hm).
  rewrite deletions_applied.
  - rewrite (list_to_set_perm_L _ (elements (lines_to_delete st)))
      by (rewrite reverse_Permutation; apply merge_sort_Permutation).
    rewrite list_to_set_elements_L.
    apply (keep_modified st lines 0). reflexivity.
  - apply descending_elements.
  - intros d Hin. rewrite length_imap. apply Hd.
    apply list_elem_of_In in Hin.
    rewrite elem_of_reverse, merge_sort_Permutation in Hin.
    now apply elem_of_elements in Hin.
Qed.

(** X15. The edits are applied line by line.  After the loop over the
    comments, applying the modifications and then deleting from the
    bottom up gives the lines of the input in their order, without
    the lines marked for deletion and with each modified line
    replaced by its modification. *)
Theorem edits_apply_line_by_line lines comments :
  let st := fold_left (process_comment lines) comments no_edits in
  apply_edits lines st = edited_from st 0 lines.
Proof.
  cbv zeta. apply apply_edits_within, fold_within, no_edits_within.
Qed.

(** What one round of the loop adds to the modifications. *)
Lemma process_comment_modifies lines st c idx new_line :
  line_modifications (process_comment lines st c) !! idx = Some new_line ->
  line_modifications st !! idx = Some new_line
  \/ (line_number c - 1 = idx
      /\ is_docstring c = false
      /\ (cut_before lines c new_line
          \/ preceded_by_suggestion lines c new_line)).
Proof.
  unfold process_comment.
  destruct (is_docstring c) eqn:Hd; [tauto|].
  destruct ((0 <=? line_number c - 1)
            && (line_number c - 1 <? Z.of_nat (length lines))) eqn:Hr;
    cbn [negb]; [|tauto].
  destruct (getitem_in_range lines (line_number c - 1)) as [old Hold];
    [lia|].
  rewrite Hold.
  destruct (classification c) eqn:Hc; try tauto.
  - destruct (suggestion c) as [sugg|] eqn:Hs; [|tauto].
    destruct (Py.truthy sugg); [|tauto].
    destruct (line_modifications st !! (line_number c - 1)) eqn:Hm;
      [tauto|].
    cbn [line_modifications].
    destruct (decide (line_number c - 1 = idx)) as [E|Hne].
    + rewrite E, lookup_insert_eq. intros H. injection H as <-.
      right. repeat split; try assumption. right.
      exists old, sugg. repeat split; congruence.
    + rewrite lookup_insert_ne by exact Hne. tauto.
  - destruct (is_inline c) eqn:Hi.
    + destruct (Py.truthy (Py.strip (Py.rstrip
                  (Py.slice_to old (column c))))) eqn:Ht;
        cbn [line_modifications]; [|tauto].
      destruct (decide (line_number c - 1 = idx)) as [E|Hne].
      * rewrite E, lookup_insert_eq. intros H. injection H as <-.
        right. repeat split; try assumption. left.
        exists old. repeat split; try congruence.
        intros E'. rewrite E' in Ht. discriminate Ht.
      * rewrite lookup_insert_ne by exact Hne. tauto.
    + destruct (Py.startswith (Py.strip old) "#");
        cbn [line_modifications]; tauto.
Qed.

(** X16. A modified line keeps its code.  Every modification that
    the loop of [rewrite_file] records for a line comes from a
    comment of that line which is no docstring, and is one of two:
    the line cut before an inline comment to delete, with code
    remaining; or the whole line preceded by the lines of the
    suggestion made for a comment to rewrite, indented as the line
    is. *)
Theorem modified_lines_keep_the_code lines comments idx new_line :
  line_modifications
    (fold_left (process_comment lines) comments no_edits) !! idx
  = Some new_line ->
  exists c, In c comments
            /\ line_number c - 1 = idx
            /\ is_docstring c = false
            /\ (cut_before lines c new_line
                \/ preceded_by_suggestion lines c new_line).
Proof.
  assert (G : forall st,
             line_modifications
               (fold_left (process_comment lines) comments st) !! idx
             = Some new_line ->
             line_modifications st !! idx = Some new_line
             \/ exists c, In c comments
                          /\ line_number c - 1 = idx
                          /\ is_docstring c = false
                          /\ (cut_before lines c new_line
                              \/ preceded_by_suggestion lines c new_line)).
  { induction comments as [|c cs IH]; intros st H; simpl in H; [tauto|].
    destruct (IH _ H) as [H'|(c' & Hin & Hrest)].
    - destruct (process_comment_modifies _ _ _ _ _ H') as [?|?]; [tauto|].
      right. exists c. split; [now left | assumption].
    - right. exists c'. split; [now right | assumption]. }
  intros H. destruct (G _ H) as [H'|H']; [|exact H'].
  cbn in H'. rewrite lookup_empty in H'. discriminate H'.
Qed.

Lemma modified_lines_keep_the_code_witness :
  exists c, In c [regular_comment ["x = 1  # set x"]
                    (1, 7, "set x", "# set x", true)]
            /\ line_number c - 1 = 0
            /\ is_docstring c = false
            /\ (cut_before ["x = 1  # set x"] c "x = 1"
                \/ preceded_by_suggestion ["x = 1  # set x"] c "x = 1").
Proof.
  apply (modified_lines_keep_the_code ["x = 1  # set x"]).
  vm_compute. reflexivity.
Defined.

End CommentRewriterFacts.

(* ================================================================== *)
(** * Python's [ast]: [ast.walk]                                     *)
(* ================================================================== *)

Module TraversalFacts.
Import Ast AstFacts.

Lemma levels_children n :
  levels n
  = [n] :: visit_list (fun c acc => zip_levels acc (levels c))
                      (iter_child_nodes n) [].
Proof.
  rewrite <- generic_visit_children. destruct n; reflexivity.
Qed.

Lemma concat_zip_levels a b :
  concat (zip_levels a b) ≡ₚ (concat a ++ concat b)%list.
Proof.
  revert b. induction a as [|x a IH]; intros [|y b]; simpl.
  - reflexivity.
  - reflexivity.
  - now rewrite app_nil_r.
  - rewrite IH. rewrite <- !app_assoc. apply Permutation_app_head.
    rewrite !app_assoc. apply Permutation_app_tail.
    apply Permutation_app_comm.
Qed.

(** [ast.walk] yields the nodes of the tree, each once: the nodes
    the depth-first traversal yields, in another order. *)
Lemma walk_descendants n : walk n ≡ₚ descendants n.
Proof.
  induction n as [n IH] using node_children_ind.
  unfold walk.
  rewrite levels_children, MeasureComplexityFacts.descendants_children.
  cbn [concat app]. apply Permutation_cons; [reflexivity|].
  assert (G : forall acc,
             concat (visit_list (fun c acc => zip_levels acc (levels c))
                                (iter_child_nodes n) acc)
             ≡ₚ (concat acc
                 ++ flat_map descendants (iter_child_nodes n))%list).
  { unfold visit_list.
    induction IH as [|c cs Hc _ IHcs]; intros acc; cbn [fold_left flat_map].
    - now rewrite app_nil_r.
    - rewrite IHcs, concat_zip_levels. fold (walk c). rewrite Hc.
      now rewrite app_assoc. }
  apply (G []).
Qed.

Lemma in_walk n x : In x (walk n) <-> In x (descendants n).
Proof.
  split; apply Permutation_in; [|symmetry]; apply walk_descendants.
Qed.

End TraversalFacts.

(* ================================================================== *)
(** * measure_complexity.py: metrics of parts and of files           *)
(* ================================================================== *)

Module MetricsFacts.
Import Ast AstFacts MeasureComplexity MeasureComplexityFacts.
Local Open Scope Z_scope.

(** ** Metrics of a tree from the metrics of its parts *)

Lemma complexity_sum f :
  calculate_complexity f = 1 + sumZ weight (descendants f).
Proof.
  unfold calculate_complexity, ComplexityAnalyzer.init. apply visit_sum.
Qed.

Lemma sumZ_flat_map w (g : node -> list node) ns :
  sumZ w (flat_map g ns) = sumZ (fun n => sumZ w (g n)) ns.
Proof.
  induction ns as [|n ns IH]; simpl; [reflexivity|].
  now rewrite sumZ_app, IH.
Qed.

(** X17. The complexity of a node is one, plus what the node itself
    adds, plus what each child subtree adds: the branches of a
    nested function or lambda count in the function around it. *)
Theorem complexity_of_parts n :
  calculate_complexity n
  = 1 + weight n
    + sumZ (fun c => calculate_complexity c - 1) (iter_child_nodes n).
Proof.
  rewrite complexity_sum, descendants_children, sumZ_cons, sumZ_flat_map.
  assert (E : sumZ (fun c => sumZ weight (descendants c)) (iter_child_nodes n)
              = sumZ (fun c => calculate_complexity c - 1)
                     (iter_child_nodes n)).
  { induction (iter_child_nodes n) as [|c cs IH]; simpl; [reflexivity|].
    rewrite IH, complexity_sum. lia. }
  lia.
Qed.

Lemma weight_nonneg n : 0 <= extra_operands n -> 0 <= weight n.
Proof.
  unfold weight. intros H.
  destruct n; simpl in *; lia.
Qed.

Lemma sumZ_nonneg w ns : Forall (fun n => 0 <= w n) ns -> 0 <= sumZ w ns.
Proof. induction 1 as [|x xs Hx _ IH]; simpl; lia. Qed.

Lemma weights_nonneg f :
  chains_have_operands f -> Forall (fun n => 0 <= weight n) (descendants f).
Proof.
  unfold chains_have_operands. intros H.
  eapply List.Forall_impl; [|exact H]. intros n. apply weight_nonneg.
Qed.

(** X18. The complexity of a function is at least one, the boolean
    chains having operands. *)
Theorem complexity_at_least_one f :
  chains_have_operands f -> 1 <= calculate_complexity f.
Proof.
  intros H. rewrite complexity_sum.
  pose proof (sumZ_nonneg weight _ (weights_nonneg f H)). lia.
Qed.

Lemma complexity_at_least_one_witness : 1 <= calculate_complexity if_for_and.
Proof.
  apply (complexity_at_least_one if_for_and).
  unfold chains_have_operands. vm_compute.
  repeat constructor; discriminate.
Defined.

(** The nodes of a subtree are nodes of the tree. *)
Lemma descendants_trans f :
  forall g x, In g (descendants f) -> In x (descendants g) ->
              In x (descendants f).
Proof.
  induction f as [f IH] using node_children_ind. intros g x Hg Hx.
  rewrite descendants_children in Hg. destruct Hg as [<-|Hg]; [exact Hx|].
  rewrite (descendants_children f). right.
  apply in_flat_map in Hg as (c & Hc & Hg).
  apply in_flat_map. exists c. split; [exact Hc|].
  rewrite List.Forall_forall in IH. exact (IH c Hc g x Hg Hx).
Qed.

Lemma sumZ_member w ns x :
  Forall (fun n => 0 <= w n) ns -> In x ns -> w x <= sumZ w ns.
Proof.
  induction 1 as [|y ys Hy Hys IH]; simpl; [tauto|].
  pose proof (sumZ_nonneg w ys Hys).
  intros [->|Hin]; [lia|]. specialize (IH Hin). lia.
Qed.

Lemma subtree_weights f :
  Forall (fun n => 0 <= weight n) (descendants f) ->
  forall g, In g (descendants f) ->
    sumZ weight (descendants g) <= sumZ weight (descendants f).
Proof.
  induction f as [f IH] using node_children_ind. intros Hw g Hg.
  rewrite descendants_children in Hg. destruct Hg as [<-|Hg]; [lia|].
  rewrite (descendants_children f) in Hw |- *. rewrite sumZ_cons.
  apply List.Forall_cons_iff in Hw as [Hf Hw].
  apply in_flat_map in Hg as (c & Hc & Hg).
  rewrite List.Forall_forall in IH.
  assert (Hwc : Forall (fun n => 0 <= weight n) (descendants c)).
  { apply List.Forall_forall. intros y Hy.
    rewrite List.Forall_forall in Hw. apply Hw.
    apply in_flat_map. eauto. }
  specialize (IH c Hc Hwc g Hg).
  rewrite sumZ_flat_map.
  assert (Hc' : sumZ weight (descendants c)
                <= sumZ (fun n => sumZ weight (descendants n))
                        (iter_child_nodes f)).
  { apply (sumZ_member (fun n => sumZ weight (descendants n))); [|exact Hc].
    apply List.Forall_forall. intros y Hy. apply sumZ_nonneg.
    apply List.Forall_forall. intros z Hz.
    rewrite List.Forall_forall in Hw. apply Hw.
    apply in_flat_map. eauto. }
  lia.
Qed.

Lemma deepest_member ns x d :
  In x ns ->
  nesting_spec x
  <= visit_list (fun c deepest => Z.max deepest (nesting_spec c)) ns d.
Proof.
  unfold visit_list. revert d.
  induction ns as [|n ns IH]; intros d; simpl; [tauto|].
  intros [->|Hin].
  - pose proof (deepest_lower_bound ns (Z.max d (nesting_spec x))) as L.
    unfold visit_list in L. lia.
  - now apply IH.
Qed.

Lemma subtree_nesting f :
  forall g, In g (descendants f) -> nesting_spec g <= nesting_spec f.
Proof.
  induction f as [f IH] using node_children_ind. intros g Hg.
  rewrite descendants_children in Hg. destruct Hg as [<-|Hg]; [lia|].
  apply in_flat_map in Hg as (c & Hc & Hg).
  rewrite List.Forall_forall in IH. specialize (IH c Hc g Hg).
  rewrite (nesting_children f).
  pose proof (deepest_member (iter_child_nodes f) c 0 Hc).
  destruct (is_block f); simpl; lia.
Qed.

(** X19. Neither metric of a part exceeds that of the whole.  A
    function defined inside another has at most the complexity and
    at most the nesting depth of the function around it: what is
    inside it counts for both. *)
Theorem inner_metrics_bounded_by_outer f g :
  In g (descendants f) ->
  calculate_max_nesting g <= calculate_max_nesting f
  /\ (chains_have_operands f ->
      calculate_complexity g <= calculate_complexity f).
Proof.
  intros Hg. split.
  - rewrite !max_nesting_formula. now apply subtree_nesting.
  - intros Hw. rewrite !complexity_sum.
    pose proof (subtree_weights f (weights_nonneg f Hw) g Hg). lia.
Qed.

Lemma inner_metrics_bounded_by_outer_witness :
  calculate_max_nesting (If Name [Pass] [])
  <= calculate_max_nesting if_in_if.
Proof.
  destruct (inner_metrics_bounded_by_outer if_in_if (If Name [Pass] []))
    as [H _]; [|exact H].
  vm_compute. do 4 right. left. reflexivity.
Defined.

(** ** [elif] *)

Lemma nesting_If test body orelse x :
  In x orelse -> 1 + nesting_spec x <= nesting_spec (If test body orelse).
Proof.
  intros Hx. rewrite (nesting_children (If test body orelse)).
  cbn [is_block Z_of_bool].
  pose proof (deepest_member (iter_child_nodes (If test body orelse)) x 0)
    as D.
  assert (In x (iter_child_nodes (If test body orelse))).
  { unfold iter_child_nodes. cbn [generic_visit].
    rewrite !visit_list_collect. apply in_or_app. now right. }
  specialize (D H). lia.
Qed.

Lemma elif_chain_depth arms :
  forall test body orelse,
    Z.of_nat (length arms) + 1
    <= nesting_spec (If test body (elif_chain arms orelse)).
Proof.
  induction arms as [|[t b] arms IH]; intros test body orelse.
  - cbn [length Z.of_nat]. rewrite nesting_children. cbn [is_block Z_of_bool].
    pose proof (deepest_lower_bound
                  (iter_child_nodes (If test body (elif_chain [] orelse))) 0).
    lia.
  - cbn [elif_chain].
    pose proof (nesting_If test body [If t b (elif_chain arms orelse)]
                  (If t b (elif_chain arms orelse)) (or_introl eq_refl)).
    specialize (IH t b orelse). cbn [length]. lia.
Qed.

(** X20. Every [elif] is a level of nesting.  A function whose body
    is an [if] with [k] branches chained by [elif] has nesting depth
    at least [k], whatever the branches hold. *)
Theorem elif_chain_nests args arms orelse :
  Z.of_nat (length arms)
  <= calculate_max_nesting (FunctionDef args (elif_chain arms orelse)).
Proof.
  rewrite max_nesting_formula.
  destruct arms as [|[t b] arms]; [apply nesting_nonneg|].
  cbn [elif_chain].
  pose proof (elif_chain_depth arms t b orelse) as D.
  pose proof (subtree_nesting
                (FunctionDef args [If t b (elif_chain arms orelse)])
                (If t b (elif_chain arms orelse))) as S.
  cbn [length].
  assert (In (If t b (elif_chain arms orelse))
             (descendants
                (FunctionDef args [If t b (elif_chain arms orelse)]))).
  { rewrite descendants_children. right. apply in_flat_map.
    exists (If t b (elif_chain arms orelse)). split.
    - unfold iter_child_nodes, FunctionDef. cbn [generic_visit].
      rewrite visit_list_collect. simpl. tauto.
    - rewrite descendants_children. now left. }
  specialize (S H). lia.
Qed.

End MetricsFacts.

Module AnalyzeFileFacts.
Import Ast AstFacts MeasureComplexity MeasureComplexityFacts.
Local Open Scope Z_scope.

Lemma max_or_zero_bounds xs :
  (forall x, In x xs -> x <= max_or_zero xs)
  /\ (xs <> [] -> In (max_or_zero xs) xs).
Proof.
  destruct xs as [|x xs]; [split; [intros ? []|congruence]|].
  cbn [max_or_zero].
  assert (G : forall m,
             m <= fold_left Z.max xs m
             /\ (forall y, In y xs -> y <= fold_left Z.max xs m)
             /\ (fold_left Z.max xs m = m \/ In (fold_left Z.max xs m) xs)).
  { induction xs as [|y ys IH]; intros m; simpl.
    - split; [lia|]. split; [tauto|]. now left.
    - destruct (IH (Z.max m y)) as (L & U & A).
      split; [lia|]. split.
      + intros z [<-|Hz]; [lia | now apply U].
      + destruct A as [A|A]; [|now right; right].
        rewrite A. destruct (Z.max_spec m y) as [[_ E]|[_ E]]; rewrite E;
          [right; now left | now left]. }
  destruct (G x) as (L & U & A). split.
  - intros y [<-|Hy]; [exact L | now apply U].
  - intros _. destruct A as [->|A]; [now left | now right].
Qed.

(** X21. The functions a file is measured by.  They are the
    [FunctionDef] nodes of the tree, wherever they stand, methods
    and functions defined inside functions included, and no
    [async def]; the maximal complexity reported is the complexity
    of one of them, and none of them exceeds it; a file without
    functions reports zero. *)
Theorem measured_functions tree :
  (forall n, In n (function_nodes tree)
             <-> In n (descendants tree) /\ is_FunctionDef n = true)
  /\ (forall f, In f (function_nodes tree) ->
                calculate_complexity f <= max_complexity tree
                /\ calculate_max_nesting f <= max_nesting tree)
  /\ (function_nodes tree <> [] ->
      exists f g, In f (function_nodes tree)
                  /\ In g (function_nodes tree)
                  /\ max_complexity tree = calculate_complexity f
                  /\ max_nesting tree = calculate_max_nesting g)
  /\ (function_nodes tree = [] ->
      max_complexity tree = 0 /\ max_nesting tree = 0).
Proof.
  split; [|split; [|split]].
  - intros n. unfold function_nodes. rewrite List.filter_In.
    now rewrite TraversalFacts.in_walk.
  - intros f Hf. unfold max_complexity, max_nesting. split.
    + apply max_or_zero_bounds. now apply in_map.
    + apply max_or_zero_bounds. now apply in_map.
  - intros Hne. unfold max_complexity, max_nesting.
    destruct (max_or_zero_bounds
                (map calculate_complexity (function_nodes tree)))
      as [_ Hc].
    destruct (max_or_zero_bounds
                (map calculate_max_nesting (function_nodes tree)))
      as [_ Hn].
    assert (Hc' : map calculate_complexity (function_nodes tree) <> [])
      by (destruct (function_nodes tree); [congruence | discriminate]).
    assert (Hn' : map calculate_max_nesting (function_nodes tree) <> [])
      by (destruct (function_nodes tree); [congruence | discriminate]).
    apply Hc, in_map_iff in Hc' as (f & Ef & Hf).
    apply Hn, in_map_iff in Hn' as (g & Eg & Hg).
    exists f, g. auto.
  - intros E. unfold max_complexity, max_nesting. rewrite E. split; reflexivity.
Qed.

Lemma measured_functions_witness :
  calculate_complexity if_for_and <= max_complexity (Module [if_for_and])
  /\ calculate_max_nesting if_for_and <= max_nesting (Module [if_for_and]).
Proof.
  apply (proj1 (proj2 (measured_functions (Module [if_for_and])))).
  vm_compute. left. reflexivity.
Defined.

End AnalyzeFileFacts.

(* ================================================================== *)
(** * ast_parser.py: imports, calls, signatures, symbols             *)
(* ================================================================== *)

Module ParseFacts.
Import Ast AstParser.

Lemma truthy_app a b : Py.truthy a = true -> Py.truthy (a ++ b) = true.
Proof. destruct a; [discriminate | reflexivity]. Qed.

(** X22. A submodule is classified as its top-level package: what
    follows the first dot of a module name is not looked at. *)
Theorem submodule_like_top_level top rest :
  Py.truthy top = true ->
  Py.contains top "." = false ->
  _is_likely_internal_module (top ++ "." ++ rest)
  = _is_likely_internal_module top.
Proof.
  intros Hne Hdot. unfold _is_likely_internal_module.
  change ("." ++ rest) with (String "." rest).
  rewrite PyFacts.split_app, (PyFacts.split_one_field "." top Hdot).
  rewrite (truthy_app top (String "." rest) Hne), Hne.
  cbn [negb app hd].
  destruct (Py.startswith top "_"); [reflexivity|].
  destruct (bool_decide _); [reflexivity|].
  destruct (Py.startswith (top ++ String "." rest) ".");
    destruct (Py.startswith top "."); reflexivity.
Qed.

Lemma submodule_like_top_level_witness :
  _is_likely_internal_module ("os" ++ "." ++ "path")
  = _is_likely_internal_module "os".
Proof.
  apply (submodule_like_top_level "os" "path"); reflexivity.
Defined.

(** X23. Imports are found wherever they stand.  Every entry comes
    from an import statement somewhere in the tree, and every
    import statement of the tree, be it inside a function, a class,
    a conditional or a [try], gives its entries: the entries are,
    up to their order, those of the nodes of the tree. *)
Theorem imports_found_anywhere tree :
  parse_imports tree ≡ₚ flat_map imports_of (descendants tree)
  /\ forall info,
       In info (parse_imports tree)
       <-> exists n, In n (descendants tree) /\ In info (imports_of n).
Proof.
  unfold parse_imports. split.
  - apply Permutation_flat_map, TraversalFacts.walk_descendants.
  - intros info. rewrite in_flat_map.
    split; intros (n & Hn & Hi); exists n; split; try exact Hi.
    + now apply TraversalFacts.in_walk.
    + now apply TraversalFacts.in_walk.
Qed.

Local Open Scope Z_scope.

(** ** External calls *)

Lemma first_match_some patterns line p :
  first_match patterns line = Some p ->
  In p patterns /\ found_in line p = true.
Proof.
  induction patterns as [|q qs IH]; simpl; [discriminate|].
  destruct (found_in line q) eqn:E.
  - intros H. injection H as <-. auto.
  - intros H. destruct (IH H). auto.
Qed.

Lemma first_match_none patterns line :
  first_match patterns line = None <->
  forall p, In p patterns -> found_in line p = false.
Proof.
  induction patterns as [|q qs IH]; simpl.
  - split; [intros _ p [] | reflexivity].
  - destruct (found_in line q) eqn:E.
    + split; [discriminate|]. intros H.
      specialize (H q (or_introl eq_refl)). congruence.
    + rewrite IH. split.
      * intros H p [<-|Hp]; auto.
      * intros H p Hp. apply H. now right.
Qed.

Lemma length_take_le n s : (String.length (Py.take n s) <= n)%nat.
Proof.
  revert s. induction n as [|n IH]; intros [|c s]; simpl; try lia.
  specialize (IH s). lia.
Qed.

Lemma in_enumerate {A} (xs : list A) : forall start n x,
  In (n, x) (enumerate start xs) <->
  start <= n /\ nth_error xs (Z.to_nat (n - start)) = Some x.
Proof.
  induction xs as [|y ys IH]; intros start n x; simpl.
  - split; [tauto|]. intros [_ H].
    destruct (Z.to_nat (n - start)); discriminate.
  - rewrite IH. split.
    + intros [E|[Hle Hn]].
      * injection E as <- <-. split; [lia|]. now rewrite Z.sub_diag.
      * split; [lia|].
        replace (Z.to_nat (n - start)) with (S (Z.to_nat (n - (start + 1))))
          by lia.
        exact Hn.
    + intros [Hle Hn].
      destruct (Z.eq_dec n start) as [->|Hne].
      * left. rewrite Z.sub_diag in Hn. simpl in Hn. congruence.
      * right. split; [lia|].
        replace (Z.to_nat (n - start)) with (S (Z.to_nat (n - (start + 1))))
          in Hn by lia.
        exact Hn.
Qed.

Lemma in_calls_on_line n line c :
  In c (calls_on_line n line) <->
  exists patterns,
    In (call_type c, patterns) EXTERNAL_CALL_PATTERNS
    /\ first_match patterns line = Some (pattern c)
    /\ line_number c = n
    /\ context c = Py.slice_to (Py.strip line) 100.
Proof.
  unfold calls_on_line. rewrite in_flat_map. split.
  - intros ([ty ps] & Hin & Hc).
    destruct (first_match ps line) as [p|] eqn:E; [|destruct Hc].
    destruct Hc as [<-|[]]. exists ps. simpl. auto.
  - intros (ps & Hin & Hf & Hn & Hctx).
    exists (call_type c, ps). split; [exact Hin|].
    rewrite Hf. left. destruct c; simpl in *. congruence.
Qed.

Lemma in_find_external_calls content c :
  In c (find_external_calls content) <->
  exists line patterns,
    1 <= line_number c
    /\ nth_error (Py.split Py.LF content) (Z.to_nat (line_number c - 1))
       = Some line
    /\ In (call_type c, patterns) EXTERNAL_CALL_PATTERNS
    /\ first_match patterns line = Some (pattern c)
    /\ context c = Py.slice_to (Py.strip line) 100.
Proof.
  unfold find_external_calls. cbv zeta. rewrite in_flat_map. split.
  - intros ([n line] & Hin & Hc).
    apply in_enumerate in Hin as [Hle Hn].
    apply in_calls_on_line in Hc as (ps & Hps & Hf & <- & Hctx).
    exists line, ps. auto.
  - intros (line & ps & Hle & Hn & Hps & Hf & Hctx).
    exists (line_number c, line). split.
    + apply in_enumerate. auto.
    + apply in_calls_on_line. exists ps. auto.
Qed.

(** X24. What a reported call says.  Every call reported stands for
    a line of the content, numbered from 1: its type is one of the
    five of the table (never "other"), its pattern is listed under
    that type and is found in the line, and its context is the line
    without surrounding white space, cut to 100 characters. *)
Theorem reported_calls_are_found content c :
  In c (find_external_calls content) ->
  1 <= line_number c <= Z.of_nat (length (Py.split Py.LF content))
  /\ In (call_type c) ["database"; "network"; "filesystem"; "messaging"; "ipc"]
  /\ Py.len (context c) <= 100
  /\ exists line patterns,
       nth_error (Py.split Py.LF content) (Z.to_nat (line_number c - 1))
       = Some line
       /\ In (call_type c, patterns) EXTERNAL_CALL_PATTERNS
       /\ In (pattern c) patterns
       /\ found_in line (pattern c) = true
       /\ context c = Py.slice_to (Py.strip line) 100.
Proof.
  intros H. apply in_find_external_calls in H
    as (line & ps & Hle & Hn & Hps & Hf & Hctx).
  apply first_match_some in Hf as [Hp Hfound].
  split; [|split; [|split]].
  - split; [exact Hle|].
    assert (Z.to_nat (line_number c - 1)
            < length (Py.split Py.LF content))%nat
      by (apply nth_error_Some; congruence).
    lia.
  - change ["database"; "network"; "filesystem"; "messaging"; "ipc"]
      with (map fst EXTERNAL_CALL_PATTERNS).
    apply in_map_iff. exists (call_type c, ps). auto.
  - rewrite Hctx. unfold Py.slice_to, Py.len.
    change (100 <? 0) with false. cbv iota.
    pose proof (length_take_le (Z.to_nat 100) (Py.strip line)). lia.
  - exists line, ps. auto.
Qed.

Lemma reported_calls_are_found_witness :
  exists c, In c (find_external_calls "f = open(path)")
            /\ call_type c = "filesystem"
            /\ Py.len (context c) <= 100.
Proof.
  exists {| call_type := "filesystem"; pattern := "\bopen\(";
            line_number := 1; context := "f = open(path)" |}.
  split; [vm_compute; left; reflexivity|].
  split; [reflexivity|].
  apply (reported_calls_are_found
           "f = open(path)"
           {| call_type := "filesystem"; pattern := "\bopen\(";
              line_number := 1; context := "f = open(path)" |}).
  vm_compute. left. reflexivity.
Defined.

Lemma unique_values {K V} (table : list (K * V)) k v v' :
  List.NoDup (map fst table) ->
  In (k, v) table -> In (k, v') table -> v = v'.
Proof.
  induction table as [|[k0 v0] table IH]; simpl; [tauto|].
  intros Hnd. apply List.NoDup_cons_iff in Hnd as [Hk Hnd].
  intros [E|H] [E'|H'].
  - congruence.
  - injection E as -> ->. exfalso. apply Hk.
    apply in_map_iff. exists (k, v'). auto.
  - injection E' as -> ->. exfalso. apply Hk.
    apply in_map_iff. exists (k, v). auto.
  - now apply IH.
Qed.

Lemma one_list_per_type call_type0 patterns patterns' :
  In (call_type0, patterns) EXTERNAL_CALL_PATTERNS ->
  In (call_type0, patterns') EXTERNAL_CALL_PATTERNS ->
  patterns = patterns'.
Proof.
  apply unique_values. unfold EXTERNAL_CALL_PATTERNS. cbn [map fst].
  repeat (apply List.NoDup_cons;
          [cbn [In]; intros H;
           repeat (destruct H as [H|H]; [discriminate H|]); exact H|]).
  apply List.NoDup_nil.
Qed.

(** X25. A match is reported, once.  When a pattern listed under a
    type is found in a line, a call of that type is reported for
    that line, with the first pattern of the type found in the
    line; and no second call of that type for that line. *)
Theorem found_calls_are_reported content n line call_type0 patterns p :
  1 <= n ->
  nth_error (Py.split Py.LF content) (Z.to_nat (n - 1)) = Some line ->
  In (call_type0, patterns) EXTERNAL_CALL_PATTERNS ->
  In p patterns ->
  found_in line p = true ->
  exists first,
    first_match patterns line = Some first
    /\ In {| call_type := call_type0; pattern := first; line_number := n;
             context := Py.slice_to (Py.strip line) 100 |}
          (find_external_calls content)
    /\ forall c, In c (find_external_calls content) ->
                 line_number c = n -> call_type c = call_type0 ->
                 c = {| call_type := call_type0; pattern := first;
                        line_number := n;
                        context := Py.slice_to (Py.strip line) 100 |}.
Proof.
  intros Hn Hline Hps Hp Hfound.
  destruct (first_match patterns line) as [first|] eqn:Hf.
  2:{ rewrite first_match_none in Hf. rewrite (Hf p Hp) in Hfound.
      discriminate. }
  exists first. split; [reflexivity|]. split.
  - apply in_find_external_calls. exists line, patterns. simpl. auto.
  - intros c Hc Hcn Hct.
    apply in_find_external_calls in Hc
      as (line' & ps' & _ & Hline' & Hps' & Hf' & Hctx).
    rewrite Hcn, Hline in Hline'. injection Hline' as <-.
    assert (ps' = patterns)
      by (rewrite Hct in Hps'; exact (one_list_per_type _ _ _ Hps' Hps)).
    subst ps'. rewrite Hf in Hf'. injection Hf' as Hp'.
    destruct c; simpl in *. congruence.
Qed.

Lemma found_calls_are_reported_witness :
  exists c, In c (find_external_calls "rows = db.find(query)")
            /\ call_type c = "database" /\ pattern c = "\.find\(".
Proof.
  destruct (found_calls_are_reported
              "rows = db.find(query)" 1 "rows = db.find(query)" "database"
              (snd (hd (EmptyString, []) EXTERNAL_CALL_PATTERNS)) "\.find\(")
    as (first & Hfirst & Hin & _).
  - lia.
  - reflexivity.
  - left. reflexivity.
  - simpl. tauto.
  - vm_compute. reflexivity.
  - eexists. split; [exact Hin|]. split; [reflexivity|].
    vm_compute in Hfirst. injection Hfirst as <-. reflexivity.
Defined.






(** ** Function signatures *)

Lemma enumerate_lookup {A} (xs : list A) : forall start i,
  enumerate start xs !! i = (fun x => (start + Z.of_nat i, x)) <$> xs !! i.
Proof.
  induction xs as [|x xs IH]; intros start [|i]; simpl; try reflexivity.
  - now rewrite Z.add_0_r.
  - rewrite IH. destruct (xs !! i); simpl; [|reflexivity].
    do 2 f_equal. lia.
Qed.

Lemma enumerate_length {A} (xs : list A) start :
  length (enumerate start xs) = length xs.
Proof.
  revert start. induction xs as [|x xs IH]; intros start; simpl;
    [reflexivity | now rewrite IH].
Qed.

Lemma getitem_lookup {A} (xs : list A) (i : nat) :
  Py.getitem xs (Z.of_nat i) = xs !! i.
Proof.
  unfold Py.getitem. cbv zeta.
  rewrite (proj2 (Z.ltb_ge (Z.of_nat i) 0)) by lia.
  rewrite (proj2 (Z.leb_le 0 (Z.of_nat i))) by lia.
  rewrite Nat2Z.id. cbn [andb].
  destruct (Z.ltb_spec (Z.of_nat i) (Z.of_nat (length xs))) as [H|H].
  - clear H. revert i. induction xs as [|x xs IH]; intros [|i]; simpl; auto.
  - symmetry. apply lookup_ge_None. lia.
Qed.

Section Signatures.

Variable expr : Type.
Variable unparse : expr -> option string.

Local Abbreviation parameters := (parameters expr unparse).
Local Abbreviation right_aligned := (right_aligned expr unparse).
Local Abbreviation get_default_str := (get_default_str expr unparse).

Lemma right_aligned_lookup (a : arguments expr) (i : nat) :
  (i < length (args _ a))%nat ->
  right_aligned a !! i
  = Some (if Z.of_nat i >=? Z.of_nat (length (args _ a))
                            - Z.of_nat (length (defaults _ a))
          then d ← defaults _ a
                     !! Z.to_nat (Z.of_nat i
                                  - (Z.of_nat (length (args _ a))
                                     - Z.of_nat (length (defaults _ a))));
               get_default_str (Some d)
          else None).
Proof.
  intros Hi. unfold AstParser.right_aligned.
  set (na := length (args _ a)) in *. set (nd := length (defaults _ a)).
  destruct (Z.geb_spec (Z.of_nat i) (Z.of_nat na - Z.of_nat nd)) as [H|H].
  - rewrite lookup_app_r by (rewrite length_replicate; lia).
    rewrite length_replicate, list_lookup_fmap, lookup_drop.
    replace (nd - na + (i - (na - nd)))%nat
      with (Z.to_nat (Z.of_nat i - (Z.of_nat na - Z.of_nat nd))) by lia.
    destruct (defaults _ a !! _) as [d|] eqn:E; [reflexivity|].
    apply lookup_ge_None in E. fold nd in E. lia.
  - rewrite lookup_app_l by (rewrite length_replicate; lia).
    rewrite lookup_replicate_2 by lia. reflexivity.
Qed.

Lemma positional_default (a : arguments expr) (i : nat) x p :
  (i < length (args _ a))%nat ->
  positional_parameter expr unparse a (Z.of_nat i) x = Some p ->
  Some (param_default p) = right_aligned a !! i
  /\ param_name p = arg_name _ x.
Proof.
  intros Hi. rewrite right_aligned_lookup by exact Hi.
  unfold positional_parameter. cbv zeta.
  destruct (Z.of_nat i >=? _) eqn:E.
  - replace (Z.of_nat i - (Z.of_nat (length (args _ a))
                           - Z.of_nat (length (defaults _ a))))
      with (Z.of_nat (Z.to_nat
              (Z.of_nat i - (Z.of_nat (length (args _ a))
                             - Z.of_nat (length (defaults _ a)))))) at 1
      by lia.
    rewrite getitem_lookup.
    destruct (defaults _ a !! _) as [d|]; simpl; [|discriminate].
    destruct (get_annotation_str _ _ _) as [an|]; simpl; [|discriminate].
    intros H. injection H as <-. simpl. auto.
  - simpl.
    destruct (get_annotation_str _ _ _) as [an|]; simpl; [|discriminate].
    intros H. injection H as <-. simpl. auto.
Qed.

Lemma keyword_only_default (a : arguments expr) (i : nat) x p :
  keyword_only_parameter expr unparse a (Z.of_nat i) x = Some p ->
  param_default p = get_default_str (mjoin (kw_defaults _ a !! i))
  /\ param_name p = arg_name _ x.
Proof.
  unfold keyword_only_parameter. cbv zeta. rewrite getitem_lookup.
  destruct (Z.ltb_spec (Z.of_nat i) (Z.of_nat (length (kw_defaults _ a))))
    as [H|H].
  - destruct (kw_defaults _ a !! i) as [[d|]|] eqn:E; simpl.
    + destruct (get_annotation_str _ _ _) as [an|]; simpl; [|discriminate].
      intros H'. injection H' as <-. simpl. auto.
    + destruct (get_annotation_str _ _ _) as [an|]; simpl; [|discriminate].
      intros H'. injection H' as <-. simpl. auto.
    + apply lookup_ge_None in E. lia.
  - rewrite (proj2 (lookup_ge_None _ _)) by lia. simpl.
    destruct (get_annotation_str _ _ _) as [an|]; simpl; [|discriminate].
    intros H'. injection H' as <-. simpl. auto.
Qed.

(** X27. Defaults go to the last positional parameters.  When
    [parameters] returns, the parameters are the positional
    arguments followed by the keyword-only ones, by name and in
    order; the positional ones without default come first and the
    defaults are paired, in order, with the last of them; a
    keyword-only parameter has the default at its own index, if
    there is one. *)
Theorem defaults_are_right_aligned (a : arguments expr) ps :
  parameters a = Some ps ->
  map param_name ps
  = map (arg_name expr) (app (args _ a) (kwonlyargs _ a))
  /\ map param_default (take (length (args _ a)) ps) = right_aligned a
  /\ map param_default (drop (length (args _ a)) ps)
     = map (fun i => get_default_str (mjoin (kw_defaults _ a !! i)))
           (seq 0 (length (kwonlyargs _ a))).
Proof.
  unfold AstParser.parameters.
  destruct (mapM _ (enumerate 0 (args _ a))) as [pos|] eqn:Hpos;
    [|discriminate].
  destruct (mapM _ (enumerate 0 (kwonlyargs _ a))) as [kw|] eqn:Hkw;
    [|discriminate].
  simpl. intros H. injection H as <-.
  apply mapM_Some in Hpos, Hkw.
  pose proof (Forall2_length _ _ _ Hpos) as Lpos.
  pose proof (Forall2_length _ _ _ Hkw) as Lkw.
  rewrite enumerate_length in Lpos, Lkw.
  assert (Ppos : forall i p, pos !! i = Some p ->
             exists x, args _ a !! i = Some x
                       /\ Some (param_default p) = right_aligned a !! i
                       /\ param_name p = arg_name _ x).
  { intros i p Hp.
    destruct (Forall2_lookup_r _ _ _ _ _ Hpos Hp) as ([j x] & Hx & Hf).
    rewrite enumerate_lookup in Hx.
    destruct (args _ a !! i) as [x'|] eqn:Ex; [|discriminate].
    simpl in Hx. injection Hx as <- <-. exists x'. split; [reflexivity|].
    apply (positional_default a i x'); [|exact Hf].
    apply lookup_lt_Some in Ex. exact Ex. }
  assert (Pkw : forall i p, kw !! i = Some p ->
             exists x, kwonlyargs _ a !! i = Some x
                       /\ param_default p
                          = get_default_str (mjoin (kw_defaults _ a !! i))
                       /\ param_name p = arg_name _ x).
  { intros i p Hp.
    destruct (Forall2_lookup_r _ _ _ _ _ Hkw Hp) as ([j x] & Hx & Hf).
    rewrite enumerate_lookup in Hx.
    destruct (kwonlyargs _ a !! i) as [x'|] eqn:Ex; [|discriminate].
    simpl in Hx. injection Hx as <- <-. exists x'. split; [reflexivity|].
    apply (keyword_only_default a i x'). exact Hf. }
  split; [|split].
  - rewrite !map_app. f_equal.
    + apply list_eq. intros i. change map with (@fmap list _) at 1 2.
      rewrite !list_lookup_fmap.
      destruct (pos !! i) as [p|] eqn:Ep.
      * destruct (Ppos i p Ep) as (x & Hx & _ & Hn). rewrite Hx. simpl.
        now rewrite Hn.
      * apply lookup_ge_None in Ep.
        rewrite (proj2 (lookup_ge_None (args _ a) i)) by lia. reflexivity.
    + apply list_eq. intros i. change map with (@fmap list _) at 1 2.
      rewrite !list_lookup_fmap.
      destruct (kw !! i) as [p|] eqn:Ep.
      * destruct (Pkw i p Ep) as (x & Hx & _ & Hn). rewrite Hx. simpl.
        now rewrite Hn.
      * apply lookup_ge_None in Ep.
        rewrite (proj2 (lookup_ge_None (kwonlyargs _ a) i)) by lia.
        reflexivity.
  - rewrite Lpos, take_app_length.
    apply list_eq. intros i. change map with (@fmap list _) at 1.
    rewrite list_lookup_fmap.
    destruct (pos !! i) as [p|] eqn:Ep.
    + destruct (Ppos i p Ep) as (x & _ & Hd & _). now rewrite <- Hd.
    + apply lookup_ge_None in Ep. symmetry. apply lookup_ge_None.
      unfold AstParser.right_aligned.
      rewrite length_app, length_replicate, length_map, length_drop. lia.
  - rewrite Lpos, drop_app_length.
    apply list_eq. intros i. change map with (@fmap list _).
    rewrite !list_lookup_fmap.
    destruct (kw !! i) as [p|] eqn:Ep.
    + destruct (Pkw i p Ep) as (x & Hx & Hd & _).
      apply lookup_lt_Some in Hx.
      rewrite lookup_seq_lt by exact Hx. simpl. now rewrite Hd.
    + apply lookup_ge_None in Ep.
      rewrite (proj2 (lookup_ge_None (seq 0 _) i))
        by (rewrite length_seq; lia).
      reflexivity.
Qed.

Lemma positional_fails (a : arguments expr) (i : nat) x :
  (i < length (args _ a))%nat ->
  positional_parameter expr unparse a (Z.of_nat i) x = None ->
  get_annotation_str expr unparse (annotation _ x) = None.
Proof.
  intros Hi. unfold positional_parameter. cbv zeta.
  destruct (Z.of_nat i >=? _) eqn:E.
  - replace (Z.of_nat i - (Z.of_nat (length (args _ a))
                           - Z.of_nat (length (defaults _ a))))
      with (Z.of_nat (Z.to_nat
              (Z.of_nat i - (Z.of_nat (length (args _ a))
                             - Z.of_nat (length (defaults _ a)))))) at 1
      by lia.
    rewrite getitem_lookup.
    destruct (defaults _ a !! _) as [d|] eqn:Ed; simpl.
    + destruct (get_annotation_str _ _ _); [discriminate | reflexivity].
    + apply lookup_ge_None in Ed. lia.
  - simpl. destruct (get_annotation_str _ _ _); [discriminate | reflexivity].
Qed.

Lemma keyword_only_fails (a : arguments expr) (i : nat) x :
  keyword_only_parameter expr unparse a (Z.of_nat i) x = None ->
  get_annotation_str expr unparse (annotation _ x) = None.
Proof.
  unfold keyword_only_parameter. cbv zeta. rewrite getitem_lookup.
  destruct (Z.ltb_spec (Z.of_nat i) (Z.of_nat (length (kw_defaults _ a))))
    as [H|H].
  - destruct (kw_defaults _ a !! i) as [[d|]|] eqn:E; simpl.
    + destruct (get_annotation_str _ _ _); [discriminate | reflexivity].
    + destruct (get_annotation_str _ _ _); [discriminate | reflexivity].
    + apply lookup_ge_None in E. lia.
  - simpl. destruct (get_annotation_str _ _ _); [discriminate | reflexivity].
Qed.

Lemma mapM_fails {A B} (f : A -> option B) xs :
  mapM f xs = None -> exists i x, xs !! i = Some x /\ f x = None.
Proof.
  induction xs as [|x xs IH]; simpl; [discriminate|].
  destruct (f x) as [y|] eqn:E; simpl.
  - destruct (mapM f xs); simpl; [discriminate|]. intros _.
    destruct (IH eq_refl) as (i & x' & Hx & Hf). exists (S i), x'. auto.
  - intros _. exists O, x. auto.
Qed.

(** X28. No default is looked up out of range.  [parameters] fails
    only when [ast.unparse] raises on the annotation of a
    parameter: the indexing of [defaults] and [kw_defaults] never
    raises, whatever the lengths of the four lists. *)
Theorem parameters_fail_on_annotations_only (a : arguments expr) :
  parameters a = None ->
  exists x e, In x (app (args _ a) (kwonlyargs _ a))
              /\ annotation _ x = Some e /\ unparse e = None.
Proof.
  unfold AstParser.parameters. intros H.
  assert (G : exists x, In x (app (args _ a) (kwonlyargs _ a))
                        /\ get_annotation_str expr unparse (annotation _ x)
                           = None).
  { destruct (mapM _ (enumerate 0 (args _ a))) as [pos|] eqn:Hpos.
    - destruct (mapM _ (enumerate 0 (kwonlyargs _ a))) as [kw|] eqn:Hkw;
        [discriminate H|].
      apply mapM_fails in Hkw as (i & [j x] & Hx & Hf).
      rewrite enumerate_lookup in Hx.
      destruct (kwonlyargs _ a !! i) as [x'|] eqn:Ex; [|discriminate].
      simpl in Hx. injection Hx as <- <-.
      exists x'. split.
      + apply in_or_app. right. eapply list_elem_of_In, list_elem_of_lookup_2.
        exact Ex.
      + now apply (keyword_only_fails a i).
    - apply mapM_fails in Hpos as (i & [j x] & Hx & Hf).
      rewrite enumerate_lookup in Hx.
      destruct (args _ a !! i) as [x'|] eqn:Ex; [|discriminate].
      simpl in Hx. injection Hx as <- <-.
      exists x'. split.
      + apply in_or_app. left. eapply list_elem_of_In, list_elem_of_lookup_2.
        exact Ex.
      + apply (positional_fails a i); [|exact Hf].
        now apply lookup_lt_Some in Ex. }
  destruct G as (x & Hin & Hann). exists x.
  unfold AstParser.get_annotation_str in Hann.
  destruct (annotation _ x) as [e|]; [|discriminate].
  exists e. destruct (unparse e) eqn:E; [discriminate | auto].
Qed.

End Signatures.

Lemma defaults_are_right_aligned_witness :
  exists ps,
    AstParser.parameters string Some
      {| args := [ {| arg_name := "a"; annotation := None |};
                   {| arg_name := "b"; annotation := Some "int" |};
                   {| arg_name := "c"; annotation := None |} ];
         defaults := ["1"; "None"];
         kwonlyargs := [];
         kw_defaults := [] |}
    = Some ps
    /\ map param_default (take 3 ps) = [None; Some "1"; Some "None"].
Proof.
  eexists. split; [vm_compute; reflexivity|].
  match goal with
  | |- map param_default (take 3 ?ps) = _ =>
      destruct (defaults_are_right_aligned string Some
                  {| args := [ {| arg_name := "a"; annotation := None |};
                               {| arg_name := "b"; annotation := Some "int" |};
                               {| arg_name := "c"; annotation := None |} ];
                     defaults := ["1"; "None"];
                     kwonlyargs := [];
                     kw_defaults := [] |} ps)
        as (_ & H & _); [vm_compute; reflexivity | exact H]
  end.
Defined.

Lemma parameters_fail_on_annotations_only_witness :
  exists x e,
    In x [ {| arg_name := "a"; annotation := Some "?" |} ]
    /\ annotation string x = Some e.
Proof.
  destruct (parameters_fail_on_annotations_only string (fun _ => None)
              {| args := [ {| arg_name := "a"; annotation := Some "?" |} ];
                 defaults := []; kwonlyargs := []; kw_defaults := [] |})
    as (x & e & Hin & Hann & Hun); [vm_compute; reflexivity|].
  exists x, e. auto.
Defined.

(** ** Constants and exported symbols *)

Lemma in_exported body s :
  In s (find_exported_symbols body) ->
  Py.startswith s "_" = false
  /\ exists node, In node body /\ plain node = true
                  /\ In s (find_exported_symbols [node]).
Proof.
  unfold find_exported_symbols at 1. rewrite in_flat_map.
  intros (node & Hnode & Hs).
  assert (Py.startswith s "_" = false
          /\ plain node = true /\ In s (find_exported_symbols [node])).
  { unfold find_exported_symbols. cbn [flat_map]. rewrite app_nil_r.
    destruct node as [n|n|n|ts|t|]; simpl in Hs |- *;
      try (destruct Hs; fail).
    1-3: destruct (Py.startswith n "_") eqn:E; simpl in Hs |- *;
      [destruct Hs|]; destruct Hs as [<-|[]]; auto.
    split; [|split; [reflexivity | exact Hs]].
    apply in_flat_map in Hs as ([id|] & _ & Hid); [|destruct Hid].
    destruct (Py.startswith id "_") eqn:E; simpl in Hid; [destruct Hid|].
    destruct Hid as [<-|[]]. exact E. }
  destruct H as (H1 & H2 & H3). split; [exact H1|]. eauto.
Qed.

Lemma exported_filter body :
  find_exported_symbols (List.filter plain body)
  = find_exported_symbols body.
Proof.
  unfold find_exported_symbols.
  induction body as [|node body IH]; [reflexivity|].
  cbn [List.filter flat_map].
  destruct node as [n|n|n|ts|t|]; cbn [plain flat_map]; rewrite IH;
    reflexivity.
Qed.

(** X29. What is exported, and what is a constant.  No exported
    symbol starts with an underscore; annotated assignments export
    nothing, so removing them from a module body leaves the exported
    symbols as they are; every constant is an upper-case name; and a
    constant assigned without annotation is exported unless it
    starts with an underscore. *)
Theorem exported_symbols_and_constants body :
  Forall (fun s => Py.startswith s "_" = false) (find_exported_symbols body)
  /\ find_exported_symbols (List.filter plain body)
     = find_exported_symbols body
  /\ Forall (fun c => isupper c = true) (find_constants body)
  /\ forall c, In c (find_constants (List.filter plain body)) ->
               Py.startswith c "_" = false ->
               In c (find_exported_symbols body).
Proof.
  split; [|split; [|split]].
  - apply List.Forall_forall. intros s Hs. now apply in_exported in Hs.
  - apply exported_filter.
  - apply List.Forall_forall. intros c. unfold find_constants.
    rewrite in_flat_map. intros (node & _ & Hc).
    destruct node as [n|n|n|ts|[id|]|]; try (destruct Hc; fail).
    + apply in_flat_map in Hc as ([id|] & _ & Hid); [|destruct Hid].
      destruct (isupper id) eqn:E; [|destruct Hid].
      destruct Hid as [<-|[]]. exact E.
    + destruct (isupper id) eqn:E; [|destruct Hc].
      destruct Hc as [<-|[]]. exact E.
  - intros c Hc Hpub. unfold find_constants in Hc.
    apply in_flat_map in Hc as (node & Hnode & Hc).
    apply List.filter_In in Hnode as [Hnode Hplain].
    unfold find_exported_symbols. apply in_flat_map.
    exists node. split; [exact Hnode|].
    destruct node as [n|n|n|ts|t|]; try (destruct Hc; fail);
      [|discriminate Hplain].
    apply in_flat_map in Hc as ([id|] & Hts & Hid); [|destruct Hid].
    destruct (isupper id); [|destruct Hid]. destruct Hid as [->|[]].
    apply in_flat_map. exists (TName c). split; [exact Hts|].
    rewrite Hpub. now left.
Qed.

Lemma exported_symbols_and_constants_witness :
  In "MAX" (find_exported_symbols
              [SAssign [TName "MAX"]; SAnnAssign (TName "LIMIT")]).
Proof.
  apply (proj2 (proj2 (proj2 (exported_symbols_and_constants
           [SAssign [TName "MAX"]; SAnnAssign (TName "LIMIT")])))).
  - vm_compute. left. reflexivity.
  - reflexivity.
Defined.

End ParseFacts.
